(** * Quiz generation and scoring pipeline of the MCQ quiz game

    A shallow embedding of [mcq_generator.py] ([clean_json_response],
    [generate_questions_by_difficulty], [generate_quiz]), of the game and
    account handlers of [app.py] ([api_generate_game], [api_submit_game],
    [api_signup], [api_login], [api_logout] with [is_logged_in] and
    [get_current_user_id]) and of [create_game_history], [create_user] and
    [verify_user_login] of [database.py].

    Conventions.
    - A Python [str] is a [string] whose characters are code points below
      256; [PyStr.isspace], [PyStr.strip], [PyStr.replace] and [PyStr.lower]
      are CPython's on such text.
    - A Python [int] that counts something is a [nat]; a JSON number is a [Z].
    - Values decoded from JSON are trees of type [json]; a [dict] keeps its
      insertion order, so it is an association list.
    - A raised exception is the [Raise] case of [result]; only subclasses of
      [Exception] are modelled, and [JSONDecodeError] stands for
      [json.JSONDecodeError] and its subclasses.
    - The generation service, [json.loads], the builtin [int] on strings and
      the MySQL server are outside the repository: they are the variables of
      the section [Pipeline]. *)

From Stdlib Require Import Strings.String Strings.Ascii Lists.List ZArith.ZArith.
From Stdlib Require Import Arith.PeanoNat Bool.Bool micromega.Lia.
From Stdlib Require Import Sorting.Sorted Sorting.Permutation.
From Stdlib Require Import Numbers.DecimalString.
Import ListNotations.
Open Scope string_scope.
Set Warnings "-register-all".

(** ** Exceptions and results *)

Inductive exn : Type :=
| KeyError
| TypeError
| AttributeError
| ValueError
| IndexError
| JSONDecodeError
| UnboundLocalError
| OtherError (name : string).

Inductive result (A : Type) : Type :=
| Ok (a : A)
| Raise (e : exn).

Arguments Ok {A} a.
Arguments Raise {A} e.

Definition bind {A B : Type} (m : result A) (k : A -> result B) : result B :=
  match m with
  | Ok a => k a
  | Raise e => Raise e
  end.

Notation "x <- m ;; k" := (bind m (fun x => k))
  (at level 61, m at next level, right associativity).

Fixpoint mapM {A B : Type} (f : A -> result B) (l : list A) : result (list B) :=
  match l with
  | [] => Ok []
  | a :: l' => b <- f a ;; bs <- mapM f l' ;; Ok (b :: bs)
  end.

(** ** Python strings *)

Module PyStr.

(** [str.isspace] of one character. *)
Definition isspace (c : ascii) : bool :=
  let n := nat_of_ascii c in
  (((9 <=? n) && (n <=? 13)) || ((28 <=? n) && (n <=? 32))
   || (n =? 133) || (n =? 160))%nat.

Fixpoint lstrip (s : string) : string :=
  match s with
  | EmptyString => EmptyString
  | String c s' => if isspace c then lstrip s' else s
  end.

Fixpoint rstrip (s : string) : string :=
  match s with
  | EmptyString => EmptyString
  | String c s' =>
      match rstrip s' with
      | EmptyString => if isspace c then EmptyString else String c EmptyString
      | r => String c r
      end
  end.

(** [s.strip()] *)
Definition strip (s : string) : string := rstrip (lstrip s).

Fixpoint intersperse_after (new s : string) : string :=
  match s with
  | EmptyString => EmptyString
  | String c s' => String c (new ++ intersperse_after new s')
  end.

(** Left-to-right replacement of the non-overlapping occurrences of a
    non-empty [old]; [skip] counts the characters of a match still to drop. *)
Fixpoint replace_from (old new : string) (skip : nat) (s : string) : string :=
  match s with
  | EmptyString => EmptyString
  | String c s' =>
      match skip with
      | S k => replace_from old new k s'
      | O =>
          if String.prefix old s
          then new ++ replace_from old new (String.length old - 1) s'
          else String c (replace_from old new 0 s')
      end
  end.

(** [s.replace(old, new)] *)
Definition replace (old new s : string) : string :=
  match old with
  | EmptyString => new ++ intersperse_after new s
  | _ => replace_from old new 0 s
  end.

Definition lower_char (c : ascii) : ascii :=
  let n := nat_of_ascii c in
  if (((65 <=? n) && (n <=? 90))
      || ((192 <=? n) && (n <=? 222) && negb (n =? 215)))%nat
  then ascii_of_nat (n + 32)
  else c.

(** [s.lower()] *)
Fixpoint lower (s : string) : string :=
  match s with
  | EmptyString => EmptyString
  | String c s' => String (lower_char c) (lower s')
  end.

(** [str(n)] of a non-negative [int], as an f-string prints it. *)
Definition of_nat (n : nat) : string :=
  NilEmpty.string_of_uint (Nat.to_uint n).

(** [old in s] *)
Fixpoint contains (old s : string) : bool :=
  String.prefix old s
  || match s with
     | EmptyString => false
     | String _ s' => contains old s'
     end.

End PyStr.

(** ** JSON values, as [json.loads] and [request.get_json] build them *)

Inductive json : Type :=
| JNull
| JBool (b : bool)
| JNum (z : Z)
| JStr (s : string)
| JArr (l : list json)
| JObj (kvs : list (string * json)).

Module Py.

Fixpoint lookup (key : string) (kvs : list (string * json)) : option json :=
  match kvs with
  | [] => None
  | (k, v) :: kvs' => if String.eqb k key then Some v else lookup key kvs'
  end.

(** [d.keys()] *)
Definition keys (d : json) : result (list string) :=
  match d with
  | JObj kvs => Ok (map fst kvs)
  | _ => Raise AttributeError
  end.

(** [d[key]] for a string [key] *)
Definition getitem (d : json) (key : string) : result json :=
  match d with
  | JObj kvs =>
      match lookup key kvs with
      | Some v => Ok v
      | None => Raise KeyError
      end
  | _ => Raise TypeError
  end.

(** [d.get(key, default)] *)
Definition get (d : json) (key : string) (default : json) : result json :=
  match d with
  | JObj kvs =>
      match lookup key kvs with
      | Some v => Ok v
      | None => Ok default
      end
  | _ => Raise AttributeError
  end.

(** [len(v)] *)
Definition len (v : json) : result nat :=
  match v with
  | JArr l => Ok (List.length l)
  | JStr s => Ok (String.length s)
  | JObj kvs => Ok (List.length kvs)
  | _ => Raise TypeError
  end.

(** [v[i]] for a non-negative [int] index; the keys of a decoded JSON object
    are strings, so an [int] is never one of them. *)
Definition index (v : json) (i : nat) : result json :=
  match v with
  | JArr l =>
      match nth_error l i with
      | Some x => Ok x
      | None => Raise IndexError
      end
  | JStr s =>
      match String.get i s with
      | Some c => Ok (JStr (String c EmptyString))
      | None => Raise IndexError
      end
  | JObj _ => Raise KeyError
  | _ => Raise TypeError
  end.

(** [v.lower()] *)
Definition lower (v : json) : result string :=
  match v with
  | JStr s => Ok (PyStr.lower s)
  | _ => Raise AttributeError
  end.

(** Truth value of [v], as [not v] and [if v] test it. *)
Definition truthy (v : json) : bool :=
  match v with
  | JNull => false
  | JBool b => b
  | JNum z => negb (Z.eqb z 0)
  | JStr s => negb (String.eqb s EmptyString)
  | JArr l => match l with [] => false | _ => true end
  | JObj kvs => match kvs with [] => false | _ => true end
  end.

(** Stable insertion of [x] into a list sorted by its first components. *)
Fixpoint insert_by_key {A : Type} (x : Z * A) (l : list (Z * A)) : list (Z * A) :=
  match l with
  | [] => [x]
  | y :: l' =>
      if Z.leb (fst x) (fst y) then x :: y :: l' else y :: insert_by_key x l'
  end.

Definition sort_by_key {A : Type} (l : list (Z * A)) : list (Z * A) :=
  fold_right insert_by_key [] l.

(** [v.strip()] *)
Definition strip (v : json) : result string :=
  match v with
  | JStr s => Ok (PyStr.strip s)
  | _ => Raise AttributeError
  end.

End Py.

(** ** State and exceptions together

    A computation that reads and writes a state [S] and may raise; the state
    at the moment of a raise is kept. *)

Definition M (S A : Type) : Type := S -> result A * S.

Definition ret {S A : Type} (a : A) : M S A := fun s => (Ok a, s).

Definition lift {S A : Type} (r : result A) : M S A := fun s => (r, s).

Definition bindM {S A B : Type} (m : M S A) (k : A -> M S B) : M S B :=
  fun s =>
    match m s with
    | (Ok a, s') => k a s'
    | (Raise e, s') => (Raise e, s')
    end.

Notation "x <-- m ;; k" := (bindM m (fun x => k))
  (at level 61, m at next level, right associativity).

(** ** mcq_generator.py: data *)

(** One standardized question object of [generate_quiz]. *)
Record question_obj : Type := {
  question_number : nat;
  question : json;
  options : json;
  correct : json;
  difficulty : string
}.

(** The dict [generate_quiz] returns; [topic] is present on success only. *)
Record quiz_result : Type := {
  success : bool;
  message : string;
  questions : list question_obj;
  topic : option string
}.

(** The arguments of one [mcq_chain.invoke]. *)
Record call : Type := {
  call_topic : string;
  call_number : nat;
  call_difficulty : string
}.

Definition clean_json_response (response_text : string) : string :=
  let cleaned := PyStr.replace "```json" EmptyString response_text in
  let cleaned := PyStr.replace "```" EmptyString cleaned in
  let cleaned := PyStr.strip cleaned in
  cleaned.

(** [v is None] *)
Definition is_none (v : json) : bool :=
  match v with
  | JNull => true
  | _ => false
  end.

Definition failed (msg : string) : quiz_result :=
  {| success := false; message := msg; questions := []; topic := None |}.

(** ** app.py and database.py: data *)

(** The Flask session: the three keys the handlers use; [None] is an absent
    key. [current_questions] is only ever written with the [questions] of a
    successful [generate_quiz]. *)
Record session : Type := {
  user_id : option Z;
  current_topic : option string;
  current_questions : option (list question_obj)
}.

Module Detail.
(** One entry of [detailed_results]. *)
Record t : Type := {
  question_number : nat;
  user_answer : string;
  correct_answer : string;
  is_correct : bool;
  question : json;
  difficulty : string
}.
End Detail.

(** The two JSON bodies of [api_submit_game]: [{"success": False, "message"}]
    and the scored result with ["success": True]. *)
Inductive body : Type :=
| Failure (message : string)
| Scored (score : nat) (total : nat) (result : string) (topic : json)
         (detailed_results : list Detail.t) (saved : bool).

(** A Flask response: body and status code. *)
Definition http_response : Type := body * nat.

(** The statements [create_game_history] sends to MySQL. *)
Inductive statement : Type :=
| InsertGameHistory (user_id : option Z) (topic : json) (score : nat)
                    (result : string)
| UpdateGamesPlayed (user_id : option Z)
| UpdateGamesWon (user_id : option Z)
| Commit.

Module Saved.
(** The dict [create_game_history] returns. *)
Record t : Type := {
  success : bool;
  message : string
}.
End Saved.

Definition is_logged_in (s : session) : bool :=
  match user_id s with
  | Some _ => true
  | None => false
  end.

Definition get_current_user_id (s : session) : option Z := user_id s.

(** [session.pop("current_questions", None)] then
    [session.pop("current_topic", None)] *)
Definition clear_quiz (s : session) : session :=
  {| user_id := user_id s; current_topic := None; current_questions := None |}.

(** ** Vocabulary of the statements on text *)

(** The number of backticks [s] begins with. *)
Fixpoint leading_backticks (s : string) : nat :=
  match s with
  | EmptyString => 0
  | String c s' => if Ascii.eqb c "`" then S (leading_backticks s') else 0
  end.

(** ** app.py: the generate handler's data *)

(** The two JSON bodies of [api_generate_game]: a refusal
    [{"success": False, "message"}] of the handler itself, and the dict that
    [generate_quiz] returned. *)
Inductive generate_body : Type :=
| Refused (message : string)
| Generated (r : quiz_result).

(** [session["current_topic"] = topic] then
    [session["current_questions"] = questions] *)
Definition store_quiz (s : session) (topic : string)
    (questions : list question_obj) : session :=
  {| user_id := user_id s; current_topic := Some topic;
     current_questions := Some questions |}.

(** ** A database under observation

    The statements sent to a server are kept, in order, beside its state. *)

Definition observed_connect {D : Type} (connect : D -> bool)
    : D * list statement -> bool :=
  fun st => connect (fst st).

Definition observed_execute {D : Type} (execute : D -> statement -> bool * D)
    : D * list statement -> statement -> bool * (D * list statement) :=
  fun st q =>
    let (ok, d) := execute (fst st) q in
    (ok, (d, (snd st ++ [q])%list)).

(** The statements of one saved game, in the order they are sent. *)
Definition history_script (user_id : option Z) (topic : json) (score : nat)
    (result : string) : list statement :=
  ([InsertGameHistory user_id topic score result; UpdateGamesPlayed user_id]
   ++ (if String.eqb result "WON" then [UpdateGamesWon user_id] else [])
   ++ [Commit])%list.

(** Sends the statements of [script] in order and stops at the first one the
    server refuses: whether all were executed, the last state of the
    server, and the statements sent. *)
Fixpoint run_script {D : Type} (execute : D -> statement -> bool * D)
    (db : D) (script : list statement) : bool * D * list statement :=
  match script with
  | [] => (true, db, [])
  | q :: script' =>
      match execute db q with
      | (true, db') =>
          match run_script execute db' script' with
          | (ok, db'', sent) => (ok, db'', q :: sent)
          end
      | (false, db') => (false, db', [q])
      end
  end.

(** ** app.py and database.py: accounts *)

(** The Flask session with its fourth key, [username], beside the three
    keys of the quiz handlers. *)
Record visitor : Type := {
  username : option string;
  state : session
}.

(** [session.clear()] *)
Definition cleared : visitor :=
  {| username := None;
     state := {| user_id := None; current_topic := None;
                 current_questions := None |} |}.

(** The SELECT statements of [create_user] and [verify_user_login], which
    read the [user_id] of at most one row. *)
Inductive account_query : Type :=
| UserByName (username : string)
| UserByLogin (username password : string).

(** What [cursor.execute] followed by [cursor.fetchone] gives: the connector
    raised [mysql.connector.Error], there is no row, or the [user_id] of the
    row. *)
Inductive fetched : Type :=
| FetchError
| NoRow
| Row (user_id : Z).

(** The writing statements of [create_user]. *)
Inductive account_update : Type :=
| InsertUser (username password : string)
| CommitUser.

Module Login.
(** The dict [verify_user_login] returns. *)
Record t : Type := {
  success : bool;
  message : string;
  user_id : option Z
}.
End Login.

(** The JSON bodies of [api_login]: a dict with [success] and [message],
    or, on a failed login, the dict of [verify_user_login]. *)
Inductive login_body : Type :=
| Plain (success : bool) (message : string)
| Verdict (r : Login.t).

(** [not v or not v.strip()] *)
Definition blank (v : json) : result bool :=
  if negb (Py.truthy v) then Ok true
  else t <- Py.strip v ;; Ok (String.eqb t EmptyString).

(** ** Sample surroundings for the examples

    Concrete instances of what the programs take from outside: an [int]
    parser, JSON texts with their decoding, generation services that answer
    by difficulty, and a database that records its statements. *)

Module Sample.

Definition digit (c : ascii) : option Z :=
  let n := nat_of_ascii c in
  if ((48 <=? n) && (n <=? 57))%nat then Some (Z.of_nat (n - 48)) else None.

(** Decimal digits, single underscores allowed between two digits. *)
Fixpoint digits (acc : Z) (after_digit : bool) (s : string) : option Z :=
  match s with
  | EmptyString => if after_digit then Some acc else None
  | String c s' =>
      match digit c with
      | Some d => digits (10 * acc + d) true s'
      | None =>
          if Ascii.eqb c "_" && after_digit then digits acc false s' else None
      end
  end.

Definition ascii_space (c : ascii) : bool :=
  let n := nat_of_ascii c in
  (((9 <=? n) && (n <=? 13)) || (n =? 32))%nat.

Fixpoint lstrip (s : string) : string :=
  match s with
  | EmptyString => EmptyString
  | String c s' => if ascii_space c then lstrip s' else s
  end.

Fixpoint rstrip (s : string) : string :=
  match s with
  | EmptyString => EmptyString
  | String c s' =>
      match rstrip s' with
      | EmptyString =>
          if ascii_space c then EmptyString else String c EmptyString
      | r => String c r
      end
  end.

(** The builtin [int] on ASCII text: blanks around, an optional sign, digits. *)
Definition int (x : string) : option Z :=
  match rstrip (lstrip x) with
  | String "+" r => digits 0 false r
  | String "-" r => option_map Z.opp (digits 0 false r)
  | r => digits 0 false r
  end.

Definition dquote : string := String (ascii_of_nat 34) EmptyString.

Definition newline : string := String (ascii_of_nat 10) EmptyString.

(** [json.dumps] of a value whose strings need no escape. *)
Fixpoint dumps (v : json) : string :=
  match v with
  | JNull => "null"
  | JBool b => if b then "true" else "false"
  | JNum z => NilEmpty.string_of_int (Z.to_int z)
  | JStr s => dquote ++ s ++ dquote
  | JArr l =>
      "[" ++
      (fix items (l : list json) : string :=
         match l with
         | [] => EmptyString
         | x :: l' =>
             dumps x ++ match l' with [] => EmptyString | _ => ", " ++ items l' end
         end) l
      ++ "]"
  | JObj kvs =>
      "{" ++
      (fix members (kvs : list (string * json)) : string :=
         match kvs with
         | [] => EmptyString
         | (k, x) :: kvs' =>
             dquote ++ k ++ dquote ++ ": " ++ dumps x
             ++ match kvs' with [] => EmptyString | _ => ", " ++ members kvs' end
         end) kvs
      ++ "}"
  end.

(** [json.loads] on the texts of the values of [table]; any other text of
    the examples is no JSON. *)
Definition loads (table : list json) (text : string) : result json :=
  match find (fun v => String.eqb (dumps v) text) table with
  | Some v => Ok v
  | None => Raise JSONDecodeError
  end.

(** The answer wrapped in a fenced block, as the service sometimes sends it. *)
Definition fenced (text : string) : string :=
  "```json" ++ newline ++ text ++ newline ++ "```".

(** A service that answers by difficulty alone. *)
Definition service (easy medium hard : result string)
    : list call -> call -> result string :=
  fun _ c =>
    if String.eqb (call_difficulty c) "EASY" then easy
    else if String.eqb (call_difficulty c) "MEDIUM" then medium
    else hard.

Definition four_options : json :=
  JObj [("a", JStr "one"); ("b", JStr "two"); ("c", JStr "three");
        ("d", JStr "four")].

(** One entry as the prompt asks for it. *)
Definition entry (text answer label : string) : json :=
  JObj [("question", JStr text); ("options", four_options);
        ("correct", JStr answer); ("difficulty", JStr label)].

(** A well-formed answer with [n] entries, keyed ["1"] to ["n"]. *)
Definition tier (n : nat) (label : string) : json :=
  JObj (map (fun i => (PyStr.of_nat i, entry ("Q" ++ PyStr.of_nat i) "a" label))
            (seq 1 n)).

(** An entry without its [options] and [correct] fields. *)
Definition bare_entry : json := JObj [("question", JStr "Q1")].

(** An entry with two options and an answer that is none of them. *)
Definition odd_entry : json :=
  JObj [("question", JStr "Q"); ("options", JObj [("x", JStr "one"); ("y", JStr "two")]);
        ("correct", JStr "z")].

Definition odd_tier (n : nat) : json :=
  JObj (map (fun i => (PyStr.of_nat i, odd_entry)) (seq 1 n)).

(** An answer whose keys are out of order, ["10"] before ["2"]. *)
Definition shuffled_tier : json :=
  JObj [("10", entry "tenth" "a" "EASY"); ("2", entry "second" "b" "EASY");
        ("1", entry "first" "c" "EASY")].

Definition unavailable : result string := Raise (OtherError "ServiceUnavailable").

(** An easy answer of five entries whose keys are out of order, ["10"]
    before ["2"]. *)
Definition shuffled_easy : list (string * json) :=
  [("10", entry "tenth" "a" "EASY"); ("2", entry "second" "b" "EASY");
   ("1", entry "first" "c" "EASY"); ("7", entry "seventh" "d" "EASY");
   ("3", entry "third" "a" "EASY")].

(** A database that records the statements it is sent. *)
Definition db : Type := list statement.

Definition db_up (_ : db) : bool := true.

Definition db_down (_ : db) : bool := false.

Definition db_run (d : db) (st : statement) : bool * db := (true, (d ++ [st])%list).

(** A held question with the given correct label. *)
Definition held (n : nat) (answer : string) : question_obj :=
  {| question_number := n; question := JStr ("Q" ++ PyStr.of_nat n);
     options := four_options; correct := JStr answer; difficulty := "EASY" |}.

Definition held_quiz (answers : list string) : list question_obj :=
  map (fun p => held (fst p) (snd p)) (combine (seq 1 (List.length answers)) answers).

Definition logged_in (qs : option (list question_obj)) : session :=
  {| user_id := Some 1%Z; current_topic := Some "Oceans";
     current_questions := qs |}.

Definition submit (answers : list string) : json :=
  JObj [("answers", JArr (map JStr answers))].

(** A service that answers the three tiers with the texts of three values,
    the first one in a fenced block, and the decoding of these texts. *)
Definition answering (easy medium hard : json)
    : list call -> call -> result string :=
  service (Ok (fenced (dumps easy))) (Ok (dumps medium)) (Ok (dumps hard)).

Definition decoding (easy medium hard : json) : string -> result json :=
  loads [easy; medium; hard].

(** The service answers with 4, 4 and 2 entries instead of 5, 3 and 2. *)
Definition uneven_service : list call -> call -> result string :=
  answering (tier 4 "EASY") (tier 4 "MEDIUM") (tier 2 "HARD").

Definition uneven_loads : string -> result json :=
  decoding (tier 4 "EASY") (tier 4 "MEDIUM") (tier 2 "HARD").

(** The first entry of the easy answer has a [question] field only. *)
Definition bare_tier : json := JObj [("1", bare_entry)].

Definition bare_service : list call -> call -> result string :=
  answering bare_tier (tier 3 "MEDIUM") (tier 2 "HARD").

Definition bare_loads : string -> result json :=
  decoding bare_tier (tier 3 "MEDIUM") (tier 2 "HARD").

(** Every entry has two options and an answer that is none of them. *)
Definition odd_service : list call -> call -> result string :=
  answering (odd_tier 5) (odd_tier 3) (odd_tier 2).

Definition odd_loads : string -> result json :=
  decoding (odd_tier 5) (odd_tier 3) (odd_tier 2).

(** The service answers the easy and hard tiers and fails on the medium one. *)
Definition medium_down_service : list call -> call -> result string :=
  service (Ok (dumps (tier 5 "EASY"))) unavailable (Ok (dumps (tier 2 "HARD"))).

Definition medium_down_loads : string -> result json :=
  loads [tier 5 "EASY"; tier 2 "HARD"].

(** The service answers as asked: 5, 3 and 2 well-formed entries. *)
Definition good_service : list call -> call -> result string :=
  answering (tier 5 "EASY") (tier 3 "MEDIUM") (tier 2 "HARD").

Definition good_loads : string -> result json :=
  decoding (tier 5 "EASY") (tier 3 "MEDIUM") (tier 2 "HARD").

(** The easy answer has its keys out of order. *)
Definition shuffled_service : list call -> call -> result string :=
  answering (JObj shuffled_easy) (tier 3 "MEDIUM") (tier 2 "HARD").

Definition shuffled_loads : string -> result json :=
  decoding (JObj shuffled_easy) (tier 3 "MEDIUM") (tier 2 "HARD").

(** The service is down. *)
Definition down_service : list call -> call -> result string :=
  service unavailable unavailable unavailable.

(** The client of the service cannot decode what the service sent: every
    call raises [JSONDecodeError]. *)
Definition undecodable_service : list call -> call -> result string :=
  service (Raise JSONDecodeError) (Raise JSONDecodeError)
          (Raise JSONDecodeError).

Definition easy_call : call :=
  {| call_topic := "Oceans"; call_number := 5; call_difficulty := "EASY" |}.

Definition medium_call : call :=
  {| call_topic := "Oceans"; call_number := 3; call_difficulty := "MEDIUM" |}.

Definition hard_call : call :=
  {| call_topic := "Oceans"; call_number := 2; call_difficulty := "HARD" |}.

(** Ten held questions and three sets of answers: all right in capitals,
    seven right, six right. *)
Definition ten_labels : list string :=
  ["a"; "b"; "c"; "d"; "a"; "b"; "c"; "d"; "a"; "b"].

Definition ten_capitals : list string :=
  ["A"; "B"; "C"; "D"; "A"; "B"; "C"; "D"; "A"; "B"].

Definition seven_right : list string :=
  ["A"; "b"; "C"; "d"; "A"; "b"; "C"; "a"; "b"; "c"].

Definition six_right : list string :=
  ["A"; "b"; "C"; "d"; "A"; "b"; "d"; "a"; "b"; "c"].

Definition nine_answers : list string :=
  ["a"; "b"; "c"; "d"; "a"; "b"; "c"; "d"; "a"].

Definition playing : session := logged_in (Some (held_quiz ten_labels)).

(** A session that holds three questions only. *)
Definition short_quiz : session := logged_in (Some (held_quiz ["a"; "b"; "c"])).


(** The service answers with 5, 3 and 3 entries: eleven questions. *)
Definition eleven_service : list call -> call -> result string :=
  answering (tier 5 "EASY") (tier 3 "MEDIUM") (tier 3 "HARD").

Definition eleven_loads : string -> result json :=
  decoding (tier 5 "EASY") (tier 3 "MEDIUM") (tier 3 "HARD").

(** The easy answer is a JSON array. *)
Definition array_service : list call -> call -> result string :=
  answering (JArr [JStr "Q1"]) (tier 3 "MEDIUM") (tier 2 "HARD").

Definition array_loads : string -> result json :=
  decoding (JArr [JStr "Q1"]) (tier 3 "MEDIUM") (tier 2 "HARD").

(** The key of the easy answer is a word. *)
Definition worded_tier : json := JObj [("one", entry "Q1" "a" "EASY")].

Definition worded_service : list call -> call -> result string :=
  answering worded_tier (tier 3 "MEDIUM") (tier 2 "HARD").

Definition worded_loads : string -> result json :=
  decoding worded_tier (tier 3 "MEDIUM") (tier 2 "HARD").

(** The service answers with a sentence instead of JSON. *)
Definition chatty_service : list call -> call -> result string :=
  service (Ok "Sorry, I cannot help with that.") unavailable unavailable.

(** The body of a generate request. *)
Definition ask (topic : string) : json := JObj [("topic", JStr topic)].

(** A logged-in session without a quiz. *)
Definition idle : session := logged_in None.

(** Nobody is logged in. *)
Definition anonymous : session :=
  {| user_id := None; current_topic := None; current_questions := None |}.

(** A database that refuses every UPDATE. *)
Definition db_no_update (d : db) (st : statement) : bool * db :=
  match st with
  | UpdateGamesPlayed _ | UpdateGamesWon _ => (false, d)
  | _ => (true, (d ++ [st])%list)
  end.

(** The entries of [tier n label]. *)
Definition entries (n : nat) (label : string) : list (string * json) :=
  map (fun i => (PyStr.of_nat i, entry ("Q" ++ PyStr.of_nat i) "a" label))
      (seq 1 n).

(** A response with blanks around it, and the payload of a fenced one. *)
Definition padded_text : string := "  " ++ dumps bare_tier ++ newline.

Definition fenced_payload : string := newline ++ dumps bare_tier ++ newline.

(** Three answers of which the second is a number. *)
Definition mixed_answers : list json := [JStr "a"; JNum 2; JStr "c"].


(** A server with one account, [ada] with the password [lace] and the id 1,
    that executes every writing statement. *)
Definition users_fetch (d : db) (q : account_query) : fetched * db :=
  match q with
  | UserByName u => if String.eqb u "ada" then (Row 1, d) else (NoRow, d)
  | UserByLogin u p =>
      if (String.eqb u "ada" && String.eqb p "lace")%bool
      then (Row 1, d) else (NoRow, d)
  end.

Definition users_write (d : db) (_ : account_update) : bool * db := (true, d).

(** A server that refuses every INSERT into [users]. *)
Definition users_no_insert (d : db) (u : account_update) : bool * db :=
  match u with
  | InsertUser _ _ => (false, d)
  | CommitUser => (true, d)
  end.

Definition credentials (name password : string) : json :=
  JObj [("username", JStr name); ("password", JStr password)].

(** A visitor who is logged in as [ada] and holds a quiz. *)
Definition ada : visitor := {| username := Some "ada"; state := playing |}.

(** A visitor who is not logged in. *)
Definition stranger : visitor := {| username := None; state := anonymous |}.
End Sample.

(** ** The programs *)

Section Pipeline.

(** [mcq_chain.invoke]: the text the generation service answers, or the
    exception it raises, given the calls made before and the current one. *)
Variable mcq_chain_invoke : list call -> call -> result string.

(** [json.loads] *)
Variable json_loads : string -> result json.

(** The builtin [int] on a [str]; [None] is its [ValueError]. *)
Variable py_int : string -> option Z.

(** The MySQL server: its states, whether [get_db_connection] obtains a
    connection, and the effect of one statement ([false]: the connector
    raised [mysql.connector.Error]). *)
Variable database : Type.
Variable db_connect : database -> bool.
Variable db_execute : database -> statement -> bool * database.

(** *** mcq_generator.py *)

(** The state is the list of the calls made to the service so far.

    The clause [except json.JSONDecodeError] prints [raw_response] before it
    returns [None]. When it is [mcq_chain.invoke] itself that raised the
    [JSONDecodeError], [raw_response] was never assigned: the [print] raises
    [UnboundLocalError] inside the handler, which the clause
    [except Exception] after it does not catch. *)
Definition generate_questions_by_difficulty
    (topic : string) (number : nat) (difficulty : string)
    : M (list call) json :=
  fun log =>
    let c := {| call_topic := topic; call_number := number;
                call_difficulty := difficulty |} in
    match mcq_chain_invoke log c with
    | Ok raw_response =>
        let cleaned_response := clean_json_response raw_response in
        match json_loads cleaned_response with
        | Ok questions_dict => (Ok questions_dict, (log ++ [c])%list)
        | Raise _ => (Ok JNull, (log ++ [c])%list)
        end
    | Raise JSONDecodeError => (Raise UnboundLocalError, (log ++ [c])%list)
    | Raise _ => (Ok JNull, (log ++ [c])%list)
    end.

Definition int_key (x : string) : result (Z * string) :=
  match py_int x with
  | Some n => Ok (n, x)
  | None => Raise ValueError
  end.

(** [sorted(d.keys(), key=lambda x: int(x))] *)
Definition sorted_keys (d : json) : result (list string) :=
  ks <- Py.keys d ;;
  tagged <- mapM int_key ks ;;
  Ok (map snd (Py.sort_by_key tagged)).

(** The body of the three [for key in sorted(...)] loops, which differ in the
    dict they read and in the difficulty label only. *)
Fixpoint add_questions (label : string) (tier : json) (ks : list string)
    (all_questions : list question_obj) : result (list question_obj) :=
  match ks with
  | [] => Ok all_questions
  | key :: ks' =>
      question_data <- Py.getitem tier key ;;
      let n := List.length all_questions + 1 in
      q <- Py.getitem question_data "question" ;;
      o <- Py.getitem question_data "options" ;;
      c <- Py.getitem question_data "correct" ;;
      let question_obj :=
        {| question_number := n; question := q; options := o; correct := c;
           difficulty := label |} in
      add_questions label tier ks' (all_questions ++ [question_obj])%list
  end.

Definition add_tier (label : string) (tier : json)
    (all_questions : list question_obj) : result (list question_obj) :=
  ks <- sorted_keys tier ;;
  add_questions label tier ks all_questions.

Definition generate_quiz (topic : string) : M (list call) quiz_result :=
  if String.eqb topic EmptyString || String.eqb (PyStr.strip topic) EmptyString
  then ret (failed "Please provide a topic for the quiz")
  else
    let topic := PyStr.strip topic in
    let all_questions := [] in
    easy_questions <-- generate_questions_by_difficulty topic 5 "EASY" ;;
    if is_none easy_questions
    then ret (failed "Failed to generate easy questions. Please try again.")
    else
      all_questions <-- lift (add_tier "EASY" easy_questions all_questions) ;;
      medium_questions <-- generate_questions_by_difficulty topic 3 "MEDIUM" ;;
      if is_none medium_questions
      then ret (failed "Failed to generate medium questions. Please try again.")
      else
        all_questions <-- lift (add_tier "MEDIUM" medium_questions all_questions) ;;
        hard_questions <-- generate_questions_by_difficulty topic 2 "HARD" ;;
        if is_none hard_questions
        then ret (failed "Failed to generate hard questions. Please try again.")
        else
          all_questions <-- lift (add_tier "HARD" hard_questions all_questions) ;;
          if negb (List.length all_questions =? 10)%nat
          then ret (failed ("Expected 10 questions but got "
                            ++ PyStr.of_nat (List.length all_questions)
                            ++ ". Please try again."))
          else ret {| success := true;
                      message := "Quiz generated successfully";
                      questions := all_questions;
                      topic := Some topic |}.

(** *** database.py *)

Definition create_game_history (user_id : option Z) (topic : json)
    (score : nat) (result : string) : database -> Saved.t * database :=
  fun db =>
    if negb (db_connect db)
    then ({| Saved.success := false;
             Saved.message := "Database connection failed" |}, db)
    else
      let failure db :=
        ({| Saved.success := false;
            Saved.message := "Failed to save game history" |}, db) in
      match db_execute db (InsertGameHistory user_id topic score result) with
      | (false, db) => failure db
      | (true, db) =>
      match db_execute db (UpdateGamesPlayed user_id) with
      | (false, db) => failure db
      | (true, db) =>
      match (if String.eqb result "WON"
             then db_execute db (UpdateGamesWon user_id)
             else (true, db)) with
      | (false, db) => failure db
      | (true, db) =>
      match db_execute db Commit with
      | (false, db) => failure db
      | (true, db) =>
          ({| Saved.success := true;
              Saved.message := "Game history saved successfully" |}, db)
      end end end end.

(** *** app.py *)

(** The scoring loop [for i, question in enumerate(questions)], from index
    [i] on; [q] is the loop's [question]. *)
Fixpoint score_answers (user_answers : json) (i : nat)
    (questions : list question_obj) (score : nat)
    (detailed_results : list Detail.t) : result (nat * list Detail.t) :=
  match questions with
  | [] => Ok (score, detailed_results)
  | q :: questions' =>
      n <- Py.len user_answers ;;
      user_answer <- (if (i <? n)%nat
                      then a <- Py.index user_answers i ;; Py.lower a
                      else Ok EmptyString) ;;
      correct_answer <- Py.lower (correct q) ;;
      let is_correct := String.eqb user_answer correct_answer in
      let score := if is_correct then score + 1 else score in
      score_answers user_answers (i + 1) questions' score
        (detailed_results ++
         [ {| Detail.question_number := i + 1;
              Detail.user_answer := user_answer;
              Detail.correct_answer := correct_answer;
              Detail.is_correct := is_correct;
              Detail.question := question q;
              Detail.difficulty := difficulty q |} ])%list
  end.

(** The state is the session together with the database. *)
Definition api_submit_game (data : json)
    : M (session * database) http_response :=
  fun st =>
    let (s, db) := st in
    if negb (is_logged_in s)
    then (Ok (Failure "Not logged in", 401), st)
    else if is_none data
    then (Ok (Failure "No data received", 400), st)
    else
      match Py.get data "answers" (JArr []) with
      | Raise e => (Raise e, st)
      | Ok user_answers =>
      match Py.get data "topic" (JStr EmptyString) with
      | Raise e => (Raise e, st)
      | Ok topic =>
      let questions :=
        match current_questions s with
        | Some qs => qs
        | None => []
        end in
      match questions with
      | [] => (Ok (Failure "No active quiz found", 400), st)
      | _ :: _ =>
      match Py.len user_answers with
      | Raise e => (Raise e, st)
      | Ok n_answers =>
      if negb (n_answers =? List.length questions)%nat
      then (Ok (Failure ("Expected " ++ PyStr.of_nat (List.length questions)
                         ++ " answers but received "
                         ++ PyStr.of_nat n_answers), 400), st)
      else
        match score_answers user_answers 0 questions 0 [] with
        | Raise e => (Raise e, st)
        | Ok (score, detailed_results) =>
            let result := if (7 <=? score)%nat then "WON" else "LOST" in
            let user_id := get_current_user_id s in
            let topic :=
              if negb (Py.truthy topic)
              then match current_topic s with
                   | Some t => JStr t
                   | None => JStr "Unknown Topic"
                   end
              else topic in
            let (save_result, db) :=
              create_game_history user_id topic score result db in
            let s := clear_quiz s in
            (Ok (Scored score 10 result topic detailed_results
                        (Saved.success save_result), 200), (s, db))
        end
      end end end end.

(** The state is the session together with the calls made to the service. *)
Definition api_generate_game (data : json)
    : M (session * list call) (generate_body * nat) :=
  fun st =>
    let (s, log) := st in
    if negb (is_logged_in s)
    then (Ok (Refused "Not logged in", 401), st)
    else if is_none data
    then (Ok (Refused "No data received", 400), st)
    else
      match Py.get data "topic" (JStr EmptyString) with
      | Raise e => (Raise e, st)
      | Ok topic =>
      match (if negb (Py.truthy topic) then Ok true
             else t <- Py.strip topic ;; Ok (String.eqb t EmptyString)) with
      | Raise e => (Raise e, st)
      | Ok true => (Ok (Refused "Topic is required", 400), st)
      | Ok false =>
      match Py.strip topic with
      | Raise e => (Raise e, st)
      | Ok topic =>
      match generate_quiz topic log with
      | (Raise e, log) => (Raise e, (s, log))
      | (Ok result, log) =>
          if success result
          then (Ok (Generated result, 200),
                (store_quiz s topic (questions result), log))
          else (Ok (Generated result, 500), (s, log))
      end end end end.

(** *** Accounts: database.py *)

(** The MySQL server on the account statements: what a SELECT with
    [fetchone] gives, and whether a writing statement was executed. *)
Variable db_fetchone : database -> account_query -> fetched * database.
Variable db_write : database -> account_update -> bool * database.

Definition create_user (username password : string)
    : database -> Saved.t * database :=
  fun db =>
    if negb (db_connect db)
    then ({| Saved.success := false;
             Saved.message := "Database connection failed" |}, db)
    else
      let failure db :=
        ({| Saved.success := false;
            Saved.message := "Failed to create account" |}, db) in
      match db_fetchone db (UserByName username) with
      | (FetchError, db) => failure db
      | (Row _, db) =>
          ({| Saved.success := false;
              Saved.message := "Username already exists" |}, db)
      | (NoRow, db) =>
      match db_write db (InsertUser username password) with
      | (false, db) => failure db
      | (true, db) =>
      match db_write db CommitUser with
      | (false, db) => failure db
      | (true, db) =>
          ({| Saved.success := true;
              Saved.message := "Account created successfully" |}, db)
      end end end.

Definition verify_user_login (username password : string)
    : database -> Login.t * database :=
  fun db =>
    if negb (db_connect db)
    then ({| Login.success := false;
             Login.message := "Database connection failed";
             Login.user_id := None |}, db)
    else
      match db_fetchone db (UserByLogin username password) with
      | (FetchError, db) =>
          ({| Login.success := false; Login.message := "Login failed";
              Login.user_id := None |}, db)
      | (Row user, db) =>
          ({| Login.success := true; Login.message := "Login successful";
              Login.user_id := Some user |}, db)
      | (NoRow, db) =>
          ({| Login.success := false;
              Login.message := "Invalid username or password";
              Login.user_id := None |}, db)
      end.

(** *** Accounts: app.py *)

Definition refuse (message : string) : Saved.t :=
  {| Saved.success := false; Saved.message := message |}.

(** The state is the database; the session is not used. *)
Definition api_signup (data : json) : M database (Saved.t * nat) :=
  fun db =>
    if is_none data
    then (Ok (refuse "No data received", 400), db)
    else
      match Py.get data "username" (JStr EmptyString) with
      | Raise e => (Raise e, db)
      | Ok username =>
      match Py.get data "password" (JStr EmptyString) with
      | Raise e => (Raise e, db)
      | Ok password =>
      match blank username with
      | Raise e => (Raise e, db)
      | Ok true => (Ok (refuse "Username is required", 400), db)
      | Ok false =>
      match blank password with
      | Raise e => (Raise e, db)
      | Ok true => (Ok (refuse "Password is required", 400), db)
      | Ok false =>
      match Py.strip username with
      | Raise e => (Raise e, db)
      | Ok username =>
      match Py.strip password with
      | Raise e => (Raise e, db)
      | Ok password =>
      if (String.length username <? 3)%nat
      then (Ok (refuse "Username must be at least 3 characters", 400), db)
      else if (String.length password <? 4)%nat
      then (Ok (refuse "Password must be at least 4 characters", 400), db)
      else
        let (result, db) := create_user username password db in
        if Saved.success result
        then (Ok (result, 201), db)
        else (Ok (result, 400), db)
      end end end end end end.

(** The state is the session together with the database. *)
Definition api_login (data : json)
    : M (visitor * database) (login_body * nat) :=
  fun st =>
    let (v, db) := st in
    if is_none data
    then (Ok (Plain false "No data received", 400), st)
    else
      match Py.get data "username" (JStr EmptyString) with
      | Raise e => (Raise e, st)
      | Ok username =>
      match Py.get data "password" (JStr EmptyString) with
      | Raise e => (Raise e, st)
      | Ok password =>
      match blank username with
      | Raise e => (Raise e, st)
      | Ok true => (Ok (Plain false "Username is required", 400), st)
      | Ok false =>
      match blank password with
      | Raise e => (Raise e, st)
      | Ok true => (Ok (Plain false "Password is required", 400), st)
      | Ok false =>
      match Py.strip username with
      | Raise e => (Raise e, st)
      | Ok username =>
      match Py.strip password with
      | Raise e => (Raise e, st)
      | Ok password =>
        let (result, db) := verify_user_login username password db in
        if Login.success result
        then (Ok (Plain true "Login successful", 200),
              ({| username := Some username;
                  state := {| user_id := Login.user_id result;
                              current_topic := current_topic (state v);
                              current_questions :=
                                current_questions (state v) |} |}, db))
        else (Ok (Verdict result, 401), (v, db))
      end end end end end end.

(** [session.pop("user_id", None)], [session.pop("username", None)] and
    [session.clear()] *)
Definition api_logout : M visitor (login_body * nat) :=
  fun _ => (Ok (Plain true "Logged out successfully", 200), cleared).

(** *** Vocabulary of the statements *)

(** The call [c], made when the calls [before] had been made, returned [v]
    from [generate_questions_by_difficulty]. *)
Definition returned (before : list call) (c : call) (v : json) : Prop :=
  generate_questions_by_difficulty
    (call_topic c) (call_number c) (call_difficulty c) before
  = (Ok v, (before ++ [c])%list).

(** [question_data] has the three fields the loops read. *)
Definition has_fields (question_data : json) : Prop :=
  exists q o c,
    Py.getitem question_data "question" = Ok q /\
    Py.getitem question_data "options" = Ok o /\
    Py.getitem question_data "correct" = Ok c.

(** [q] carries the fields of the entry of [tier] at [key]. *)
Definition built_from (tier : json) (key : string) (q : question_obj) : Prop :=
  exists question_data,
    Py.getitem tier key = Ok question_data /\
    Py.getitem question_data "question" = Ok (question q) /\
    Py.getitem question_data "options" = Ok (options q) /\
    Py.getitem question_data "correct" = Ok (correct q).

(** Order of the pairs [sorted] arranges: by the integer in front. *)
Definition fst_le {A : Type} (x y : Z * A) : Prop := (fst x <= fst y)%Z.

(** The keys [k1] and [k2] are integers, the first at most the second. *)
Definition key_le (k1 k2 : string) : Prop :=
  exists n1 n2, py_int k1 = Some n1 /\ py_int k2 = Some n2 /\ (n1 <= n2)%Z.

(** The invariant of the data model on the labels of a question: [correct]
    is a key of [options], which has the four keys a, b, c and d only. *)
Definition labels_ok (options correct : json) : bool :=
  match options, correct with
  | JObj kvs, JStr c =>
      existsb (String.eqb c) (map fst kvs)
      && (List.length kvs =? 4)%nat
      && forallb (fun l => existsb (String.eqb l) (map fst kvs))
                 ["a"; "b"; "c"; "d"]
  | _, _ => false
  end.

(** A submitted answer matches a correct label, both lowercased. *)
Definition matches (submitted label : string) : bool :=
  String.eqb (PyStr.lower submitted) (PyStr.lower label).

(** The number of positions at which the answer matches the label. *)
Definition count_matches (submitted labels : list string) : nat :=
  List.length (filter (fun p => matches (fst p) (snd p))
                      (combine submitted labels)).

(** The outcome for a score. *)
Definition outcome (score : nat) : string :=
  if (7 <=? score)%nat then "WON" else "LOST".

(** The held questions of a session, as [session.get("current_questions", [])]
    reads them. *)
Definition held_questions (s : session) : list question_obj :=
  match current_questions s with
  | Some qs => qs
  | None => []
  end.

(** The submitted answers of a request body, as [data.get("answers", [])]
    reads them. *)
Definition submitted_answers (kvs : list (string * json)) : json :=
  match Py.lookup "answers" kvs with
  | Some v => v
  | None => JArr []
  end.

(** An answer of the service that the loops of [generate_quiz] read without
    raising: a dict whose keys [int] accepts and whose entries have the
    three fields. *)
Definition well_formed_tier (v : json) : Prop :=
  exists kvs,
    v = JObj kvs /\
    Forall (fun k => py_int k <> None) (map fst kvs) /\
    Forall has_fields (map snd kvs).

(** The calls of a complete run on the stripped [topic]. *)
Definition tier_calls (topic : string) : list call :=
  [ {| call_topic := topic; call_number := 5; call_difficulty := "EASY" |};
    {| call_topic := topic; call_number := 3; call_difficulty := "MEDIUM" |};
    {| call_topic := topic; call_number := 2; call_difficulty := "HARD" |} ].

(** The topic of the session, as
    [session.get("current_topic", "Unknown Topic")] reads it. *)
Definition session_topic (s : session) : json :=
  match current_topic s with
  | Some t => JStr t
  | None => JStr "Unknown Topic"
  end.

(** The topic a submit records: the one of the request when it is there and
    truthy, the one of the session otherwise. *)
Definition recorded_topic (kvs : list (string * json)) (s : session) : json :=
  match Py.lookup "topic" kvs with
  | Some v => if Py.truthy v then v else session_topic s
  | None => session_topic s
  end.

(** The row of [detailed_results] for the answer [a] to the held question
    [q] with correct label [label], at index [i]. *)
Definition row_of (i : nat) (a label : string) (q : question_obj) : Detail.t :=
  {| Detail.question_number := i + 1;
     Detail.user_answer := PyStr.lower a;
     Detail.correct_answer := PyStr.lower label;
     Detail.is_correct := matches a label;
     Detail.question := question q;
     Detail.difficulty := difficulty q |}.

(** The rows for the answers [ss] to the questions [qs], from index [i] on. *)
Fixpoint rows_from (i : nat) (ss labels : list string)
    (qs : list question_obj) : list Detail.t :=
  match ss, labels, qs with
  | a :: ss', label :: labels', q :: qs' =>
      row_of i a label q :: rows_from (S i) ss' labels' qs'
  | _, _, _ => []
  end.

(** The number of rows marked correct. *)
Definition correct_rows (rows : list Detail.t) : nat :=
  List.length (filter Detail.is_correct rows).

(** ** Facts about the helpers *)

Lemma bind_ok {A B : Type} (m : result A) (k : A -> result B) (b : B) :
  bind m k = Ok b -> exists a, m = Ok a /\ k a = Ok b.
Proof.
  destruct m as [a | e]; simpl; intros H.
  - exists a. split; [reflexivity | exact H].
  - discriminate H.
Qed.

Lemma insert_by_key_perm {A : Type} (x : Z * A) (l : list (Z * A)) :
  Permutation (Py.insert_by_key x l) (x :: l).
Proof.
  induction l as [| y l IH]; simpl.
  - apply Permutation_refl.
  - destruct (Z.leb (fst x) (fst y)).
    + apply Permutation_refl.
    + eapply perm_trans; [apply perm_skip, IH | apply perm_swap].
Qed.

Lemma sort_by_key_perm {A : Type} (l : list (Z * A)) :
  Permutation (Py.sort_by_key l) l.
Proof.
  induction l as [| x l IH]; simpl.
  - apply perm_nil.
  - eapply perm_trans; [apply insert_by_key_perm | apply perm_skip, IH].
Qed.

Lemma insert_by_key_sorted {A : Type} (x : Z * A) (l : list (Z * A)) :
  StronglySorted fst_le l -> StronglySorted fst_le (Py.insert_by_key x l).
Proof.
  induction l as [| y l IH]; simpl; intros Hs.
  - constructor; [constructor | constructor].
  - inversion Hs as [| y' l' Hl Hy]; subst.
    destruct (Z.leb (fst x) (fst y)) eqn:E.
    + apply Z.leb_le in E. constructor; [exact Hs |].
      constructor; [exact E |].
      eapply Forall_impl; [| exact Hy].
      intros z Hz. unfold fst_le in *. lia.
    + apply Z.leb_gt in E. constructor; [apply IH, Hl |].
      eapply Permutation_Forall.
      * apply Permutation_sym, insert_by_key_perm.
      * constructor; [unfold fst_le; lia | exact Hy].
Qed.

Lemma sort_by_key_sorted {A : Type} (l : list (Z * A)) :
  StronglySorted fst_le (Py.sort_by_key l).
Proof.
  induction l as [| x l IH]; simpl.
  - constructor.
  - apply insert_by_key_sorted, IH.
Qed.

Lemma StronglySorted_map {A B : Type} (R : A -> A -> Prop) (R' : B -> B -> Prop)
    (f : A -> B) (P : A -> Prop) (l : list A) :
  (forall x y, P x -> P y -> R x y -> R' (f x) (f y)) ->
  Forall P l -> StronglySorted R l -> StronglySorted R' (map f l).
Proof.
  intros HR HP Hs. induction Hs as [| x l Hs IH Hx]; simpl.
  - constructor.
  - inversion HP as [| x' l' Px Pl]; subst.
    constructor; [apply IH, Pl |].
    apply Forall_map. rewrite Forall_forall in *.
    intros y Hy. apply HR; auto.
Qed.

Lemma mapM_int_key_inv (ks : list string) (tagged : list (Z * string)) :
  mapM int_key ks = Ok tagged ->
  map snd tagged = ks /\ Forall (fun p => py_int (snd p) = Some (fst p)) tagged.
Proof.
  revert tagged. induction ks as [| k ks IH]; simpl; intros tagged H.
  - inversion H. split; constructor.
  - apply bind_ok in H. destruct H as [p [Hp H]].
    apply bind_ok in H. destruct H as [ps [Hps H]].
    destruct (IH ps Hps) as [Hm Hf].
    unfold int_key in Hp. destruct (py_int k) as [n |] eqn:E; [| discriminate].
    injection Hp as <-. injection H as <-. simpl. split.
    + f_equal. exact Hm.
    + constructor; [exact E | exact Hf].
Qed.

Lemma mapM_int_key_total (ks : list string) :
  Forall (fun k => py_int k <> None) ks -> exists tagged, mapM int_key ks = Ok tagged.
Proof.
  induction 1 as [| k ks Hk _ IH]; simpl.
  - now exists [].
  - destruct IH as [ps Hps]. unfold int_key at 1.
    destruct (py_int k) as [n |]; [| contradiction].
    rewrite Hps. simpl. now eexists.
Qed.

(** The keys come back as a rearrangement of the dict's keys, ascending by
    their integer values. *)
Lemma sorted_keys_inv (tier : json) (ks : list string) :
  sorted_keys tier = Ok ks ->
  exists kvs, tier = JObj kvs /\ Permutation ks (map fst kvs) /\
              StronglySorted key_le ks.
Proof.
  unfold sorted_keys. intros H.
  apply bind_ok in H. destruct H as [ks0 [Hk H]].
  apply bind_ok in H. destruct H as [tagged [Ht H]].
  inversion H; subst; clear H.
  destruct tier; try discriminate. simpl in Hk. inversion Hk; subst; clear Hk.
  destruct (mapM_int_key_inv _ _ Ht) as [Hm Hf].
  exists kvs. split; [reflexivity |]. split.
  - rewrite <- Hm. apply Permutation_map, sort_by_key_perm.
  - eapply StronglySorted_map with (R := fst_le)
      (P := fun p => py_int (snd p) = Some (fst p)).
    + intros x y Hx Hy Hxy. exists (fst x), (fst y). auto.
    + eapply Permutation_Forall; [| exact Hf].
      apply Permutation_sym, sort_by_key_perm.
    + apply sort_by_key_sorted.
Qed.

Lemma sorted_keys_total (kvs : list (string * json)) :
  Forall (fun k => py_int k <> None) (map fst kvs) ->
  exists ks, sorted_keys (JObj kvs) = Ok ks.
Proof.
  intros H. unfold sorted_keys. simpl.
  destruct (mapM_int_key_total _ H) as [tagged Ht]. rewrite Ht. simpl.
  now eexists.
Qed.

(** What one tier's loop appends. *)
Lemma add_questions_inv (label : string) (tier : json) (ks : list string) :
  forall all_questions all_questions',
    add_questions label tier ks all_questions = Ok all_questions' ->
    exists added,
      all_questions' = (all_questions ++ added)%list /\
      Forall2 (built_from tier) ks added /\
      map question_number added
      = seq (List.length all_questions + 1) (List.length ks) /\
      Forall (fun q => difficulty q = label) added.
Proof.
  induction ks as [| key ks IH]; simpl; intros acc acc' H.
  - inversion H; subst. exists []. rewrite app_nil_r. repeat split; constructor.
  - apply bind_ok in H. destruct H as [qd [Hqd H]].
    apply bind_ok in H. destruct H as [q [Hq H]].
    apply bind_ok in H. destruct H as [o [Ho H]].
    apply bind_ok in H. destruct H as [c [Hc H]].
    apply IH in H. destruct H as [added [E [F2 [Hn Hd]]]].
    eexists (_ :: added). split; [| split; [| split]].
    + rewrite E, <- app_assoc. reflexivity.
    + constructor; [| exact F2]. exists qd. simpl. auto.
    + simpl. f_equal. rewrite Hn, length_app. simpl.
      f_equal. lia.
    + constructor; [reflexivity | exact Hd].
Qed.

Lemma add_questions_total (label : string) (tier : json) (ks : list string) :
  Forall (fun k => exists e, Py.getitem tier k = Ok e /\ has_fields e) ks ->
  forall all_questions,
    exists all_questions', add_questions label tier ks all_questions = Ok all_questions'.
Proof.
  induction 1 as [| key ks Hk _ IH]; simpl; intros acc.
  - now eexists.
  - destruct Hk as [e [He [q [o [c [Hq [Ho Hc]]]]]]].
    rewrite He. simpl. rewrite Hq. simpl. rewrite Ho. simpl. rewrite Hc. simpl.
    apply IH.
Qed.

Lemma add_tier_inv (label : string) (tier : json)
    (all_questions all_questions' : list question_obj) :
  add_tier label tier all_questions = Ok all_questions' ->
  exists kvs ks added,
    tier = JObj kvs /\ Permutation ks (map fst kvs) /\
    StronglySorted key_le ks /\
    all_questions' = (all_questions ++ added)%list /\
    Forall2 (built_from tier) ks added /\
    map question_number added
    = seq (List.length all_questions + 1) (List.length added) /\
    Forall (fun q => difficulty q = label) added.
Proof.
  unfold add_tier. intros H.
  apply bind_ok in H. destruct H as [ks [Hks H]].
  apply sorted_keys_inv in Hks. destruct Hks as [kvs [Et [Hp Hs]]].
  apply add_questions_inv in H. destruct H as [added [E [F2 [Hn Hd]]]].
  exists kvs, ks, added. repeat split; auto.
  rewrite Hn. f_equal. eapply Forall2_length, F2.
Qed.

Lemma lookup_in (key : string) (kvs : list (string * json)) (v : json) :
  Py.lookup key kvs = Some v -> In (key, v) kvs.
Proof.
  induction kvs as [| [k x] kvs IH]; simpl; [discriminate |].
  destruct (String.eqb k key) eqn:E.
  - apply String.eqb_eq in E. intros H. inversion H; subst. now left.
  - intros H. right. now apply IH.
Qed.

Lemma lookup_key (key : string) (kvs : list (string * json)) :
  In key (map fst kvs) -> exists v, Py.lookup key kvs = Some v /\ In v (map snd kvs).
Proof.
  induction kvs as [| [k x] kvs IH]; simpl; [contradiction |].
  intros H. destruct (String.eqb k key) eqn:E.
  - exists x. auto.
  - destruct H as [H | H]; [subst; rewrite String.eqb_refl in E; discriminate |].
    destruct (IH H) as [v [Hv Hin]]. exists v. auto.
Qed.

(** ** Facts about the generator *)

(** A call returns a value, or the service raised [JSONDecodeError] and the
    call raises [UnboundLocalError]. *)
Lemma generate_questions_by_difficulty_run
    (topic : string) (number : nat) (difficulty : string) (log : list call) :
  (exists v,
     returned log {| call_topic := topic; call_number := number;
                     call_difficulty := difficulty |} v) \/
  (mcq_chain_invoke log {| call_topic := topic; call_number := number;
                           call_difficulty := difficulty |}
   = Raise JSONDecodeError /\
   generate_questions_by_difficulty topic number difficulty log
   = (Raise UnboundLocalError,
      (log ++ [ {| call_topic := topic; call_number := number;
                   call_difficulty := difficulty |} ])%list)).
Proof.
  unfold returned, generate_questions_by_difficulty. simpl.
  destruct (mcq_chain_invoke _ _) as [raw | e].
  - left. destruct (json_loads _) as [v | e]; now eexists.
  - destruct e; try (left; now eexists). right. split; reflexivity.
Qed.

Lemma returned_not_raised (before : list call) (c : call) (v : json)
    (e : exn) (log : list call) :
  returned before c v ->
  generate_questions_by_difficulty
    (call_topic c) (call_number c) (call_difficulty c) before
  = (Raise e, log) ->
  False.
Proof. unfold returned. intros Hv Hr. rewrite Hv in Hr. discriminate Hr. Qed.

Lemma returned_functional (before : list call) (c : call) (v w : json) :
  returned before c v -> returned before c w -> v = w.
Proof.
  unfold returned. intros Hv Hw. rewrite Hv in Hw. now inversion Hw.
Qed.

Lemma is_none_true (v : json) : is_none v = true -> v = JNull.
Proof. destruct v; simpl; congruence. Qed.

Lemma is_none_false (v : json) : is_none v = false -> v <> JNull.
Proof. destruct v; simpl; congruence. Qed.

(** Runs one call of a tier inside an unfolded [generate_quiz]: the goal
    where the call returned [v], then the goal where it raised. *)
Tactic Notation "run_tier" ident(v) ident(E) :=
  match goal with
  | |- context [generate_questions_by_difficulty ?t ?n ?d ?l] =>
      let I := fresh "Hraise" in
      destruct (generate_questions_by_difficulty_run t n d l)
        as [[v E] | [I E]];
      [ let E' := fresh in
        pose proof E as E'; unfold returned in E'; simpl in E'; rewrite E';
        clear E'
      | rewrite E ]
  end.

(** A successful run made the three calls, none of which returned [None],
    and appended the three tiers in turn. *)
Lemma generate_quiz_success_inv (topic : string) (log log' : list call)
    (r : quiz_result) :
  generate_quiz topic log = (Ok r, log') -> success r = true ->
  exists easy medium hard q1 q2 q3,
    let t := PyStr.strip topic in
    let c1 := {| call_topic := t; call_number := 5; call_difficulty := "EASY" |} in
    let c2 := {| call_topic := t; call_number := 3; call_difficulty := "MEDIUM" |} in
    let c3 := {| call_topic := t; call_number := 2; call_difficulty := "HARD" |} in
    returned log c1 easy /\
    returned (log ++ [c1]) c2 medium /\
    returned (log ++ [c1; c2]) c3 hard /\
    log' = (log ++ [c1; c2; c3])%list /\
    add_tier "EASY" easy [] = Ok q1 /\
    add_tier "MEDIUM" medium q1 = Ok q2 /\
    add_tier "HARD" hard q2 = Ok q3 /\
    List.length q3 = 10 /\
    r = {| success := true; message := "Quiz generated successfully";
           questions := q3; topic := Some t |}.
Proof.
  unfold generate_quiz.
  destruct (_ || _) eqn:B; unfold bindM, lift, ret.
  { intros H Hs. inversion H; subst. discriminate Hs. }
  run_tier easy E1; [| discriminate].
  destruct (is_none easy) eqn:N1.
  { intros H Hs. inversion H; subst. discriminate Hs. }
  destruct (add_tier "EASY" easy []) as [q1 | e] eqn:A1; [| discriminate].
  run_tier medium E2; [| discriminate].
  destruct (is_none medium) eqn:N2.
  { intros H Hs. inversion H; subst. discriminate Hs. }
  destruct (add_tier "MEDIUM" medium q1) as [q2 | e] eqn:A2; [| discriminate].
  run_tier hard E3; [| discriminate].
  destruct (is_none hard) eqn:N3.
  { intros H Hs. inversion H; subst. discriminate Hs. }
  destruct (add_tier "HARD" hard q2) as [q3 | e] eqn:A3; [| discriminate].
  destruct (List.length q3 =? 10)%nat eqn:L; simpl.
  2:{ intros H Hs. inversion H; subst. discriminate Hs. }
  intros H _. inversion H; subst; clear H.
  exists easy, medium, hard, q1, q2, q3. simpl.
  rewrite <- !app_assoc in *. simpl in *.
  apply Nat.eqb_eq in L. repeat split; auto.
Qed.

Lemma seq_three_blocks (a b c : nat) :
  (seq 1 a ++ seq (a + 1) b ++ seq (a + b + 1) c)%list = seq 1 (a + b + c).
Proof.
  rewrite !seq_app, <- app_assoc.
  replace (1 + a) with (a + 1) by lia.
  replace (1 + (a + b)) with (a + b + 1) by lia.
  reflexivity.
Qed.

(** On success there are ten questions, numbered 1 to 10, in three blocks of
    EASY, MEDIUM and HARD; the sizes of the blocks are those of the answers
    of the service. *)
Theorem generate_quiz_success_shape (topic : string) (log log' : list call)
    (r : quiz_result) :
  generate_quiz topic log = (Ok r, log') -> success r = true ->
  List.length (questions r) = 10 /\
  map question_number (questions r) = seq 1 10 /\
  exists a b c,
    a + b + c = 10 /\
    map difficulty (questions r)
    = (repeat "EASY" a ++ repeat "MEDIUM" b ++ repeat "HARD" c)%list.
Proof.
  intros H Hs.
  destruct (generate_quiz_success_inv _ _ _ _ H Hs)
    as [easy [medium [hard [q1 [q2 [q3 Hrun]]]]]].
  simpl in Hrun.
  destruct Hrun as [_ [_ [_ [_ [A1 [A2 [A3 [L ->]]]]]]]].
  apply add_tier_inv in A1. destruct A1 as [? [? [a1 [_ [_ [_ [-> [_ [N1 D1]]]]]]]]].
  apply add_tier_inv in A2. destruct A2 as [? [? [a2 [_ [_ [_ [-> [_ [N2 D2]]]]]]]]].
  apply add_tier_inv in A3. destruct A3 as [? [? [a3 [_ [_ [_ [-> [_ [N3 D3]]]]]]]]].
  cbn [questions List.length Nat.add app] in *.
  rewrite !length_app in L. rewrite length_app in N3.
  split; [rewrite !length_app; exact L |]. split.
  - rewrite !map_app, N1, N2, N3, <- app_assoc, seq_three_blocks.
    f_equal. exact L.
  - exists (List.length a1), (List.length a2), (List.length a3).
    split; [lia |]. rewrite !map_app.
    assert (R : forall label l, Forall (fun q => difficulty q = label) l ->
                  map difficulty l = repeat label (List.length l)).
    { intros label l Hl. induction Hl as [| q l Hq _ IH]; simpl; congruence. }
    rewrite (R _ _ D1), (R _ _ D2), (R _ _ D3), <- app_assoc. reflexivity.
Qed.

(** Where a call sits in a run of one, two or three calls. *)
Lemma call_position {A : Type} (log before after l : list A) (c : A) :
  (log ++ l)%list = (log ++ before ++ c :: after)%list ->
  l = (before ++ c :: after)%list.
Proof. apply app_inv_head. Qed.

(** When the generation call raises anything but [JSONDecodeError],
    [generate_questions_by_difficulty] returns [None] instead of raising,
    and the service has been called exactly once: there is no retry. *)
Lemma service_error_returns_none
    (topic : string) (number : nat) (difficulty : string) (log : list call)
    (e : exn) :
  mcq_chain_invoke log {| call_topic := topic; call_number := number;
                          call_difficulty := difficulty |} = Raise e ->
  e <> JSONDecodeError ->
  generate_questions_by_difficulty topic number difficulty log
  = (Ok JNull, (log ++ [ {| call_topic := topic; call_number := number;
                            call_difficulty := difficulty |} ])%list).
Proof.
  intros H Ne. unfold generate_questions_by_difficulty. rewrite H.
  destruct e; try reflexivity. contradiction Ne. reflexivity.
Qed.

(** When the generation call itself raises [JSONDecodeError],
    [generate_questions_by_difficulty] raises [UnboundLocalError] after its
    single call. *)
Lemma service_decode_error_escapes
    (topic : string) (number : nat) (difficulty : string) (log : list call) :
  mcq_chain_invoke log {| call_topic := topic; call_number := number;
                          call_difficulty := difficulty |}
  = Raise JSONDecodeError ->
  generate_questions_by_difficulty topic number difficulty log
  = (Raise UnboundLocalError,
     (log ++ [ {| call_topic := topic; call_number := number;
                  call_difficulty := difficulty |} ])%list).
Proof.
  intros H. unfold generate_questions_by_difficulty. rewrite H. reflexivity.
Qed.

(** No call of a run whose calls all returned a dict returned [None]. *)
Lemma no_none_among (log : list call) (made : list (call * json)) :
  (forall pre x post, made = (pre ++ x :: post)%list ->
     returned (log ++ map fst pre) (fst x) (snd x) /\ snd x <> JNull) ->
  forall before c after,
    map fst made = (before ++ c :: after)%list ->
    returned (log ++ before) c JNull -> False.
Proof.
  intros Hmade before c after Hsplit Hnone.
  apply map_eq_app in Hsplit. destruct Hsplit as [pre [rest [-> [<- Hrest]]]].
  apply map_eq_cons in Hrest. destruct Hrest as [x [post [-> [<- _]]]].
  destruct (Hmade pre x post eq_refl) as [Hr Hn].
  apply Hn. eapply returned_functional; eassumption.
Qed.

(** Every run of [generate_quiz] in which a call made for a tier returned
    [None] ends with that call, which was made for one of the three tiers,
    and in the failure for that tier. *)
Lemma tier_failure_result (topic : string) (log log' : list call)
    (r : result quiz_result) (before after : list call) (c : call) :
  generate_quiz topic log = (r, log') ->
  log' = (log ++ before ++ c :: after)%list ->
  returned (log ++ before) c JNull ->
  after = [] /\
  ((call_difficulty c = "EASY" /\
    r = Ok (failed "Failed to generate easy questions. Please try again.")) \/
   (call_difficulty c = "MEDIUM" /\
    r = Ok (failed "Failed to generate medium questions. Please try again."))
   \/
   (call_difficulty c = "HARD" /\
    r = Ok (failed "Failed to generate hard questions. Please try again."))).
Proof.
  intros H Hlog Hnone.
  subst log'. revert H. unfold generate_quiz.
  destruct (_ || _) eqn:B; unfold bindM, lift, ret.
  { intros H. injection H as _ Hl.
    rewrite <- (app_nil_r log) in Hl at 1. apply call_position in Hl.
    destruct before; discriminate Hl. }
  set (c1 := {| call_topic := PyStr.strip topic; call_number := 5;
                call_difficulty := "EASY" |}) in *.
  run_tier easy E1.
  2:{ intros H. injection H as _ Hl. apply call_position in Hl.
      exfalso.
      destruct before as [| b1 before]; simpl in Hl; injection Hl as <- Hl.
      - rewrite app_nil_r in Hnone. exact (returned_not_raised _ _ _ _ _ Hnone E1).
      - destruct before; discriminate Hl. }
  destruct (is_none easy) eqn:N1.
  { intros H. injection H as Hr Hl. apply call_position in Hl.
    destruct before as [| b1 before]; simpl in Hl; injection Hl as <- Hl.
    - subst. split; [reflexivity |]. left. split; reflexivity.
    - destruct before; discriminate Hl. }
  apply is_none_false in N1.
  assert (M1 : forall pre x post, [(c1, easy)] = (pre ++ x :: post)%list ->
            returned (log ++ map fst pre) (fst x) (snd x) /\ snd x <> JNull).
  { intros pre x post Hs.
    destruct pre as [| p1 pre]; simpl in Hs; injection Hs as <- Hs.
    - simpl. rewrite app_nil_r. auto.
    - destruct pre; discriminate Hs. }
  destruct (add_tier "EASY" easy []) as [q1 | e] eqn:A1.
  2:{ intros H. injection H as _ Hl. apply call_position in Hl.
      exfalso. eapply (no_none_among log [(c1, easy)]); eassumption. }
  set (c2 := {| call_topic := PyStr.strip topic; call_number := 3;
                call_difficulty := "MEDIUM" |}) in *.
  run_tier medium E2.
  2:{ rewrite <- !app_assoc. simpl app.
      intros H. injection H as _ Hl. apply call_position in Hl.
      exfalso.
      destruct before as [| b1 before]; simpl in Hl; injection Hl as <- Hl.
      - eapply (no_none_among log [(c1, easy)] M1 [] c1 []);
          [reflexivity | exact Hnone].
      - destruct before as [| b2 before]; simpl in Hl; injection Hl as <- Hl.
        + exact (returned_not_raised _ _ _ _ _ Hnone E2).
        + destruct before; discriminate Hl. }
  rewrite <- !app_assoc. simpl app.
  destruct (is_none medium) eqn:N2.
  { intros H. injection H as Hr Hl. apply call_position in Hl.
    apply is_none_true in N2. subst medium.
    destruct before as [| b1 before]; simpl in Hl; injection Hl as <- Hl.
    - exfalso. eapply (no_none_among log [(c1, easy)] M1 [] c1 []);
        [reflexivity | exact Hnone].
    - destruct before as [| b2 before]; simpl in Hl; injection Hl as <- Hl.
      + subst. split; [reflexivity |]. right. left. split; reflexivity.
      + destruct before; discriminate Hl. }
  apply is_none_false in N2.
  assert (M2 : forall pre x post,
            [(c1, easy); (c2, medium)] = (pre ++ x :: post)%list ->
            returned (log ++ map fst pre) (fst x) (snd x) /\ snd x <> JNull).
  { intros pre x post Hs.
    destruct pre as [| p1 pre]; simpl in Hs; injection Hs as <- Hs.
    - simpl. rewrite app_nil_r. auto.
    - destruct pre as [| p2 pre]; simpl in Hs; injection Hs as <- Hs.
      + simpl. auto.
      + destruct pre; discriminate Hs. }
  destruct (add_tier "MEDIUM" medium q1) as [q2 | e] eqn:A2.
  2:{ intros H. injection H as _ Hl. apply call_position in Hl.
      exfalso. eapply (no_none_among log [(c1, easy); (c2, medium)]);
        eassumption. }
  set (c3 := {| call_topic := PyStr.strip topic; call_number := 2;
                call_difficulty := "HARD" |}) in *.
  run_tier hard E3.
  2:{ rewrite <- !app_assoc in *. simpl app in *.
      intros H. injection H as _ Hl. apply call_position in Hl.
      exfalso.
      destruct before as [| b1 before]; simpl in Hl; injection Hl as <- Hl.
      - eapply (no_none_among log _ M2 [] c1 [c2]);
          [reflexivity | exact Hnone].
      - destruct before as [| b2 before]; simpl in Hl; injection Hl as <- Hl.
        + eapply (no_none_among log _ M2 [c1] c2 []);
            [reflexivity | exact Hnone].
        + destruct before as [| b3 before]; simpl in Hl;
            injection Hl as <- Hl.
          * exact (returned_not_raised _ _ _ _ _ Hnone E3).
          * destruct before; discriminate Hl. }
  rewrite <- !app_assoc in *. simpl app in *.
  destruct (is_none hard) eqn:N3.
  { intros H. injection H as Hr Hl. apply call_position in Hl.
    apply is_none_true in N3. subst hard.
    destruct before as [| b1 before]; simpl in Hl; injection Hl as <- Hl.
    - exfalso. eapply (no_none_among log _ M2 [] c1 [c2]);
        [reflexivity | exact Hnone].
    - destruct before as [| b2 before]; simpl in Hl; injection Hl as <- Hl.
      + exfalso. eapply (no_none_among log _ M2 [c1] c2 []);
          [reflexivity | exact Hnone].
      + destruct before as [| b3 before]; simpl in Hl; injection Hl as <- Hl.
        * subst. split; [reflexivity |]. right. right. split; reflexivity.
        * destruct before; discriminate Hl. }
  apply is_none_false in N3.
  assert (M3 : forall pre x post,
            [(c1, easy); (c2, medium); (c3, hard)] = (pre ++ x :: post)%list ->
            returned (log ++ map fst pre) (fst x) (snd x) /\ snd x <> JNull).
  { intros pre x post Hs.
    destruct pre as [| p1 pre]; simpl in Hs; injection Hs as <- Hs.
    - simpl. rewrite app_nil_r. auto.
    - destruct pre as [| p2 pre]; simpl in Hs; injection Hs as <- Hs.
      + simpl. auto.
      + destruct pre as [| p3 pre]; simpl in Hs; injection Hs as <- Hs.
        * simpl. auto.
        * destruct pre; discriminate Hs. }
  assert (X : forall x : result quiz_result * list call,
            snd x = (log ++ [c1; c2; c3])%list ->
            x = (r, (log ++ before ++ c :: after)%list) -> False).
  { intros x Hx ->. simpl in Hx. symmetry in Hx. apply call_position in Hx.
    eapply (no_none_among log _ M3); eassumption. }
  intros H. exfalso. eapply X; [| exact H].
  destruct (add_tier "HARD" hard q2) as [q3 | e]; [| reflexivity].
  destruct (negb _); reflexivity.
Qed.

(** C4: in every run of [generate_quiz], if a call it made for a tier
    returned [None], the run returns a dict whose [success] is [False],
    whose message is the sentence that names that tier, and whose list of
    questions is empty; no further call was made, so the questions of the
    earlier tiers are dropped. *)
Theorem tier_failure_aborts (topic : string) (log log' : list call)
    (r : result quiz_result) (before after : list call) (c : call) :
  generate_quiz topic log = (r, log') ->
  log' = (log ++ before ++ c :: after)%list ->
  returned (log ++ before) c JNull ->
  exists q,
    r = Ok q /\
    success q = false /\
    questions q = [] /\
    after = [] /\
    ((call_difficulty c = "EASY" /\
      message q = "Failed to generate easy questions. Please try again.") \/
     (call_difficulty c = "MEDIUM" /\
      message q = "Failed to generate medium questions. Please try again.") \/
     (call_difficulty c = "HARD" /\
      message q = "Failed to generate hard questions. Please try again.")).
Proof.
  intros H Hlog Hnone.
  destruct (tier_failure_result _ _ _ _ _ _ _ H Hlog Hnone)
    as [-> [[D ->] | [[D ->] | [D ->]]]];
    eexists; (split; [reflexivity |]); cbn [failed success questions message];
    repeat (split; [reflexivity |]); tauto.
Qed.

(** One loop on a tier that is a dict whose keys all parse as integers:
    the keys are read in ascending order of their integer values (not of
    their spelling); whatever the loop appends is built from the entries in
    that order, each question taking the next question number and the
    tier's difficulty; and the loop does append when every entry has its
    three fields. *)
Lemma add_tier_numeric_order (label : string)
    (kvs : list (string * json)) (all_questions : list question_obj) :
  Forall (fun k => py_int k <> None) (map fst kvs) ->
  exists ks,
    sorted_keys (JObj kvs) = Ok ks /\
    Permutation ks (map fst kvs) /\
    StronglySorted key_le ks /\
    (forall all_questions',
       add_tier label (JObj kvs) all_questions = Ok all_questions' ->
       exists added,
         all_questions' = (all_questions ++ added)%list /\
         Forall2 (built_from (JObj kvs)) ks added /\
         map question_number added
         = seq (List.length all_questions + 1) (List.length added) /\
         Forall (fun q => difficulty q = label) added) /\
    (Forall has_fields (map snd kvs) ->
     exists all_questions',
       add_tier label (JObj kvs) all_questions = Ok all_questions').
Proof.
  intros Hint.
  destruct (sorted_keys_total kvs Hint) as [ks Hks].
  destruct (sorted_keys_inv _ _ Hks) as [kvs' [Ekvs [Hperm Hsorted]]].
  injection Ekvs as <-.
  exists ks. repeat split; auto.
  - intros all' Hrun. unfold add_tier in Hrun. rewrite Hks in Hrun.
    simpl in Hrun.
    destruct (add_questions_inv _ _ _ _ _ Hrun) as [added [-> [F2 [Hn Hd]]]].
    exists added. repeat split; auto.
    rewrite Hn. f_equal. eapply Forall2_length, F2.
  - intros Hfields. unfold add_tier. rewrite Hks. simpl.
    apply add_questions_total.
    rewrite Forall_forall. intros k Hk.
    assert (Hin : In k (map fst kvs)) by (eapply Permutation_in; eassumption).
    destruct (lookup_key _ _ Hin) as [v [Hv Hvin]].
    exists v. simpl. rewrite Hv. split; [reflexivity |].
    rewrite Forall_forall in Hfields. now apply Hfields.
Qed.

(** A tier whose entries are dicts, one of them without one of the three
    fields, makes the loop raise [KeyError]. *)
Lemma add_questions_missing_field (label : string) (tier : json)
    (ks : list string) :
  Forall (fun k => exists fields, Py.getitem tier k = Ok (JObj fields)) ks ->
  Exists (fun k => exists e, Py.getitem tier k = Ok e /\ ~ has_fields e) ks ->
  forall all_questions,
    add_questions label tier ks all_questions = Raise KeyError.
Proof.
  induction 1 as [| key ks [fields Hkey] Hks IH]; intros Hex acc.
  - inversion Hex.
  - simpl. rewrite Hkey. simpl.
    destruct (Py.lookup "question" fields) as [q |] eqn:Eq; [| reflexivity].
    simpl.
    destruct (Py.lookup "options" fields) as [o |] eqn:Eo; [| reflexivity].
    simpl.
    destruct (Py.lookup "correct" fields) as [c |] eqn:Ec; [| reflexivity].
    simpl. apply IH.
    inversion Hex as [k l [e [He Hno]] | k l Hl]; subst; [| exact Hl].
    exfalso. apply Hno. rewrite Hkey in He. injection He as <-.
    exists q, o, c. simpl. rewrite Eq, Eo, Ec. auto.
Qed.

(** ** Facts about the submit handler *)

Lemma count_matches_cons (a l : string) (rest labels : list string) :
  count_matches (a :: rest) (l :: labels)
  = (if matches a l then 1 else 0) + count_matches rest labels.
Proof.
  unfold count_matches. simpl. destruct (matches a l); reflexivity.
Qed.

(** The scoring loop on answers and correct labels that are strings. *)
Lemma score_answers_strings (qs : list question_obj) :
  forall (done rest labels : list string) (score : nat)
         (detailed_results : list Detail.t),
    map correct qs = map JStr labels ->
    List.length rest = List.length qs ->
    exists rows,
      score_answers (JArr (map JStr (done ++ rest))) (List.length done) qs
                    score detailed_results
      = Ok (score + count_matches rest labels, (detailed_results ++ rows)%list)
      /\ List.length rows = List.length qs.
Proof.
  induction qs as [| q qs IH]; intros done rest labels score rows0 Hc Hl.
  - destruct rest; [| discriminate Hl]. destruct labels; [| discriminate Hc].
    exists []. simpl. rewrite app_nil_r, Nat.add_0_r. auto.
  - destruct rest as [| a rest]; [discriminate Hl |].
    destruct labels as [| l labels]; [discriminate Hc |].
    simpl in Hc. injection Hc as Hq Hc. injection Hl as Hl.
    cbn [score_answers Py.len bind].
    assert (Hlt : (List.length done <? List.length (map JStr (done ++ a :: rest)))%nat
                  = true).
    { apply Nat.ltb_lt. rewrite length_map, length_app. simpl. lia. }
    rewrite Hlt. cbn [Py.index].
    assert (Hnth : nth_error (map JStr (done ++ a :: rest)) (List.length done)
                   = Some (JStr a)).
    { rewrite nth_error_map, nth_error_app2, Nat.sub_diag by lia. reflexivity. }
    rewrite Hnth. cbn [bind Py.lower]. rewrite Hq. cbn [bind Py.lower].
    specialize (IH (done ++ [a])%list rest labels
                   (if String.eqb (PyStr.lower a) (PyStr.lower l)
                    then score + 1 else score)).
    rewrite <- app_assoc in IH. simpl app in IH.
    rewrite length_app in IH. simpl List.length in IH.
    edestruct IH as [rows [Hrun Hrows]]; [exact Hc | exact Hl |].
    rewrite Hrun. eexists (_ :: rows). split.
    + rewrite <- app_assoc. simpl app. f_equal. f_equal.
      rewrite count_matches_cons. unfold matches.
      destruct (String.eqb _ _); lia.
    + simpl. now rewrite Hrows.
Qed.

Lemma get_answers (kvs : list (string * json)) :
  Py.get (JObj kvs) "answers" (JArr []) = Ok (submitted_answers kvs).
Proof.
  unfold submitted_answers. simpl. now destruct (Py.lookup "answers" kvs).
Qed.

Lemma get_topic (kvs : list (string * json)) :
  exists topic, Py.get (JObj kvs) "topic" (JStr EmptyString) = Ok topic.
Proof.
  simpl. destruct (Py.lookup "topic" kvs); now eexists.
Qed.



(** The two courses of a submit: it leaves session and database as they
    were and answers without a scored result, or it scores. *)
Lemma api_submit_game_cases (data : json) (s : session) (db : database) :
  (snd (api_submit_game data (s, db)) = (s, db) /\
   forall b code, fst (api_submit_game data (s, db)) = Ok (b, code) ->
                  exists m, b = Failure m)
  \/
  (exists kvs score topic detailed_results,
      data = JObj kvs /\
      is_logged_in s = true /\
      held_questions s <> [] /\
      Py.len (submitted_answers kvs) = Ok (List.length (held_questions s)) /\
      score_answers (submitted_answers kvs) 0 (held_questions s) 0 []
      = Ok (score, detailed_results) /\
      api_submit_game data (s, db)
      = (Ok (Scored score 10 (outcome score) topic detailed_results
                    (Saved.success
                       (fst (create_game_history (user_id s) topic score
                                                 (outcome score) db))),
             200),
         (clear_quiz s,
          snd (create_game_history (user_id s) topic score (outcome score) db)))).
Proof.
  unfold api_submit_game.
  destruct (is_logged_in s) eqn:Hlog; simpl negb; cbv iota.
  2:{ left. split; [reflexivity |]. intros b code H. inversion H. now eexists. }
  destruct (is_none data) eqn:Hnone.
  { left. split; [reflexivity |]. intros b code H. inversion H. now eexists. }
  destruct (Py.get data "answers" (JArr [])) as [user_answers | e] eqn:Ea.
  2:{ left. split; [reflexivity |]. intros b code H. discriminate H. }
  destruct (Py.get data "topic" (JStr EmptyString)) as [topic0 | e] eqn:Et.
  2:{ left. split; [reflexivity |]. intros b code H. discriminate H. }
  fold (held_questions s).
  destruct (held_questions s) as [| q0 qs] eqn:Hq.
  { left. split; [reflexivity |]. intros b code H. inversion H. now eexists. }
  destruct (Py.len user_answers) as [n |e] eqn:El.
  2:{ left. split; [reflexivity |]. intros b code H. discriminate H. }
  destruct (n =? List.length (q0 :: qs))%nat eqn:En; simpl negb; cbv iota.
  2:{ left. split; [reflexivity |]. intros b code H. inversion H. now eexists. }
  destruct (score_answers user_answers 0 (q0 :: qs) 0 []) as [[score rows] | e] eqn:Es.
  2:{ left. split; [reflexivity |]. intros b code H. discriminate H. }
  right. destruct data; try discriminate Ea.
  rewrite get_answers in Ea. injection Ea as <-.
  apply Nat.eqb_eq in En. subst n.
  eexists kvs, score, _, rows. fold (outcome score).
  unfold get_current_user_id.
  destruct (create_game_history _ _ _ _ db) as [saved db'] eqn:Ec.
  repeat split; try assumption; try discriminate.
  rewrite Ec. reflexivity.
Qed.

(** A submit whose answers and held correct labels are strings, as many
    answers as questions: the scored response, whatever the database does. *)
Lemma api_submit_game_strings (s : session) (kvs : list (string * json))
    (ss labels : list string) (qs : list question_obj) :
  is_logged_in s = true ->
  current_questions s = Some qs -> qs <> [] ->
  Py.lookup "answers" kvs = Some (JArr (map JStr ss)) ->
  map correct qs = map JStr labels ->
  List.length ss = List.length qs ->
  exists topic detailed_results,
    forall db,
      api_submit_game (JObj kvs) (s, db)
      = (Ok (Scored (count_matches ss labels) 10
                    (outcome (count_matches ss labels)) topic detailed_results
                    (Saved.success
                       (fst (create_game_history
                               (user_id s) topic (count_matches ss labels)
                               (outcome (count_matches ss labels)) db))),
             200),
         (clear_quiz s,
          snd (create_game_history
                 (user_id s) topic (count_matches ss labels)
                 (outcome (count_matches ss labels)) db))).
Proof.
  intros Hlog Hcur Hne Hans Hlabels Hlen.
  destruct (score_answers_strings qs [] ss labels 0 [] Hlabels Hlen)
    as [rows [Hrun _]].
  simpl in Hrun.
  destruct (get_topic kvs) as [topic0 Ht].
  exists (if negb (Py.truthy topic0)
          then match current_topic s with
               | Some t => JStr t
               | None => JStr "Unknown Topic"
               end
          else topic0), rows.
  intros db. unfold api_submit_game. rewrite Hlog. simpl negb. cbv iota.
  cbn [is_none]. rewrite get_answers, Ht.
  unfold submitted_answers. rewrite Hans, Hcur.
  destruct qs as [| q0 qs']; [contradiction |].
  cbn [Py.len]. rewrite length_map, Hlen, Nat.eqb_refl. simpl negb. cbv iota.
  rewrite Hrun. fold (outcome (count_matches ss labels)).
  unfold get_current_user_id.
  destruct (create_game_history _ _ _ _ db) as [saved db'].
  reflexivity.
Qed.

(** C5: for a logged-in submit with a JSON object as body: without held
    questions (none stored, or an empty list) the answer is the failure
    "No active quiz found"; with held questions and an answers value of
    another length it is the failure that names the expected and the received
    count; both leave session and database untouched, so nothing is scored,
    truncated or padded; and a scored result comes only with held questions
    and as many answers. *)
Theorem submit_preconditions (kvs : list (string * json)) (s : session)
    (db : database) :
  is_logged_in s = true ->
  (held_questions s = [] ->
   api_submit_game (JObj kvs) (s, db)
   = (Ok (Failure "No active quiz found", 400), (s, db)))
  /\
  (forall n,
     held_questions s <> [] ->
     Py.len (submitted_answers kvs) = Ok n ->
     n <> List.length (held_questions s) ->
     api_submit_game (JObj kvs) (s, db)
     = (Ok (Failure ("Expected " ++ PyStr.of_nat (List.length (held_questions s))
                     ++ " answers but received " ++ PyStr.of_nat n), 400),
        (s, db)))
  /\
  (forall b code st,
     api_submit_game (JObj kvs) (s, db) = (Ok (b, code), st) ->
     (forall m, b <> Failure m) ->
     held_questions s <> [] /\
     Py.len (submitted_answers kvs) = Ok (List.length (held_questions s))).
Proof.
  intros Hlog. destruct (get_topic kvs) as [topic0 Ht]. repeat split.
  - intros Hq. unfold api_submit_game. rewrite Hlog. simpl negb. cbv iota.
    cbn [is_none]. rewrite get_answers, Ht. fold (held_questions s).
    rewrite Hq. reflexivity.
  - intros n Hq Hn Hne. unfold api_submit_game. rewrite Hlog. simpl negb.
    cbv iota. cbn [is_none]. rewrite get_answers, Ht. fold (held_questions s).
    destruct (held_questions s) as [| q0 qs]; [contradiction |].
    rewrite Hn. apply Nat.eqb_neq in Hne. rewrite Hne. reflexivity.
  - destruct (api_submit_game_cases (JObj kvs) s db)
      as [[_ Hfail] | [kvs' [sc [tp [rows [E [_ [Hq _]]]]]]]].
    + rewrite H in Hfail. destruct (Hfail b code eq_refl) as [m ->].
      exfalso. now apply (H0 m).
    + exact Hq.
  - destruct (api_submit_game_cases (JObj kvs) s db)
      as [[_ Hfail] | [kvs' [sc [tp [rows [E [_ [_ [Hl _]]]]]]]]].
    + rewrite H in Hfail. destruct (Hfail b code eq_refl) as [m ->].
      exfalso. now apply (H0 m).
    + injection E as <-. exact Hl.
Qed.

(** C6: with held questions and as many answers, all strings, the score is
    the number of positions at which the lowercased answer equals the
    lowercased correct label, and the result is WON exactly when the score
    is at least 7; the answer "A" matches the label "a", a score of 6 loses
    and a score of 7 wins. *)
Theorem score_counts_matches (s : session) (db : database)
    (kvs : list (string * json)) (ss labels : list string)
    (qs : list question_obj) :
  is_logged_in s = true ->
  current_questions s = Some qs -> qs <> [] ->
  Py.lookup "answers" kvs = Some (JArr (map JStr ss)) ->
  map correct qs = map JStr labels ->
  List.length ss = List.length qs ->
  (exists result topic detailed_results saved st,
      api_submit_game (JObj kvs) (s, db)
      = (Ok (Scored (count_matches ss labels) 10 result topic
                    detailed_results saved, 200), st) /\
      (result = "WON" \/ result = "LOST") /\
      (result = "WON" <-> 7 <= count_matches ss labels)) /\
  matches "A" "a" = true /\
  outcome 6 = "LOST" /\ outcome 7 = "WON".
Proof.
  intros Hlog Hcur Hne Hans Hlabels Hlen.
  split; [| repeat split].
  destruct (api_submit_game_strings s kvs ss labels qs
              Hlog Hcur Hne Hans Hlabels Hlen) as [topic [rows Hrun]].
  do 5 eexists. split; [apply (Hrun db) |].
  unfold outcome. destruct (7 <=? count_matches ss labels)%nat eqn:E.
  - apply Nat.leb_le in E. split; [now left |]. split; auto.
  - apply Nat.leb_gt in E. split; [now right |].
    split; [discriminate | lia].
Qed.

(** C9: a submit that does not score, whether it answers with a failure or
    raises, leaves the session (and the database) as they were; a submit
    that scores removes current_questions and current_topic, so that a
    second submit finds no active quiz. *)
Theorem submit_session_atomic (data : json) (s : session) (db : database) :
  (forall m code,
     fst (api_submit_game data (s, db)) = Ok (Failure m, code) ->
     snd (api_submit_game data (s, db)) = (s, db)) /\
  (forall e,
     fst (api_submit_game data (s, db)) = Raise e ->
     snd (api_submit_game data (s, db)) = (s, db)) /\
  (forall score total result topic detailed_results saved code,
     fst (api_submit_game data (s, db))
     = Ok (Scored score total result topic detailed_results saved, code) ->
     let s' := fst (snd (api_submit_game data (s, db))) in
     current_questions s' = None /\
     current_topic s' = None /\
     user_id s' = user_id s /\
     forall kvs2,
       api_submit_game (JObj kvs2) (snd (api_submit_game data (s, db)))
       = (Ok (Failure "No active quiz found", 400),
          snd (api_submit_game data (s, db)))).
Proof.
  destruct (api_submit_game_cases data s db)
    as [[Hst Hfail] | [kvs [sc [tp [rows [E [Hlog [_ [_ [_ Hrun]]]]]]]]]].
  - repeat split; auto; intros.
    all: destruct (Hfail _ _ H) as [m Hm]; discriminate Hm.
  - rewrite Hrun. cbn [fst snd]. repeat split; try discriminate.
    intros kvs2. destruct (get_topic kvs2) as [t2 Ht2].
    unfold api_submit_game.
    replace (is_logged_in (clear_quiz s)) with true by (symmetry; exact Hlog).
    simpl negb. cbv iota. cbn [is_none]. rewrite get_answers, Ht2.
    reflexivity.
Qed.


(** ** More about [clean_json_response] *)

Lemma prefix_cons_false (a c : ascii) (old s : string) :
  a <> c -> String.prefix (String a old) (String c s) = false.
Proof.
  intros H. simpl. destruct (ascii_dec a c); [contradiction | reflexivity].
Qed.

Lemma prefix_cons_same (a : ascii) (old s : string) :
  String.prefix (String a old) (String a s) = String.prefix old s.
Proof.
  cbn [String.prefix]. destruct (ascii_dec a a); [reflexivity | contradiction].
Qed.

Lemma contains_cons (old : string) (c : ascii) (s : string) :
  PyStr.contains old (String c s)
  = String.prefix old (String c s) || PyStr.contains old s.
Proof. reflexivity. Qed.

Lemma contains_first (a : ascii) (old s : string) :
  PyStr.contains (String a old) s = true ->
  PyStr.contains (String a EmptyString) s = true.
Proof.
  induction s as [| c s IH]; [simpl; discriminate |].
  rewrite !contains_cons. intros H. apply orb_true_iff in H.
  apply orb_true_iff. destruct H as [H | H]; [left | right; now apply IH].
  simpl in *. destruct (ascii_dec a c); [| discriminate].
  now destruct s.
Qed.

Lemma absent_first (a : ascii) (old s : string) :
  PyStr.contains (String a EmptyString) s = false ->
  PyStr.contains (String a old) s = false.
Proof.
  intros H. destruct (PyStr.contains (String a old) s) eqn:E; [| reflexivity].
  apply contains_first in E. congruence.
Qed.

(** Replacing a text that does not occur changes nothing. *)
Lemma replace_from_absent (a : ascii) (old new s : string) :
  PyStr.contains (String a old) s = false ->
  PyStr.replace_from (String a old) new 0 s = s.
Proof.
  induction s as [| c s IH]; [reflexivity |].
  rewrite contains_cons. intros H. apply orb_false_iff in H.
  destruct H as [Hp Hc]. cbn [PyStr.replace_from]. rewrite Hp.
  f_equal. now apply IH.
Qed.

Lemma replace_from_app_absent (a : ascii) (old new x t : string) :
  PyStr.contains (String a EmptyString) x = false ->
  PyStr.replace_from (String a old) new 0 (x ++ t)
  = x ++ PyStr.replace_from (String a old) new 0 t.
Proof.
  induction x as [| c x IH]; [reflexivity |].
  rewrite contains_cons. intros H. apply orb_false_iff in H.
  destruct H as [Hp Hc]. cbn [append].
  cbn [PyStr.replace_from].
  assert (Hne : a <> c).
  { intros ->. simpl in Hp. destruct (ascii_dec c c); [| contradiction].
    destruct x; discriminate Hp. }
  rewrite (prefix_cons_false a c old (x ++ t) Hne).
  f_equal. now apply IH.
Qed.

Lemma lstrip_app_blank (x : string) :
  PyStr.lstrip x = EmptyString -> forall t, PyStr.lstrip (x ++ t) = PyStr.lstrip t.
Proof.
  induction x as [| c x IH]; [reflexivity |]. simpl.
  destruct (PyStr.isspace c); [exact IH | discriminate].
Qed.

Lemma strip_idempotent (s : string) : PyStr.strip (PyStr.strip s) = PyStr.strip s.
Proof.
  unfold PyStr.strip.
  assert (R : forall t, PyStr.rstrip (PyStr.rstrip t) = PyStr.rstrip t).
  { induction t as [| c t IH]; [reflexivity |]. simpl.
    destruct (PyStr.rstrip t) as [| d r] eqn:E.
    - destruct (PyStr.isspace c) eqn:Ec; simpl; [reflexivity |].
      now rewrite Ec.
    - simpl. simpl in IH. now rewrite IH. }
  assert (L : forall t, PyStr.lstrip (PyStr.rstrip (PyStr.lstrip t))
                        = PyStr.rstrip (PyStr.lstrip t)).
  { induction t as [| c t IH]; [reflexivity |]. simpl.
    destruct (PyStr.isspace c) eqn:Ec; [exact IH |]. simpl.
    destruct (PyStr.rstrip t); rewrite ?Ec; simpl; rewrite ?Ec; reflexivity. }
  now rewrite L, R.
Qed.

Lemma contains_lstrip (old s : string) :
  PyStr.contains old (PyStr.lstrip s) = true -> PyStr.contains old s = true.
Proof.
  induction s as [| c s IH]; [auto |]. simpl PyStr.lstrip.
  destruct (PyStr.isspace c); [| auto].
  intros H. rewrite contains_cons. apply orb_true_iff. right. now apply IH.
Qed.

Lemma rstrip_is_prefix (s : string) : exists w, s = PyStr.rstrip s ++ w.
Proof.
  induction s as [| c s [w IH]]; [now exists EmptyString |]. simpl.
  destruct (PyStr.rstrip s) as [| d r] eqn:E.
  - destruct (PyStr.isspace c).
    + now exists (String c s).
    + exists w. simpl. now rewrite IH at 1.
  - exists w. simpl. now rewrite IH at 1.
Qed.

Lemma prefix_app (old p w : string) :
  String.prefix old p = true -> String.prefix old (p ++ w) = true.
Proof.
  revert p. induction old as [| a old IH]; intros p H.
  - now destruct (p ++ w).
  - destruct p as [| c p]; [discriminate H |]. simpl in *.
    destruct (ascii_dec a c); [now apply IH | discriminate H].
Qed.

Lemma contains_app (old p w : string) :
  PyStr.contains old p = true -> PyStr.contains old (p ++ w) = true.
Proof.
  induction p as [| c p IH]; intros H.
  - simpl in H. rewrite orb_false_r in H.
    destruct old; [| discriminate H]. now destruct w.
  - rewrite contains_cons in H. cbn [append]. rewrite contains_cons.
    apply orb_true_iff in H. apply orb_true_iff.
    destruct H as [H | H]; [left | right; now apply IH].
    now apply (prefix_app old (String c p) w).
Qed.

Lemma contains_strip (old s : string) :
  PyStr.contains old (PyStr.strip s) = true -> PyStr.contains old s = true.
Proof.
  unfold PyStr.strip. intros H. apply contains_lstrip.
  destruct (rstrip_is_prefix (PyStr.lstrip s)) as [w Hw].
  rewrite Hw. now apply contains_app.
Qed.

Lemma replace_from_match (a : ascii) (old new s : string) :
  String.prefix (String a old) s = true ->
  PyStr.replace_from (String a old) new 0 s
  = new ++ PyStr.replace_from (String a old) new 0
             (substring (String.length (String a old))
                        (String.length s - String.length (String a old)) s).
Proof.
  assert (K : forall k t,
             PyStr.replace_from (String a old) new k t
             = PyStr.replace_from (String a old) new 0
                 (substring k (String.length t - k) t)).
  { intros k t. revert k. induction t as [| c t IH]; intros k.
    - now destruct k.
    - destruct k as [| k].
      + cbn [String.length Nat.sub]. cbn [substring].
        change (substring 0 (S (String.length t)) (String c t))
          with (String c (substring 0 (String.length t) t)).
        assert (Z : forall u, substring 0 (String.length u) u = u).
        { induction u as [| d u IHu]; [reflexivity |]. simpl. now rewrite IHu. }
        now rewrite Z.
      + cbn [PyStr.replace_from String.length Nat.sub substring]. apply IH. }
  intros Hp. destruct s as [| c s]; [discriminate Hp |].
  cbn [PyStr.replace_from]. rewrite Hp. f_equal. rewrite K.
  cbn [String.length Nat.sub substring]. rewrite Nat.sub_0_r. reflexivity.
Qed.

Lemma replace_from_keep (a : ascii) (old new : string) (c : ascii) (s : string) :
  String.prefix (String a old) (String c s) = false ->
  PyStr.replace_from (String a old) new 0 (String c s)
  = String c (PyStr.replace_from (String a old) new 0 s).
Proof. intros Hp. cbn [PyStr.replace_from]. now rewrite Hp. Qed.

Lemma substring_all (s : string) : substring 0 (String.length s) s = s.
Proof. induction s as [| c s IH]; [reflexivity |]. simpl. now rewrite IH. Qed.

Lemma replace_fence_skip (s : string) :
  PyStr.replace_from "```" EmptyString 0 (String "`" (String "`" (String "`" s)))
  = PyStr.replace_from "```" EmptyString 0 s.
Proof.
  rewrite replace_from_match by (now destruct s).
  cbn [String.length Nat.sub substring append].
  now rewrite Nat.sub_0_r, substring_all.
Qed.

(** Removing the fence markers of a run of backticks leaves fewer than three
    of them, and no marker anywhere. *)
Lemma replace_fence_leaves_none (n : nat) :
  forall s,
    String.length s <= n ->
    PyStr.contains "```" (PyStr.replace_from "```" EmptyString 0 s) = false /\
    leading_backticks (PyStr.replace_from "```" EmptyString 0 s)
    <= leading_backticks s.
Proof.
  induction n as [| n IH]; intros s Hn.
  - destruct s; [split; [reflexivity | apply Nat.le_refl] | simpl in Hn; lia].
  - destruct s as [| c s]; [split; [reflexivity | apply Nat.le_refl] |].
    simpl in Hn. assert (Hs : String.length s <= n) by lia.
    destruct (IH s Hs) as [Hc Hl].
    assert (Keep : String.prefix "```" (String c s) = false ->
                   leading_backticks (String c s) <= 2 ->
                   PyStr.contains "```"
                     (PyStr.replace_from "```" EmptyString 0 (String c s)) = false /\
                   leading_backticks
                     (PyStr.replace_from "```" EmptyString 0 (String c s))
                   <= leading_backticks (String c s)).
    { intros Hp Hle. rewrite (replace_from_keep _ _ _ _ _ Hp).
      assert (Hl' : leading_backticks
                      (String c (PyStr.replace_from "```" EmptyString 0 s))
                    <= leading_backticks (String c s)).
      { simpl. destruct (Ascii.eqb c "`"); lia. }
      split; [| exact Hl'].
      rewrite contains_cons. apply orb_false_iff. split; [| exact Hc].
      destruct (String.prefix "```"
                  (String c (PyStr.replace_from "```" EmptyString 0 s))) eqn:E;
        [| reflexivity].
      exfalso.
      assert (3 <= leading_backticks
                     (String c (PyStr.replace_from "```" EmptyString 0 s))).
      { remember (PyStr.replace_from "```" EmptyString 0 s) as t.
        cbn [String.prefix] in E. destruct (ascii_dec "`" c) as [<- |]; [| discriminate E].
        destruct t as [| c1 t]; cbn [String.prefix] in E; [discriminate E |].
        destruct (ascii_dec "`" c1) as [<- |]; [| discriminate E].
        destruct t as [| c2 t]; cbn [String.prefix] in E; [discriminate E |].
        destruct (ascii_dec "`" c2) as [<- |]; [| discriminate E].
        simpl. lia. }
      lia. }
    destruct (String.prefix "```" (String c s)) eqn:Hp.
    + cbn [String.prefix] in Hp. destruct (ascii_dec "`" c) as [<- |]; [| discriminate Hp].
      destruct s as [| c1 s1]; cbn [String.prefix] in Hp; [discriminate Hp |].
      destruct (ascii_dec "`" c1) as [<- |]; [| discriminate Hp].
      destruct s1 as [| c2 s2]; cbn [String.prefix] in Hp; [discriminate Hp |].
      destruct (ascii_dec "`" c2) as [<- |]; [| discriminate Hp].
      rewrite replace_fence_skip. simpl in Hs.
      destruct (IH s2 ltac:(lia)) as [Hc2 Hl2].
      split; [exact Hc2 |]. simpl. lia.
    + apply Keep; [reflexivity |].
      destruct (Ascii.eqb c "`") eqn:Ec; [| simpl; rewrite Ec; lia].
      apply Ascii.eqb_eq in Ec. subst c.
      destruct s as [| c1 s1]; [simpl; lia |].
      destruct (Ascii.eqb c1 "`") eqn:E1; [| simpl; rewrite E1; lia].
      apply Ascii.eqb_eq in E1. subst c1.
      destruct s1 as [| c2 s2]; [simpl; lia |].
      destruct (Ascii.eqb c2 "`") eqn:E2; [| simpl; rewrite E2; lia].
      apply Ascii.eqb_eq in E2. subst c2.
      exfalso. clear -Hp. destruct s2; discriminate Hp.
Qed.

(** X1: a response without any backtick is only stripped of the whitespace
    around it. *)
Theorem clean_plain_text (response_text : string) :
  PyStr.contains "`" response_text = false ->
  clean_json_response response_text = PyStr.strip response_text.
Proof.
  intros H. unfold clean_json_response, PyStr.replace.
  rewrite (replace_from_absent "`" "``json" EmptyString response_text)
    by (now apply absent_first).
  rewrite (replace_from_absent "`" "``" EmptyString response_text)
    by (now apply absent_first).
  reflexivity.
Qed.

(** X2: a payload without backticks wrapped in a fenced block, opened by
    the json marker or, when the payload does not itself begin with the
    letters json, by the bare marker, comes out stripped of the fence and of
    the whitespace around it. *)
Theorem clean_fenced_block (payload : string) :
  PyStr.contains "`" payload = false ->
  clean_json_response ("```json" ++ payload ++ "```") = PyStr.strip payload /\
  (String.prefix "json" payload = false ->
   clean_json_response ("```" ++ payload ++ "```") = PyStr.strip payload).
Proof.
  intros H.
  assert (Tail : forall old,
             PyStr.replace_from (String "`" old) EmptyString 0 (payload ++ "```")
             = payload ++ PyStr.replace_from (String "`" old) EmptyString 0 "```").
  { intros old. now apply replace_from_app_absent. }
  assert (Second : PyStr.replace_from "```" EmptyString 0 (payload ++ "```")
                   = payload).
  { rewrite Tail. cbn. clear. induction payload as [| c p IH]; simpl; congruence. }
  split.
  - unfold clean_json_response, PyStr.replace.
    rewrite (replace_from_match "`" "``json" EmptyString)
      by (cbn; now destruct (payload ++ "```")).
    cbn [String.length Nat.sub substring append].
    rewrite Nat.sub_0_r, substring_all, Tail.
    change (PyStr.replace_from "```json" EmptyString 0 "```") with "```".
    now rewrite Second.
  - intros Hj. destruct payload as [| c0 p]; [reflexivity |].
    assert (Hne : "`"%char <> c0).
    { intros <-. rewrite contains_cons in H. apply orb_false_iff in H.
      destruct H as [H _]. cbn [String.prefix] in H.
      destruct (ascii_dec "`" "`"); [| contradiction].
      destruct p; discriminate H. }
    assert (Hj' : String.prefix "json" (String c0 p ++ "```") = false).
    { destruct (String.prefix "json" (String c0 p ++ "```")) eqn:E;
        [| reflexivity].
      exfalso. clear -Hj E.
      cbn [append String.prefix] in *.
      destruct (ascii_dec "j" c0); [| discriminate E].
      destruct p as [| c1 p]; [discriminate E |].
      cbn [append String.prefix] in *.
      destruct (ascii_dec "s" c1); [| discriminate E].
      destruct p as [| c2 p]; [discriminate E |].
      cbn [append String.prefix] in *.
      destruct (ascii_dec "o" c2); [| discriminate E].
      destruct p as [| c3 p]; [discriminate E |].
      cbn [append String.prefix] in *.
      destruct (ascii_dec "n" c3); [| discriminate E].
      destruct p; discriminate Hj. }
    unfold clean_json_response, PyStr.replace.
    assert (First : PyStr.replace_from "```json" EmptyString 0
                      ("```" ++ String c0 p ++ "```")
                    = "```" ++ String c0 p ++ "```").
    { cbn [append].
      rewrite replace_from_keep.
      2:{ rewrite !prefix_cons_same. exact Hj'. }
      rewrite replace_from_keep.
      2:{ rewrite !prefix_cons_same. now apply prefix_cons_false. }
      rewrite replace_from_keep.
      2:{ rewrite !prefix_cons_same. now apply prefix_cons_false. }
      change (String c0 (p ++ "```")) with (String c0 p ++ "```").
      rewrite (Tail "``json").
      change (PyStr.replace_from "```json" EmptyString 0 "```") with "```".
      reflexivity. }
    rewrite First.
    rewrite (replace_from_match "`" "``" EmptyString)
      by (cbn [append]; now rewrite !prefix_cons_same).
    cbn [String.length Nat.sub substring append].
    rewrite (substring_all (p ++ "```")).
    change (String c0 (p ++ "```")) with (String c0 p ++ "```").
    now rewrite Second.
Qed.

Lemma prefix_shorter (old ext s : string) :
  String.prefix (old ++ ext) s = true -> String.prefix old s = true.
Proof.
  revert s. induction old as [| a old IH]; intros s H.
  - now destruct s.
  - destruct s as [| c s]; [discriminate H |].
    cbn [append String.prefix] in *.
    destruct (ascii_dec a c); [now apply IH | discriminate H].
Qed.

Lemma absent_longer (old ext s : string) :
  PyStr.contains old s = false -> PyStr.contains (old ++ ext) s = false.
Proof.
  induction s as [| c s IH]; intros H.
  - destruct old; [discriminate H | reflexivity].
  - rewrite contains_cons in *. apply orb_false_iff in H.
    destruct H as [Hp Hc]. apply orb_false_iff. split; [| now apply IH].
    destruct (String.prefix (old ++ ext) (String c s)) eqn:E; [| reflexivity].
    apply prefix_shorter in E. congruence.
Qed.

Lemma clean_leaves_no_fence_aux (response_text : string) :
  PyStr.contains "```" (clean_json_response response_text) = false /\
  PyStr.strip (clean_json_response response_text)
  = clean_json_response response_text.
Proof.
  unfold clean_json_response. split; [| apply strip_idempotent].
  destruct (PyStr.contains "```" (PyStr.strip _)) eqn:E; [| reflexivity].
  apply contains_strip in E. unfold PyStr.replace at 1 in E.
  destruct (replace_fence_leaves_none
              _ (PyStr.replace "```json" EmptyString response_text)
              (Nat.le_refl _)) as [Hc _].
  rewrite Hc in E. discriminate E.
Qed.

(** X3: the cleaned text contains no fence marker any more, and neither
    begins nor ends with whitespace. *)
Theorem clean_leaves_no_fence (response_text : string) :
  PyStr.contains "```" (clean_json_response response_text) = false /\
  PyStr.strip (clean_json_response response_text)
  = clean_json_response response_text.
Proof. exact (clean_leaves_no_fence_aux response_text). Qed.

(** X4: cleaning a cleaned text changes nothing. *)
Theorem clean_idempotent (response_text : string) :
  clean_json_response (clean_json_response response_text)
  = clean_json_response response_text.
Proof.
  destruct (clean_leaves_no_fence_aux response_text) as [Hc Hs].
  remember (clean_json_response response_text) as t.
  unfold clean_json_response, PyStr.replace.
  rewrite (replace_from_absent "`" "``json" EmptyString t)
    by (apply (absent_longer "```" "json"), Hc).
  rewrite (replace_from_absent "`" "``" EmptyString t) by exact Hc.
  exact Hs.
Qed.

(** ** More about the generator *)

Lemma blank_topic (topic : string) :
  String.eqb topic EmptyString || String.eqb (PyStr.strip topic) EmptyString
  = true
  <-> PyStr.strip topic = EmptyString.
Proof.
  split.
  - intros H. apply orb_true_iff in H. destruct H as [H | H].
    + apply String.eqb_eq in H. now subst.
    + now apply String.eqb_eq.
  - intros H. apply orb_true_iff. right. now apply String.eqb_eq.
Qed.

(** A well-formed answer is appended whole. *)
Lemma add_tier_well_formed (label : string) (v : json)
    (all_questions : list question_obj) :
  well_formed_tier v ->
  exists kvs added,
    v = JObj kvs /\
    add_tier label v all_questions = Ok (all_questions ++ added)%list /\
    List.length added = List.length kvs.
Proof.
  intros [kvs [-> [Hint Hfields]]].
  destruct (sorted_keys_total kvs Hint) as [ks Hks].
  destruct (sorted_keys_inv _ _ Hks) as [kvs' [Ekvs [Hperm _]]].
  injection Ekvs as <-.
  assert (Hall : Forall (fun k => exists e, Py.getitem (JObj kvs) k = Ok e
                                            /\ has_fields e) ks).
  { rewrite Forall_forall. intros k Hk.
    assert (Hin : In k (map fst kvs)) by (eapply Permutation_in; eassumption).
    destruct (lookup_key _ _ Hin) as [v [Hv Hvin]].
    exists v. simpl. rewrite Hv. split; [reflexivity |].
    rewrite Forall_forall in Hfields. now apply Hfields. }
  destruct (add_questions_total label _ _ Hall all_questions) as [all' Hrun].
  destruct (add_questions_inv _ _ _ _ _ Hrun) as [added [-> [F2 _]]].
  exists kvs, added. split; [reflexivity |]. split.
  - unfold add_tier. rewrite Hks. exact Hrun.
  - rewrite <- (Forall2_length F2), (Permutation_length Hperm).
    apply length_map.
Qed.

(** X5: a run calls the service at most three times: for 5 EASY, then 3
    MEDIUM, then 2 HARD questions, each time with the stripped topic; it
    calls it not at all exactly when the topic is empty or blank, and the
    result is then the dict without questions whose [success] is [False]
    and whose message asks for a topic. *)
Theorem generate_quiz_calls (topic : string) (log log' : list call)
    (r : result quiz_result) :
  generate_quiz topic log = (r, log') ->
  exists made rest,
    log' = (log ++ made)%list /\
    tier_calls (PyStr.strip topic) = (made ++ rest)%list /\
    (made = [] <-> PyStr.strip topic = EmptyString) /\
    (PyStr.strip topic = EmptyString ->
     r = Ok {| success := false;
               message := "Please provide a topic for the quiz";
               questions := []; topic := None |}).
Proof.
  unfold generate_quiz.
  destruct (_ || _) eqn:B; unfold bindM, lift, ret.
  { apply blank_topic in B. intros H. injection H as <- <-.
    exists [], (tier_calls (PyStr.strip topic)).
    rewrite app_nil_r. repeat split; auto. }
  assert (Hne : PyStr.strip topic <> EmptyString).
  { intros E. apply blank_topic in E. congruence. }
  assert (Fin : forall (x : result quiz_result * list call) made rest,
             made <> [] ->
             snd x = (log ++ made)%list ->
             tier_calls (PyStr.strip topic) = (made ++ rest)%list ->
             x = (r, log') ->
             exists made rest,
               log' = (log ++ made)%list /\
               tier_calls (PyStr.strip topic) = (made ++ rest)%list /\
               (made = [] <-> PyStr.strip topic = EmptyString) /\
               (PyStr.strip topic = EmptyString ->
                r = Ok {| success := false;
                          message := "Please provide a topic for the quiz";
                          questions := []; topic := None |})).
  { intros x made rest Hm Hx Hcalls ->. simpl in Hx. subst log'.
    exists made, rest. repeat split; auto; intros; contradiction. }
  run_tier easy E1.
  2:{ apply (Fin _ (firstn 1 (tier_calls (PyStr.strip topic)))
                 (skipn 1 (tier_calls (PyStr.strip topic))));
        [discriminate | reflexivity | reflexivity]. }
  destruct (is_none easy).
  { apply (Fin _ (firstn 1 (tier_calls (PyStr.strip topic)))
                 (skipn 1 (tier_calls (PyStr.strip topic))));
      [discriminate | reflexivity | reflexivity]. }
  destruct (add_tier "EASY" easy []) as [q1 | e].
  2:{ apply (Fin _ (firstn 1 (tier_calls (PyStr.strip topic)))
                 (skipn 1 (tier_calls (PyStr.strip topic))));
        [discriminate | reflexivity | reflexivity]. }
  run_tier medium E2.
  2:{ apply (Fin _ (firstn 2 (tier_calls (PyStr.strip topic)))
                 (skipn 2 (tier_calls (PyStr.strip topic))));
        [discriminate | now rewrite <- app_assoc | reflexivity]. }
  destruct (is_none medium).
  { apply (Fin _ (firstn 2 (tier_calls (PyStr.strip topic)))
                 (skipn 2 (tier_calls (PyStr.strip topic))));
      [discriminate | now rewrite <- app_assoc | reflexivity]. }
  destruct (add_tier "MEDIUM" medium q1) as [q2 | e].
  2:{ apply (Fin _ (firstn 2 (tier_calls (PyStr.strip topic)))
                 (skipn 2 (tier_calls (PyStr.strip topic))));
        [discriminate | now rewrite <- app_assoc | reflexivity]. }
  run_tier hard E3.
  2:{ apply (Fin _ (firstn 3 (tier_calls (PyStr.strip topic)))
                 (skipn 3 (tier_calls (PyStr.strip topic))));
        [discriminate | now rewrite <- !app_assoc | reflexivity]. }
  apply (Fin _ (firstn 3 (tier_calls (PyStr.strip topic)))
                 (skipn 3 (tier_calls (PyStr.strip topic))));
    [discriminate | | reflexivity].
  destruct (is_none hard); [now rewrite <- !app_assoc |].
  destruct (add_tier "HARD" hard q2) as [q3 | e]; [| now rewrite <- !app_assoc].
  destruct (negb _); now rewrite <- !app_assoc.
Qed.

(** X6: when the three answers are well-formed dicts whose numbers of
    entries do not add up to 10, the result is the dict without questions
    whose [success] is [False] and whose message names the number of
    questions received. *)
Theorem count_mismatch_reported (topic : string) (log : list call)
    (easy medium hard : list (string * json)) :
  PyStr.strip topic <> EmptyString ->
  returned log
    {| call_topic := PyStr.strip topic; call_number := 5;
       call_difficulty := "EASY" |} (JObj easy) ->
  returned (log ++ [ {| call_topic := PyStr.strip topic; call_number := 5;
                        call_difficulty := "EASY" |} ])
    {| call_topic := PyStr.strip topic; call_number := 3;
       call_difficulty := "MEDIUM" |} (JObj medium) ->
  returned (log ++ [ {| call_topic := PyStr.strip topic; call_number := 5;
                        call_difficulty := "EASY" |};
                     {| call_topic := PyStr.strip topic; call_number := 3;
                        call_difficulty := "MEDIUM" |} ])
    {| call_topic := PyStr.strip topic; call_number := 2;
       call_difficulty := "HARD" |} (JObj hard) ->
  well_formed_tier (JObj easy) ->
  well_formed_tier (JObj medium) ->
  well_formed_tier (JObj hard) ->
  List.length easy + List.length medium + List.length hard <> 10 ->
  generate_quiz topic log
  = (Ok {| success := false;
           message := "Expected 10 questions but got "
                      ++ PyStr.of_nat (List.length easy + List.length medium
                                       + List.length hard)
                      ++ ". Please try again.";
           questions := []; topic := None |},
     (log ++ tier_calls (PyStr.strip topic))%list).
Proof.
  intros Hne R1 R2 R3 W1 W2 W3 Hcount.
  unfold generate_quiz.
  destruct (_ || _) eqn:B.
  { apply blank_topic in B. contradiction. }
  unfold bindM, lift, ret.
  pose proof R1 as R1'. unfold returned in R1'. simpl in R1'. rewrite R1'.
  cbn [is_none].
  destruct (add_tier_well_formed "EASY" _ [] W1) as [k1 [a1 [E1 [A1 L1]]]].
  injection E1 as <-. rewrite A1. cbn [app].
  pose proof R2 as R2'. unfold returned in R2'. simpl in R2'. rewrite R2'.
  cbn [is_none].
  destruct (add_tier_well_formed "MEDIUM" _ a1 W2) as [k2 [a2 [E2 [A2 L2]]]].
  injection E2 as <-. rewrite A2.
  rewrite <- app_assoc. cbn [app].
  pose proof R3 as R3'. unfold returned in R3'. simpl in R3'. rewrite R3'.
  cbn [is_none].
  destruct (add_tier_well_formed "HARD" _ (a1 ++ a2) W3) as [k3 [a3 [E3 [A3 L3]]]].
  injection E3 as <-. rewrite A3.
  rewrite !length_app, L1, L2, L3.
  apply Nat.eqb_neq in Hcount. rewrite Hcount. cbn [negb].
  rewrite <- app_assoc. reflexivity.
Qed.

(** C7: in a run of [generate_quiz] whose three calls return dicts with keys
    that [int] accepts and entries that have their fields, ten in all, the
    questions of the result are those of the easy, the medium and the hard
    tier one after the other; within each tier they are built, one for one,
    from the entries at the keys of the tier taken in ascending order of
    their integer values (not of their spelling); and the question numbers
    run from 1 to 10 in this order. *)
Theorem tiers_appended_in_numeric_order (topic : string) (log : list call)
    (easy medium hard : list (string * json)) :
  PyStr.strip topic <> EmptyString ->
  returned log
    {| call_topic := PyStr.strip topic; call_number := 5;
       call_difficulty := "EASY" |} (JObj easy) ->
  returned (log ++ [ {| call_topic := PyStr.strip topic; call_number := 5;
                        call_difficulty := "EASY" |} ])
    {| call_topic := PyStr.strip topic; call_number := 3;
       call_difficulty := "MEDIUM" |} (JObj medium) ->
  returned (log ++ [ {| call_topic := PyStr.strip topic; call_number := 5;
                        call_difficulty := "EASY" |};
                     {| call_topic := PyStr.strip topic; call_number := 3;
                        call_difficulty := "MEDIUM" |} ])
    {| call_topic := PyStr.strip topic; call_number := 2;
       call_difficulty := "HARD" |} (JObj hard) ->
  well_formed_tier (JObj easy) ->
  well_formed_tier (JObj medium) ->
  well_formed_tier (JObj hard) ->
  List.length easy + List.length medium + List.length hard = 10 ->
  exists ks1 ks2 ks3 a1 a2 a3,
    (Permutation ks1 (map fst easy) /\ StronglySorted key_le ks1 /\
     Forall2 (built_from (JObj easy)) ks1 a1) /\
    (Permutation ks2 (map fst medium) /\ StronglySorted key_le ks2 /\
     Forall2 (built_from (JObj medium)) ks2 a2) /\
    (Permutation ks3 (map fst hard) /\ StronglySorted key_le ks3 /\
     Forall2 (built_from (JObj hard)) ks3 a3) /\
    map question_number (a1 ++ a2 ++ a3)%list = seq 1 10 /\
    generate_quiz topic log
    = (Ok {| success := true; message := "Quiz generated successfully";
             questions := (a1 ++ a2 ++ a3)%list;
             topic := Some (PyStr.strip topic) |},
       (log ++ tier_calls (PyStr.strip topic))%list).
Proof.
  intros Hne R1 R2 R3 W1 W2 W3 Hcount.
  destruct (add_tier_well_formed "EASY" _ [] W1) as [k1 [a1 [E1 [A1 L1]]]].
  injection E1 as <-.
  destruct (add_tier_well_formed "MEDIUM" _ ([] ++ a1) W2)
    as [k2 [a2 [E2 [A2 L2]]]].
  injection E2 as <-.
  destruct (add_tier_well_formed "HARD" _ (([] ++ a1) ++ a2) W3)
    as [k3 [a3 [E3 [A3 L3]]]].
  injection E3 as <-.
  destruct (add_tier_inv _ _ _ _ A1)
    as [kvs1 [ks1 [b1 [K1 [P1 [S1 [B1 [F1 [N1 _]]]]]]]]].
  injection K1 as <-. apply app_inv_head in B1. subst b1.
  destruct (add_tier_inv _ _ _ _ A2)
    as [kvs2 [ks2 [b2 [K2 [P2 [S2 [B2 [F2 [N2 _]]]]]]]]].
  injection K2 as <-. apply app_inv_head in B2. subst b2.
  destruct (add_tier_inv _ _ _ _ A3)
    as [kvs3 [ks3 [b3 [K3 [P3 [S3 [B3 [F3 [N3 _]]]]]]]]].
  injection K3 as <-. apply app_inv_head in B3. subst b3.
  cbn [app List.length Nat.add] in *.
  exists ks1, ks2, ks3, a1, a2, a3.
  split; [auto |]. split; [auto |]. split; [auto |]. split.
  - rewrite !map_app, N1, N2, N3, length_app, seq_three_blocks.
    f_equal. lia.
  - unfold generate_quiz.
    destruct (_ || _) eqn:B.
    { apply blank_topic in B. contradiction. }
    unfold bindM, lift, ret.
    pose proof R1 as R1'. unfold returned in R1'. simpl in R1'. rewrite R1'.
    cbn [is_none]. rewrite A1.
    pose proof R2 as R2'. unfold returned in R2'. simpl in R2'. rewrite R2'.
    cbn [is_none]. rewrite A2.
    rewrite <- app_assoc. cbn [app].
    pose proof R3 as R3'. unfold returned in R3'. simpl in R3'. rewrite R3'.
    cbn [is_none]. rewrite A3.
    rewrite !length_app, L1, L2, L3.
    apply Nat.eqb_eq in Hcount. rewrite Hcount. cbn [negb].
    rewrite <- !app_assoc. reflexivity.
Qed.

(** X7: as long as the service does not itself raise [JSONDecodeError]
    and every call returns [None] or a well-formed dict, [generate_quiz]
    returns a result dict and never raises. *)
Theorem well_formed_answers_never_raise :
  (forall before c, mcq_chain_invoke before c <> Raise JSONDecodeError) ->
  (forall before c v, returned before c v -> v = JNull \/ well_formed_tier v) ->
  forall topic log,
  exists r log', generate_quiz topic log = (Ok r, log').
Proof.
  intros Hdec Hwf topic log. unfold generate_quiz.
  destruct (_ || _); unfold bindM, lift, ret; [now eexists; eexists |].
  run_tier easy E1; [| exfalso; eapply Hdec; eassumption].
  destruct (Hwf _ _ _ E1) as [-> | W1]; [now eexists; eexists |].
  destruct (add_tier_well_formed "EASY" _ [] W1) as [k1 [a1 [-> [A1 _]]]].
  cbn [is_none]. rewrite A1.
  run_tier medium E2; [| exfalso; eapply Hdec; eassumption].
  destruct (Hwf _ _ _ E2) as [-> | W2]; [now eexists; eexists |].
  destruct (add_tier_well_formed "MEDIUM" _ ([] ++ a1) W2)
    as [k2 [a2 [-> [A2 _]]]].
  cbn [is_none]. rewrite A2.
  run_tier hard E3; [| exfalso; eapply Hdec; eassumption].
  destruct (Hwf _ _ _ E3) as [-> | W3]; [now eexists; eexists |].
  destruct (add_tier_well_formed "HARD" _ (([] ++ a1) ++ a2) W3)
    as [k3 [a3 [-> [A3 _]]]].
  cbn [is_none]. rewrite A3.
  destruct (negb _); now eexists; eexists.
Qed.

(** X8: a successful result carries exactly ten questions, numbered 1 to
    10, in three blocks of EASY, MEDIUM and HARD, together with the stripped
    topic and the success message; the service was called three times. *)
Theorem success_contents (topic_text : string) (log log' : list call)
    (r : quiz_result) :
  generate_quiz topic_text log = (Ok r, log') -> success r = true ->
  List.length (questions r) = 10 /\
  map question_number (questions r) = seq 1 10 /\
  (exists a b c,
      a + b + c = 10 /\
      map difficulty (questions r)
      = (repeat "EASY" a ++ repeat "MEDIUM" b ++ repeat "HARD" c)%list) /\
  topic r = Some (PyStr.strip topic_text) /\
  message r = "Quiz generated successfully" /\
  log' = (log ++ tier_calls (PyStr.strip topic_text))%list.
Proof.
  intros H Hs.
  destruct (generate_quiz_success_shape _ _ _ _ H Hs) as [L [N D]].
  destruct (generate_quiz_success_inv _ _ _ _ H Hs)
    as [easy [medium [hard [q1 [q2 [q3 Hrun]]]]]].
  cbv zeta in Hrun. destruct Hrun as [_ [_ [_ [-> [_ [_ [_ [_ ->]]]]]]]].
  repeat split; auto.
Qed.

(** X9: an easy answer that decodes to a JSON value other than null and an
    object makes [generate_quiz] raise AttributeError, and one that decodes
    to an object with a key that [int] rejects makes it raise ValueError;
    no further call is made. *)
Theorem malformed_answer_raises (topic : string) (log : list call) (v : json) :
  PyStr.strip topic <> EmptyString ->
  returned log
    {| call_topic := PyStr.strip topic; call_number := 5;
       call_difficulty := "EASY" |} v ->
  (v <> JNull -> (forall kvs, v <> JObj kvs) ->
   generate_quiz topic log
   = (Raise AttributeError,
      (log ++ [ {| call_topic := PyStr.strip topic; call_number := 5;
                   call_difficulty := "EASY" |} ])%list)) /\
  (forall kvs,
     v = JObj kvs ->
     Exists (fun k => py_int k = None) (map fst kvs) ->
     generate_quiz topic log
     = (Raise ValueError,
        (log ++ [ {| call_topic := PyStr.strip topic; call_number := 5;
                     call_difficulty := "EASY" |} ])%list)).
Proof.
  intros Hne R.
  assert (Start : forall e,
             v <> JNull -> add_tier "EASY" v [] = Raise e ->
             generate_quiz topic log
             = (Raise e,
                (log ++ [ {| call_topic := PyStr.strip topic; call_number := 5;
                             call_difficulty := "EASY" |} ])%list)).
  { intros e Hv Ha. unfold generate_quiz.
    destruct (_ || _) eqn:B; [apply blank_topic in B; contradiction |].
    unfold bindM, lift, ret.
    pose proof R as R'. unfold returned in R'. simpl in R'. rewrite R'.
    destruct v; try contradiction; cbn [is_none]; now rewrite Ha. }
  split.
  - intros Hv Hobj. apply Start; [exact Hv |].
    destruct v; try reflexivity. exfalso. now apply (Hobj kvs).
  - intros kvs -> Hex. apply Start; [discriminate |].
    unfold add_tier, sorted_keys. cbn [Py.keys bind].
    assert (M : mapM int_key (map fst kvs) = Raise ValueError).
    { induction Hex as [k ks Hk | k ks _ IH]; cbn [mapM].
      - unfold int_key at 1. now rewrite Hk.
      - unfold int_key at 1. destruct (py_int k); [| reflexivity].
        cbn [bind]. now rewrite IH. }
    now rewrite M.
Qed.

(** X10: when the text of the service does not decode, whatever the
    decoder raises, [generate_questions_by_difficulty] returns [None] after
    its single call. *)
Theorem decode_error_returns_none
    (topic : string) (number : nat) (difficulty : string) (log : list call)
    (raw_response : string) (e : exn) :
  mcq_chain_invoke log {| call_topic := topic; call_number := number;
                          call_difficulty := difficulty |}
  = Ok raw_response ->
  json_loads (clean_json_response raw_response) = Raise e ->
  generate_questions_by_difficulty topic number difficulty log
  = (Ok JNull, (log ++ [ {| call_topic := topic; call_number := number;
                            call_difficulty := difficulty |} ])%list).
Proof.
  intros Hc Hd. unfold generate_questions_by_difficulty.
  now rewrite Hc, Hd.
Qed.

(** ** More about the handlers *)

Lemma strip_nonblank_truthy (t : string) :
  PyStr.strip t <> EmptyString -> Py.truthy (JStr t) = true.
Proof.
  intros H. destruct t; [now contradiction H | reflexivity].
Qed.

(** A logged-in request with a topic that is not blank: the handler runs
    [generate_quiz] on the stripped topic and stores a successful quiz. *)
Lemma api_generate_game_run (kvs : list (string * json)) (t : string)
    (s : session) (log : list call) :
  is_logged_in s = true ->
  Py.lookup "topic" kvs = Some (JStr t) ->
  PyStr.strip t <> EmptyString ->
  api_generate_game (JObj kvs) (s, log)
  = match generate_quiz (PyStr.strip t) log with
    | (Raise e, log') => (Raise e, (s, log'))
    | (Ok r, log') =>
        if success r
        then (Ok (Generated r, 200),
              (store_quiz s (PyStr.strip t) (questions r), log'))
        else (Ok (Generated r, 500), (s, log'))
    end.
Proof.
  intros Hlog Ht Hne. unfold api_generate_game.
  rewrite Hlog. cbn [negb is_none Py.get]. rewrite Ht.
  rewrite (strip_nonblank_truthy t Hne). cbn [negb Py.strip bind].
  destruct (String.eqb (PyStr.strip t) EmptyString) eqn:E.
  - apply String.eqb_eq in E. contradiction.
  - reflexivity.
Qed.

(** The courses of [api_generate_game] that do not reach [generate_quiz]. *)
Lemma api_generate_game_early (data : json) (s : session) (log : list call) :
  (exists kvs t,
      data = JObj kvs /\ is_logged_in s = true /\
      Py.lookup "topic" kvs = Some (JStr t) /\
      PyStr.strip t <> EmptyString)
  \/
  (snd (api_generate_game data (s, log)) = (s, log) /\
   forall b code, fst (api_generate_game data (s, log)) = Ok (b, code) ->
                  (code = 401 \/ code = 400) /\ exists m, b = Refused m).
Proof.
  unfold api_generate_game.
  destruct (is_logged_in s) eqn:Hlog; cbn [negb].
  2:{ right. split; [reflexivity |]. intros b code H. injection H as <- <-.
      split; [now left | now eexists]. }
  destruct (is_none data) eqn:Hnone.
  { right. split; [reflexivity |]. intros b code H. injection H as <- <-.
    split; [now right | now eexists]. }
  destruct (Py.get data "topic" (JStr EmptyString)) as [topic0 | e] eqn:Et.
  2:{ right. split; [reflexivity |]. intros b code H. discriminate H. }
  destruct (Py.truthy topic0) eqn:Htruthy; cbn [negb].
  2:{ right. split; [reflexivity |]. intros b code H. injection H as <- <-.
      split; [now right | now eexists]. }
  destruct (Py.strip topic0) as [t |e] eqn:Es; cbn [bind].
  2:{ right. split; [reflexivity |]. intros b code H. discriminate H. }
  destruct (String.eqb t EmptyString) eqn:Eb.
  { right. split; [reflexivity |]. intros b code H. injection H as <- <-.
    split; [now right | now eexists]. }
  left. destruct data; try discriminate Et.
  destruct topic0; try discriminate Es. injection Es as <-.
  exists kvs, s0. repeat split; auto.
  - cbn [Py.get] in Et. destruct (Py.lookup "topic" kvs) as [v |] eqn:El.
    + now injection Et as ->.
    + injection Et as <-. discriminate Htruthy.
  - intros E. rewrite E in Eb. discriminate Eb.
Qed.

(** X11: a request of an anonymous user, without a body, without a topic or
    with an empty or blank topic is refused with status 401, 400, 400 and
    400; the service is not called and the session stays as it was. *)
Theorem generate_refusals (data : json) (s : session) (log : list call) :
  (is_logged_in s = false ->
   api_generate_game data (s, log)
   = (Ok (Refused "Not logged in", 401), (s, log))) /\
  (is_logged_in s = true -> data = JNull ->
   api_generate_game data (s, log)
   = (Ok (Refused "No data received", 400), (s, log))) /\
  (forall kvs,
     is_logged_in s = true -> data = JObj kvs ->
     Py.lookup "topic" kvs = None ->
     api_generate_game data (s, log)
     = (Ok (Refused "Topic is required", 400), (s, log))) /\
  (forall kvs t,
     is_logged_in s = true -> data = JObj kvs ->
     Py.lookup "topic" kvs = Some (JStr t) ->
     PyStr.strip t = EmptyString ->
     api_generate_game data (s, log)
     = (Ok (Refused "Topic is required", 400), (s, log))).
Proof.
  unfold api_generate_game. repeat split.
  - intros ->. reflexivity.
  - intros -> ->. reflexivity.
  - intros kvs -> -> Ht. cbn [negb is_none Py.get]. now rewrite Ht.
  - intros kvs t -> -> Ht Hb. cbn [negb is_none Py.get]. rewrite Ht.
    destruct (Py.truthy (JStr t)); cbn [negb]; [| reflexivity].
    cbn [Py.strip bind]. rewrite Hb. reflexivity.
Qed.

Lemma generate_stores_quiz_aux (data : json) (s s' : session)
    (log log' : list call) (b : generate_body) :
  api_generate_game data (s, log) = (Ok (b, 200), (s', log')) ->
  exists r,
    b = Generated r /\ success r = true /\
    current_questions s' = Some (questions r) /\
    List.length (questions r) = 10 /\
    map question_number (questions r) = seq 1 10 /\
    current_topic s' = topic r /\
    user_id s' = user_id s.
Proof.
  intros H.
  destruct (api_generate_game_early data s log)
    as [[kvs [t [-> [Hlog [Ht Hne]]]]] | [_ Hearly]].
  2:{ rewrite H in Hearly. destruct (Hearly b 200 eq_refl) as [[C | C] _];
        discriminate C. }
  rewrite (api_generate_game_run kvs t s log Hlog Ht Hne) in H.
  destruct (generate_quiz (PyStr.strip t) log) as [[r | e] log1] eqn:G;
    [| discriminate H].
  destruct (success r) eqn:Hs; [| discriminate H].
  injection H as <- <- <-.
  destruct (generate_quiz_success_shape _ _ _ _ G Hs) as [L [N _]].
  destruct (generate_quiz_success_inv _ _ _ _ G Hs)
    as [easy [medium [hard [q1 [q2 [q3 Hrun]]]]]].
  cbv zeta in Hrun. destruct Hrun as [_ [_ [_ [_ [_ [_ [_ [_ Er]]]]]]]].
  exists r. repeat split; auto.
  rewrite Er. cbn [store_quiz current_topic topic].
  now rewrite strip_idempotent.
Qed.


(** X13: a request that is not answered with status 200, be it refused,
    failed or raised, leaves the session as it was, so that a quiz stored
    before stays the active one. *)
Theorem generate_failure_keeps_session (data : json) (s s' : session)
    (log log' : list call) (r : result (generate_body * nat)) :
  api_generate_game data (s, log) = (r, (s', log')) ->
  (forall b, r <> Ok (b, 200)) ->
  s' = s.
Proof.
  intros H Hr.
  destruct (api_generate_game_early data s log)
    as [[kvs [t [-> [Hlog [Ht Hne]]]]] | [Hst _]].
  2:{ rewrite H in Hst. now injection Hst as ->. }
  rewrite (api_generate_game_run kvs t s log Hlog Ht Hne) in H.
  destruct (generate_quiz (PyStr.strip t) log) as [[q | e] log1].
  - destruct (success q).
    + injection H as <- _ _. exfalso. now apply (Hr (Generated q)).
    + now injection H as _ <- _.
  - now injection H as _ <- _.
Qed.

(** X14: a logged-in request whose body is JSON but no object, or whose
    topic is a truthy value that is no string, makes the handler raise
    AttributeError before it calls the service. *)
Theorem generate_bad_request_raises (data : json) (s : session)
    (log : list call) :
  is_logged_in s = true ->
  (data <> JNull -> (forall kvs, data <> JObj kvs) ->
   api_generate_game data (s, log) = (Raise AttributeError, (s, log))) /\
  (forall kvs v,
     data = JObj kvs -> Py.lookup "topic" kvs = Some v ->
     Py.truthy v = true -> (forall t, v <> JStr t) ->
     api_generate_game data (s, log) = (Raise AttributeError, (s, log))).
Proof.
  intros Hlog. unfold api_generate_game. rewrite Hlog. cbn [negb]. split.
  - intros Hnull Hobj. destruct data; try reflexivity.
    + contradiction.
    + exfalso. now apply (Hobj kvs).
  - intros kvs v -> Hv Ht Hstr. cbn [is_none Py.get]. rewrite Hv, Ht.
    cbn [negb]. destruct v; try reflexivity. exfalso. now apply (Hstr s0).
Qed.

(** ** More about scoring *)

(** The scoring loop on string answers and labels, with its rows. *)
Lemma score_answers_rows (qs : list question_obj) :
  forall (done rest labels : list string) (score : nat)
         (detailed_results : list Detail.t),
    map correct qs = map JStr labels ->
    List.length rest = List.length qs ->
    score_answers (JArr (map JStr (done ++ rest))) (List.length done) qs
                  score detailed_results
    = Ok (score + count_matches rest labels,
          (detailed_results
           ++ rows_from (List.length done) rest labels qs)%list).
Proof.
  induction qs as [| q qs IH]; intros done rest labels score rows0 Hc Hl.
  - destruct rest; [| discriminate Hl]. destruct labels; [| discriminate Hc].
    simpl. now rewrite app_nil_r, Nat.add_0_r.
  - destruct rest as [| a rest]; [discriminate Hl |].
    destruct labels as [| l labels]; [discriminate Hc |].
    simpl in Hc. injection Hc as Hq Hc. injection Hl as Hl.
    cbn [score_answers Py.len bind].
    assert (Hlt : (List.length done <? List.length (map JStr (done ++ a :: rest)))%nat
                  = true).
    { apply Nat.ltb_lt. rewrite length_map, length_app. simpl. lia. }
    rewrite Hlt. cbn [Py.index].
    assert (Hnth : nth_error (map JStr (done ++ a :: rest)) (List.length done)
                   = Some (JStr a)).
    { rewrite nth_error_map, nth_error_app2, Nat.sub_diag by lia. reflexivity. }
    rewrite Hnth. cbn [bind Py.lower]. rewrite Hq. cbn [bind Py.lower].
    specialize (IH (done ++ [a])%list rest labels
                   (if String.eqb (PyStr.lower a) (PyStr.lower l)
                    then score + 1 else score)).
    rewrite <- app_assoc in IH. simpl app in IH.
    rewrite length_app in IH. simpl List.length in IH.
    rewrite IH by assumption.
    rewrite <- app_assoc. cbn [app rows_from]. f_equal. f_equal.
    + rewrite count_matches_cons. unfold matches.
      destruct (String.eqb _ _); lia.
    + unfold row_of, matches. rewrite !Nat.add_1_r. reflexivity.
Qed.

(** Whatever the answers are, the loop adds at most one point and exactly
    one row per question. *)
Lemma score_answers_bounds (user_answers : json) (qs : list question_obj) :
  forall i score rows score' rows',
    score_answers user_answers i qs score rows = Ok (score', rows') ->
    score <= score' <= score + List.length qs /\
    List.length rows' = List.length rows + List.length qs /\
    correct_rows rows' = correct_rows rows + (score' - score).
Proof.
  induction qs as [| q qs IH]; intros i score rows score' rows' H.
  - injection H as <- <-. simpl. rewrite Nat.sub_diag. lia.
  - cbn [score_answers] in H.
    apply bind_ok in H. destruct H as [n [_ H]].
    apply bind_ok in H. destruct H as [ua [_ H]].
    apply bind_ok in H. destruct H as [ca [_ H]].
    apply IH in H. destruct H as [Hs [Hr Hc]].
    rewrite length_app in Hr. cbn [List.length] in *.
    unfold correct_rows in *. rewrite filter_app, length_app in Hc.
    cbn [filter Detail.is_correct] in Hc.
    destruct (String.eqb ua ca); cbn [List.length] in Hc; lia.
Qed.

Lemma rows_from_numbers (qs : list question_obj) :
  forall i ss labels,
    List.length ss = List.length qs -> List.length labels = List.length qs ->
    map Detail.question_number (rows_from i ss labels qs)
    = seq (i + 1) (List.length qs) /\
    map Detail.question (rows_from i ss labels qs) = map question qs /\
    map Detail.difficulty (rows_from i ss labels qs) = map difficulty qs /\
    map Detail.user_answer (rows_from i ss labels qs) = map PyStr.lower ss /\
    map Detail.correct_answer (rows_from i ss labels qs)
    = map PyStr.lower labels.
Proof.
  induction qs as [| q qs IH]; intros i ss labels Hs Hl.
  - destruct ss; [| discriminate Hs]. destruct labels; [| discriminate Hl].
    repeat split.
  - destruct ss as [| a ss]; [discriminate Hs |].
    destruct labels as [| l labels]; [discriminate Hl |].
    injection Hs as Hs. injection Hl as Hl.
    destruct (IH (S i) ss labels Hs Hl) as [H1 [H2 [H3 [H4 H5]]]].
    cbn [rows_from map List.length seq row_of Detail.question_number
         Detail.question Detail.difficulty Detail.user_answer
         Detail.correct_answer].
    rewrite H1, H2, H3, H4, H5.
    replace (S i + 1) with (S (i + 1)) by lia. repeat split.
Qed.

(** The typed submit with every part of its answer made explicit. *)
Lemma api_submit_game_typed (s : session) (kvs : list (string * json))
    (ss labels : list string) (qs : list question_obj) (db : database) :
  is_logged_in s = true ->
  current_questions s = Some qs -> qs <> [] ->
  Py.lookup "answers" kvs = Some (JArr (map JStr ss)) ->
  map correct qs = map JStr labels ->
  List.length ss = List.length qs ->
  api_submit_game (JObj kvs) (s, db)
  = (Ok (Scored (count_matches ss labels) 10
                (outcome (count_matches ss labels)) (recorded_topic kvs s)
                (rows_from 0 ss labels qs)
                (Saved.success
                   (fst (create_game_history
                           (user_id s) (recorded_topic kvs s)
                           (count_matches ss labels)
                           (outcome (count_matches ss labels)) db))),
         200),
     (clear_quiz s,
      snd (create_game_history
             (user_id s) (recorded_topic kvs s) (count_matches ss labels)
             (outcome (count_matches ss labels)) db))).
Proof.
  intros Hlog Hcur Hne Hans Hlabels Hlen.
  pose proof (score_answers_rows qs [] ss labels 0 [] Hlabels Hlen) as Hrun.
  simpl in Hrun.
  unfold api_submit_game. rewrite Hlog. simpl negb. cbv iota.
  cbn [is_none]. rewrite get_answers.
  unfold submitted_answers. rewrite Hans, Hcur.
  cbn [Py.get]. unfold recorded_topic, session_topic.
  destruct qs as [| q0 qs']; [contradiction |].
  destruct (Py.lookup "topic" kvs) as [v |] eqn:El.
  - cbn [Py.len]. rewrite length_map, Hlen, Nat.eqb_refl. simpl negb. cbv iota.
    rewrite Hrun. fold (outcome (count_matches ss labels)).
    unfold get_current_user_id.
    destruct (Py.truthy v); simpl negb; cbv iota;
      destruct (create_game_history _ _ _ _ db); reflexivity.
  - cbn [Py.len]. rewrite length_map, Hlen, Nat.eqb_refl. simpl negb. cbv iota.
    rewrite Hrun. fold (outcome (count_matches ss labels)).
    unfold get_current_user_id. cbn [Py.truthy String.eqb negb].
    destruct (create_game_history _ _ _ _ db); reflexivity.
Qed.

(** X15: every scored result has one row per held question and a score
    that is the number of rows marked correct, hence at most the number of
    held questions; its total is 10, its status 200 and its result the
    outcome of the score. *)
Theorem scored_result_consistent (data : json) (s : session) (db : database)
    (score total : nat) (result0 : string) (topic0 : json)
    (rows : list Detail.t) (saved : bool) (code : nat)
    (st : session * database) :
  api_submit_game data (s, db)
  = (Ok (Scored score total result0 topic0 rows saved, code), st) ->
  List.length rows = List.length (held_questions s) /\
  score = correct_rows rows /\
  score <= List.length (held_questions s) /\
  total = 10 /\ code = 200 /\ result0 = outcome score.
Proof.
  intros H.
  destruct (api_submit_game_cases data s db)
    as [[_ Hfail] | [kvs [sc [tp [rs [_ [_ [_ [_ [Hrun E]]]]]]]]]].
  - rewrite H in Hfail. destruct (Hfail _ _ eq_refl) as [m Hm]. discriminate Hm.
  - rewrite E in H. injection H as <- <- <- <- <- <- <- _.
    destruct (score_answers_bounds _ _ _ _ _ _ _ Hrun) as [Hs [Hr Hc]].
    cbn in Hr, Hc. repeat split; auto; lia.
Qed.

(** X16: for string answers and labels the rows are, question by question,
    the number from 1 on, the lowercased answer and label, whether they
    match, and the text and difficulty of the held question. *)
Theorem scored_rows (s : session) (kvs : list (string * json))
    (ss labels : list string) (qs : list question_obj) (db : database) :
  is_logged_in s = true ->
  current_questions s = Some qs -> qs <> [] ->
  Py.lookup "answers" kvs = Some (JArr (map JStr ss)) ->
  map correct qs = map JStr labels ->
  List.length ss = List.length qs ->
  exists score result0 topic0 rows saved st,
    api_submit_game (JObj kvs) (s, db)
    = (Ok (Scored score 10 result0 topic0 rows saved, 200), st) /\
    map Detail.question_number rows = seq 1 (List.length qs) /\
    map Detail.user_answer rows = map PyStr.lower ss /\
    map Detail.correct_answer rows = map PyStr.lower labels /\
    map Detail.is_correct rows
    = map (fun p => matches (fst p) (snd p)) (combine ss labels) /\
    map Detail.question rows = map question qs /\
    map Detail.difficulty rows = map difficulty qs.
Proof.
  intros Hlog Hcur Hne Hans Hlabels Hlen.
  do 6 eexists. split.
  - apply (api_submit_game_typed s kvs ss labels qs db); assumption.
  - assert (Hl : List.length labels = List.length qs).
    { apply (f_equal (@List.length json)) in Hlabels.
      now rewrite !length_map in Hlabels. }
    destruct (rows_from_numbers qs 0 ss labels Hlen Hl)
      as [H1 [H2 [H3 [H4 H5]]]].
    repeat split; auto.
    clear -Hlen Hl. generalize 0 as i. revert ss labels Hlen Hl.
    induction qs as [| q qs IH]; intros ss labels Hs Hl i.
    + destruct ss; [| discriminate Hs]. reflexivity.
    + destruct ss as [| a ss]; [discriminate Hs |].
      destruct labels as [| l labels]; [discriminate Hl |].
      injection Hs as Hs. injection Hl as Hl.
      cbn [rows_from map combine row_of Detail.is_correct fst snd].
      f_equal. now apply IH.
Qed.

(** X17: the topic that is returned and sent to the database is the topic
    of the request when it has a truthy one, whatever the quiz was generated
    for, and otherwise the topic of the session, or "Unknown Topic" when the
    session has none; the session is left without [current_questions] and
    without [current_topic]. *)
Theorem submit_records_topic (s : session) (kvs : list (string * json))
    (ss labels : list string) (qs : list question_obj) (db : database) :
  is_logged_in s = true ->
  current_questions s = Some qs -> qs <> [] ->
  Py.lookup "answers" kvs = Some (JArr (map JStr ss)) ->
  map correct qs = map JStr labels ->
  List.length ss = List.length qs ->
  exists score result0 rows,
    api_submit_game (JObj kvs) (s, db)
    = (Ok (Scored score 10 result0 (recorded_topic kvs s) rows
                  (Saved.success
                     (fst (create_game_history
                             (user_id s) (recorded_topic kvs s) score result0
                             db))),
           200),
       ({| user_id := user_id s; current_topic := None;
           current_questions := None |},
        snd (create_game_history
               (user_id s) (recorded_topic kvs s) score result0 db))) /\
    (forall v, Py.lookup "topic" kvs = Some v -> Py.truthy v = true ->
               recorded_topic kvs s = v) /\
    (Py.lookup "topic" kvs = None ->
     forall t, current_topic s = Some t -> recorded_topic kvs s = JStr t) /\
    (Py.lookup "topic" kvs = None -> current_topic s = None ->
     recorded_topic kvs s = JStr "Unknown Topic").
Proof.
  intros Hlog Hcur Hne Hans Hlabels Hlen.
  do 3 eexists. split.
  - apply (api_submit_game_typed s kvs ss labels qs db); assumption.
  - unfold recorded_topic, session_topic. repeat split.
    + intros v -> ->. reflexivity.
    + intros -> t ->. reflexivity.
    + intros -> ->. reflexivity.
Qed.

(** X18: a logged-in submit whose body is JSON but no object raises
    AttributeError, and so does one whose answers, as many as the held
    questions, include a value that is no string; session and database stay
    as they were. *)
Theorem submit_bad_request_raises (data : json) (s : session) (db : database) :
  is_logged_in s = true ->
  (data <> JNull -> (forall kvs, data <> JObj kvs) ->
   api_submit_game data (s, db) = (Raise AttributeError, (s, db))) /\
  (forall kvs answers labels qs,
     data = JObj kvs ->
     current_questions s = Some qs -> qs <> [] ->
     Py.lookup "answers" kvs = Some (JArr answers) ->
     map correct qs = map JStr labels ->
     List.length answers = List.length qs ->
     Exists (fun a => forall t, a <> JStr t) answers ->
     api_submit_game data (s, db) = (Raise AttributeError, (s, db))).
Proof.
  intros Hlog. split.
  - intros Hnull Hobj. unfold api_submit_game. rewrite Hlog. cbn [negb].
    destruct data; try reflexivity.
    + contradiction.
    + exfalso. now apply (Hobj kvs).
  - intros kvs answers labels qs -> Hcur Hne Hans Hlabels Hlen Hex.
    assert (Loop : forall qs pre answers labels score rows,
               map correct qs = map JStr labels ->
               List.length answers = List.length qs ->
               Exists (fun a => forall t, a <> JStr t) answers ->
               score_answers (JArr (pre ++ answers)) (List.length pre) qs
                             score rows
               = Raise AttributeError).
    { clear. induction qs as [| q qs IH];
        intros pre answers labels score rows Hc Hl Hex.
      - destruct answers; [inversion Hex | discriminate Hl].
      - destruct answers as [| a answers]; [discriminate Hl |].
        destruct labels as [| l labels]; [discriminate Hc |].
        simpl in Hc. injection Hc as Hq Hc. injection Hl as Hl.
        cbn [score_answers Py.len bind].
        assert (Hlt : (List.length pre <? List.length (pre ++ a :: answers))%nat
                      = true).
        { apply Nat.ltb_lt. rewrite length_app. simpl. lia. }
        rewrite Hlt. cbn [Py.index].
        assert (Hnth : nth_error (pre ++ a :: answers) (List.length pre)
                       = Some a).
        { rewrite nth_error_app2, Nat.sub_diag by lia. reflexivity. }
        rewrite Hnth. cbn [bind].
        destruct a as [| b | z | t | l0 | o]; try reflexivity.
        cbn [Py.lower bind]. rewrite Hq. cbn [Py.lower bind].
        specialize (IH (pre ++ [JStr t])%list answers labels).
        rewrite <- app_assoc in IH. simpl app in IH.
        rewrite length_app in IH. simpl List.length in IH.
        apply IH; [assumption | assumption |].
        inversion Hex as [a0 l1 Ha | a0 l1 Ha]; subst; [| exact Ha].
        exfalso. now apply (Ha t). }
    unfold api_submit_game. rewrite Hlog. simpl negb. cbv iota.
    cbn [is_none]. rewrite get_answers.
    destruct (get_topic kvs) as [topic0 Ht]. rewrite Ht.
    unfold submitted_answers. rewrite Hans, Hcur.
    destruct qs as [| q0 qs']; [contradiction |].
    cbn [Py.len]. rewrite Hlen, Nat.eqb_refl. simpl negb. cbv iota.
    pose proof (Loop (q0 :: qs') [] answers labels 0 [] Hlabels Hlen Hex)
      as Hraise.
    cbn [app List.length] in Hraise. now rewrite Hraise.
Qed.

Lemma count_matches_self (labels : list string) :
  count_matches labels labels = List.length labels.
Proof.
  unfold count_matches. induction labels as [| l labels IH]; [reflexivity |].
  cbn [combine filter fst snd]. unfold matches at 1.
  rewrite String.eqb_refl. simpl. now rewrite IH.
Qed.

(** X19: after a generate answered with status 200, a submit with a number
    of answers other than 10 is refused with the message that expects 10,
    and a submit that answers every question with its own correct label,
    these being strings, scores 10 and wins and leaves the session without
    [current_questions] and without [current_topic]. *)
Theorem generate_then_submit (data : json) (s s' : session)
    (log log' : list call) (r : quiz_result) (db : database) :
  api_generate_game data (s, log) = (Ok (Generated r, 200), (s', log')) ->
  (forall kvs n,
     Py.len (submitted_answers kvs) = Ok n -> n <> 10 ->
     api_submit_game (JObj kvs) (s', db)
     = (Ok (Failure ("Expected 10 answers but received " ++ PyStr.of_nat n),
            400), (s', db))) /\
  (forall kvs labels,
     map correct (questions r) = map JStr labels ->
     Py.lookup "answers" kvs = Some (JArr (map JStr labels)) ->
     exists topic0 rows saved db',
       api_submit_game (JObj kvs) (s', db)
       = (Ok (Scored 10 10 "WON" topic0 rows saved, 200),
          ({| user_id := user_id s; current_topic := None;
              current_questions := None |}, db'))).
Proof.
  intros H.
  assert (Hlog : is_logged_in s = true).
  { destruct (is_logged_in s) eqn:E; [reflexivity |].
    unfold api_generate_game in H. rewrite E in H. discriminate H. }
  destruct (generate_stores_quiz_aux _ _ _ _ _ _ H)
    as [r0 [Er [Hs [Hq [L [_ [_ Hu]]]]]]].
  injection Er as <-.
  assert (Hlog' : is_logged_in s' = true).
  { unfold is_logged_in in *. now rewrite Hu. }
  split.
  - intros kvs n Hn Hne. unfold api_submit_game. rewrite Hlog'.
    simpl negb. cbv iota. cbn [is_none]. rewrite get_answers.
    destruct (get_topic kvs) as [topic0 Ht]. rewrite Ht, Hq.
    destruct (questions r) as [| q0 qs] eqn:Eq; [discriminate L |].
    rewrite Hn, L. apply Nat.eqb_neq in Hne. rewrite Hne. reflexivity.
  - intros kvs labels Hlabels Hans.
    assert (Hlen : List.length labels = List.length (questions r)).
    { apply (f_equal (@List.length json)) in Hlabels.
      now rewrite !length_map in Hlabels. }
    assert (Hne : questions r <> []).
    { intros E. rewrite E in L. discriminate L. }
    pose proof (api_submit_game_typed s' kvs labels labels (questions r) db
                  Hlog' Hq Hne Hans Hlabels Hlen) as Hrun.
    rewrite count_matches_self, Hlen, L in Hrun.
    unfold clear_quiz in Hrun. rewrite Hu in Hrun.
    do 4 eexists. exact Hrun.
Qed.


(** *** Accounts *)

Lemma blank_false (v : json) :
  blank v = Ok false ->
  exists s, v = JStr s /\ Py.strip v = Ok (PyStr.strip s) /\
            PyStr.strip s <> EmptyString.
Proof.
  unfold blank. destruct (Py.truthy v); cbn [negb]; [|discriminate].
  destruct v; cbn; try discriminate.
  intros H. exists s. split; [reflexivity|]. split; [reflexivity|].
  intros E. rewrite E in H. discriminate.
Qed.

Lemma get_string (data : json) (key : string) (v : json) :
  Py.get data key (JStr EmptyString) = Ok v ->
  blank v = Ok false ->
  exists kvs, data = JObj kvs /\ Py.lookup key kvs = Some v.
Proof.
  intros G B. destruct data as [| ? | ? | ? | ? | kvs]; try discriminate.
  cbn in G. exists kvs. split; [reflexivity|].
  destruct (Py.lookup key kvs); [congruence|].
  injection G as <-. discriminate.
Qed.

(** X21: [api_signup] answers 201 only to a request whose username and
    password are strings with at least 3 and at least 4 characters once
    stripped; the account was then created with the stripped strings, and
    the body is the dict of [create_user]. *)
Theorem signup_created_valid (data : json) (db db' : database)
    (body : Saved.t) :
  api_signup data db = (Ok (body, 201), db') ->
  exists kvs u p,
    data = JObj kvs /\
    Py.lookup "username" kvs = Some (JStr u) /\
    Py.lookup "password" kvs = Some (JStr p) /\
    3 <= String.length (PyStr.strip u) /\
    4 <= String.length (PyStr.strip p) /\
    create_user (PyStr.strip u) (PyStr.strip p) db = (body, db') /\
    Saved.success body = true.
Proof.
  unfold api_signup.
  destruct (is_none data); [discriminate|].
  destruct (Py.get data "username" (JStr EmptyString)) as [un|] eqn:Gu;
    [|discriminate].
  destruct (Py.get data "password" (JStr EmptyString)) as [pw|] eqn:Gp;
    [|discriminate].
  destruct (blank un) as [[|]|] eqn:Bu; try discriminate.
  destruct (blank pw) as [[|]|] eqn:Bp; try discriminate.
  destruct (get_string _ _ _ Gu Bu) as (kvs & -> & Lu).
  destruct (get_string _ _ _ Gp Bp) as (kvs' & E & Lp).
  injection E as <-.
  destruct (blank_false _ Bu) as (u & -> & -> & _).
  destruct (blank_false _ Bp) as (p & -> & -> & _).
  destruct (String.length (PyStr.strip u) <? 3)%nat eqn:Hu; [discriminate|].
  destruct (String.length (PyStr.strip p) <? 4)%nat eqn:Hp; [discriminate|].
  apply Nat.ltb_ge in Hu, Hp.
  destruct (create_user (PyStr.strip u) (PyStr.strip p) db) as [r d] eqn:C.
  destruct (Saved.success r) eqn:S; [|discriminate].
  intros H. injection H as <- <-.
  exists kvs, u, p. repeat split; assumption.
Qed.

(** X22: [api_signup] answers with 201 or with 400 only, and with 201
    exactly when the body says [success]. *)
Theorem signup_status (data : json) (db db' : database) (body : Saved.t)
    (code : nat) :
  api_signup data db = (Ok (body, code), db') ->
  (code = 201 /\ Saved.success body = true) \/
  (code = 400 /\ Saved.success body = false).
Proof.
  unfold api_signup.
  destruct (is_none data);
    [intros H; injection H as <- <- _; right; split; reflexivity|].
  destruct (Py.get data "username" (JStr EmptyString)) as [un|];
    [|discriminate].
  destruct (Py.get data "password" (JStr EmptyString)) as [pw|];
    [|discriminate].
  destruct (blank un) as [[|]|];
    [intros H; injection H as <- <- _; right; split; reflexivity| |discriminate].
  destruct (blank pw) as [[|]|];
    [intros H; injection H as <- <- _; right; split; reflexivity| |discriminate].
  destruct (Py.strip un) as [u|]; [|discriminate].
  destruct (Py.strip pw) as [p|]; [|discriminate].
  destruct (String.length u <? 3)%nat;
    [intros H; injection H as <- <- _; right; split; reflexivity|].
  destruct (String.length p <? 4)%nat;
    [intros H; injection H as <- <- _; right; split; reflexivity|].
  destruct (create_user u p db) as [r d].
  destruct (Saved.success r) eqn:S; intros H; injection H as <- <- _;
    [left|right]; split; auto.
Qed.

(** X23: when the stripped username has fewer than 3 characters or the
    stripped password fewer than 4, [api_signup] answers 400 with one of its
    own four messages on the username and the password, and the database is
    as it was. *)
Theorem signup_short_refused (kvs : list (string * json)) (u p : string)
    (db : database) :
  Py.lookup "username" kvs = Some (JStr u) ->
  Py.lookup "password" kvs = Some (JStr p) ->
  String.length (PyStr.strip u) < 3 \/ String.length (PyStr.strip p) < 4 ->
  exists message,
    In message ["Username is required"; "Password is required";
                "Username must be at least 3 characters";
                "Password must be at least 4 characters"] /\
    api_signup (JObj kvs) db
    = (Ok ({| Saved.success := false; Saved.message := message |}, 400),
       db).
Proof.
  intros Lu Lp Short. unfold api_signup. cbn [is_none Py.get].
  rewrite Lu, Lp. unfold blank. cbn [Py.truthy Py.strip bind].
  destruct (String.eqb u EmptyString) eqn:Eu; cbn [negb];
    [eexists; split; [|reflexivity]; cbn [In]; auto 6|].
  destruct (String.eqb (PyStr.strip u) EmptyString) eqn:Esu;
    [eexists; split; [|reflexivity]; cbn [In]; auto 6|].
  destruct (String.eqb p EmptyString) eqn:Ep; cbn [negb];
    [eexists; split; [|reflexivity]; cbn [In]; auto 6|].
  destruct (String.eqb (PyStr.strip p) EmptyString) eqn:Esp;
    [eexists; split; [|reflexivity]; cbn [In]; auto 6|].
  destruct (String.length (PyStr.strip u) <? 3)%nat eqn:Hu;
    [eexists; split; [|reflexivity]; cbn [In]; auto 6|].
  destruct (String.length (PyStr.strip p) <? 4)%nat eqn:Hp;
    [eexists; split; [|reflexivity]; cbn [In]; auto 6|].
  apply Nat.ltb_ge in Hu, Hp. lia.
Qed.

(** X24: [create_user] reports success exactly when a connection was
    obtained, the SELECT found no user of that name, and the INSERT and the
    COMMIT were both executed. *)
Theorem create_user_success (u p : string) (db db' : database)
    (r : Saved.t) :
  create_user u p db = (r, db') ->
  (Saved.success r = true <->
   db_connect db = true /\
   exists db1 db2,
     db_fetchone db (UserByName u) = (NoRow, db1) /\
     db_write db1 (InsertUser u p) = (true, db2) /\
     db_write db2 CommitUser = (true, db')).
Proof.
  unfold create_user.
  destruct (db_connect db); cbn [negb].
  2:{ intros H; injection H as <- <-. split; [discriminate|].
      intros [? _]; discriminate. }
  destruct (db_fetchone db (UserByName u)) as [[| |z] d1].
  - intros H; injection H as <- <-. split; [discriminate|].
    intros (_ & ? & ? & ? & _); discriminate.
  - destruct (db_write d1 (InsertUser u p)) as [[|] d2] eqn:W1.
    + destruct (db_write d2 CommitUser) as [[|] d3] eqn:W2.
      * intros H; injection H as <- <-. split; [|reflexivity].
        intros _. split; [reflexivity|]. exists d1, d2. auto.
      * intros H; injection H as <- <-. split; [discriminate|].
        intros (_ & x & y & F & I & C). injection F as <-.
        rewrite W1 in I. injection I as <-. rewrite W2 in C. discriminate.
    + intros H; injection H as <- <-. split; [discriminate|].
      intros (_ & x & y & F & I & C). injection F as <-.
      rewrite W1 in I. discriminate.
  - intros H; injection H as <- <-. split; [discriminate|].
    intros (_ & ? & ? & ? & _); discriminate.
Qed.

(** X25: when [api_login] answers 200, the SELECT on the stripped username
    and password of the request found a row; the session then holds the
    [user_id] of that row and the stripped username, the quiz of the session
    is the one it held before, and [is_logged_in] holds. *)
Theorem login_sets_session (data : json) (v v' : visitor)
    (db db' : database) (body : login_body) :
  api_login data (v, db) = (Ok (body, 200), (v', db')) ->
  exists kvs u p id,
    data = JObj kvs /\
    Py.lookup "username" kvs = Some (JStr u) /\
    Py.lookup "password" kvs = Some (JStr p) /\
    db_connect db = true /\
    db_fetchone db (UserByLogin (PyStr.strip u) (PyStr.strip p))
      = (Row id, db') /\
    user_id (state v') = Some id /\
    username v' = Some (PyStr.strip u) /\
    current_topic (state v') = current_topic (state v) /\
    current_questions (state v') = current_questions (state v) /\
    is_logged_in (state v') = true.
Proof.
  unfold api_login.
  destruct (is_none data); [discriminate|].
  destruct (Py.get data "username" (JStr EmptyString)) as [un|] eqn:Gu;
    [|discriminate].
  destruct (Py.get data "password" (JStr EmptyString)) as [pw|] eqn:Gp;
    [|discriminate].
  destruct (blank un) as [[|]|] eqn:Bu; try discriminate.
  destruct (blank pw) as [[|]|] eqn:Bp; try discriminate.
  destruct (get_string _ _ _ Gu Bu) as (kvs & -> & Lu).
  destruct (get_string _ _ _ Gp Bp) as (kvs' & E & Lp).
  injection E as <-.
  destruct (blank_false _ Bu) as (u & -> & -> & _).
  destruct (blank_false _ Bp) as (p & -> & -> & _).
  unfold verify_user_login.
  destruct (db_connect db); cbn [negb]; [|discriminate].
  destruct (db_fetchone db (UserByLogin (PyStr.strip u) (PyStr.strip p)))
    as [[| |id] d] eqn:F; cbn [Login.success]; try discriminate.
  intros H. injection H as _ <- <-.
  exists kvs, u, p, id. cbn. repeat split; assumption || reflexivity.
Qed.

(** X26: whatever [api_login] does short of answering 200, an error
    response or an exception, leaves the session as it was. *)
Theorem login_failure_keeps_session (data : json) (v v' : visitor)
    (db db' : database) (r : result (login_body * nat)) :
  api_login data (v, db) = (r, (v', db')) ->
  (forall body, r <> Ok (body, 200)) ->
  v' = v.
Proof.
  unfold api_login.
  destruct (is_none data); [congruence|].
  destruct (Py.get data "username" (JStr EmptyString)) as [un|];
    [|congruence].
  destruct (Py.get data "password" (JStr EmptyString)) as [pw|];
    [|congruence].
  destruct (blank un) as [[|]|]; try congruence.
  destruct (blank pw) as [[|]|]; try congruence.
  destruct (Py.strip un) as [u|]; [|congruence].
  destruct (Py.strip pw) as [p|]; [|congruence].
  destruct (verify_user_login u p db) as [res d].
  destruct (Login.success res); [|congruence].
  intros H N. injection H as <- _ _. exfalso. exact (N _ eq_refl).
Qed.

(** X27: after [api_logout] nobody is logged in and no quiz is held, whoever
    the visitor was: [api_submit_game] and [api_generate_game] then answer
    401 to every request and change nothing. *)
Theorem logout_locks_handlers (v : visitor) (data : json) (db : database)
    (log : list call) :
  username (snd (api_logout v)) = None /\
  user_id (state (snd (api_logout v))) = None /\
  current_topic (state (snd (api_logout v))) = None /\
  current_questions (state (snd (api_logout v))) = None /\
  api_submit_game data (state (snd (api_logout v)), db)
    = (Ok (Failure "Not logged in", 401),
       (state (snd (api_logout v)), db)) /\
  api_generate_game data (state (snd (api_logout v)), log)
    = (Ok (Refused "Not logged in", 401),
       (state (snd (api_logout v)), log)).
Proof.
  cbn. repeat split; reflexivity.
Qed.
End Pipeline.

(** ** The statements on sample runs *)

(** C1: the service answers the three calls with 4, 4 and 2 entries;
    [generate_quiz] checks the total only and returns a successful quiz of
    4 EASY, 4 MEDIUM and 2 HARD questions, numbered 1 to 10, where 5, 3 and 2
    are announced. *)
Lemma uneven_tiers_accepted :
  exists r,
    generate_quiz Sample.uneven_service Sample.uneven_loads Sample.int
                  "Oceans" []
    = (Ok r, [Sample.easy_call; Sample.medium_call; Sample.hard_call]) /\
    success r = true /\
    map difficulty (questions r)
    = ["EASY"; "EASY"; "EASY"; "EASY"; "MEDIUM"; "MEDIUM"; "MEDIUM"; "MEDIUM";
       "HARD"; "HARD"] /\
    map question_number (questions r) = [1; 2; 3; 4; 5; 6; 7; 8; 9; 10].
Proof.
  eexists. split; [vm_compute; reflexivity |].
  repeat split.
Qed.

(** C2: the easy answer decodes to a dict whose entry ["1"] has no
    [options] and no [correct] field; [generate_questions_by_difficulty]
    returns that dict as it is, and [generate_quiz] raises [KeyError]
    instead of returning a failure result. *)
Lemma missing_field_escapes :
  generate_questions_by_difficulty Sample.bare_service Sample.bare_loads
                                   "Oceans" 5 "EASY" []
  = (Ok Sample.bare_tier, [Sample.easy_call]) /\
  generate_quiz Sample.bare_service Sample.bare_loads Sample.int "Oceans" []
  = (Raise KeyError, [Sample.easy_call]).
Proof.
  split; vm_compute; reflexivity.
Qed.

(** C3: the service answers with well-formed JSON whose entries have the
    two options x and y and the correct label z; [generate_quiz] composes
    the quiz successfully, and its first question has a correct label that
    is no key of its options, which are not a, b, c and d: the loops copy
    [options] and [correct] without looking at them. *)
Lemma odd_labels_accepted :
  exists r q,
    generate_quiz Sample.odd_service Sample.odd_loads Sample.int "Oceans" []
    = (Ok r, [Sample.easy_call; Sample.medium_call; Sample.hard_call]) /\
    success r = true /\
    In q (questions r) /\
    options q = JObj [("x", JStr "one"); ("y", JStr "two")] /\
    correct q = JStr "z" /\
    labels_ok (options q) (correct q) = false.
Proof.
  eexists. eexists. split; [vm_compute; reflexivity |].
  split; [reflexivity |]. split; [left; reflexivity |].
  repeat split.
Qed.

(** C4 on a run in which the medium call fails: the result names the
    medium tier, has no questions, and the hard tier was not asked for. *)
Lemma medium_failure_witness :
  generate_quiz Sample.medium_down_service Sample.medium_down_loads Sample.int
                "Oceans" []
  = (Ok {| success := false;
           message := "Failed to generate medium questions. Please try again.";
           questions := []; topic := None |},
     [Sample.easy_call; Sample.medium_call]) /\
  [Sample.easy_call; Sample.medium_call]
  = ([] ++ [Sample.easy_call] ++ Sample.medium_call :: [])%list /\
  returned Sample.medium_down_service Sample.medium_down_loads
           ([] ++ [Sample.easy_call]) Sample.medium_call JNull /\
  exists q,
    Ok {| success := false;
          message := "Failed to generate medium questions. Please try again.";
          questions := []; topic := None |}
    = Ok q /\
    success q = false /\
    questions q = [] /\
    @nil call = [] /\
    ((call_difficulty Sample.medium_call = "EASY" /\
      message q = "Failed to generate easy questions. Please try again.") \/
     (call_difficulty Sample.medium_call = "MEDIUM" /\
      message q = "Failed to generate medium questions. Please try again.") \/
     (call_difficulty Sample.medium_call = "HARD" /\
      message q = "Failed to generate hard questions. Please try again.")).
Proof.
  assert (H : forall P Q R S : Prop,
             P -> Q -> R -> (P -> Q -> R -> S) -> P /\ Q /\ R /\ S) by tauto.
  apply H.
  - vm_compute. reflexivity.
  - reflexivity.
  - vm_compute. reflexivity.
  - apply (tier_failure_aborts Sample.medium_down_service
             Sample.medium_down_loads Sample.int "Oceans" []).
Defined.

(** The three sample keys ["10"], ["2"] and ["1"] are read in the order
    1, 2, 10. *)
Lemma shuffled_keys_in_numeric_order :
  sorted_keys Sample.int Sample.shuffled_tier = Ok ["1"; "2"; "10"] /\
  exists added,
    add_tier Sample.int "EASY" Sample.shuffled_tier [] = Ok added /\
    map question added = [JStr "first"; JStr "second"; JStr "tenth"] /\
    map question_number added = [1; 2; 3].
Proof.
  split; [vm_compute; reflexivity |].
  eexists. split; [vm_compute; reflexivity |]. split; reflexivity.
Qed.

(** One loop on the sample answer whose keys are ["10"], ["2"] and ["1"]. *)
Lemma shuffled_tier_numeric_order :
  Forall (fun k => Sample.int k <> None) ["10"; "2"; "1"] /\
  exists ks,
    sorted_keys Sample.int Sample.shuffled_tier = Ok ks /\
    Permutation ks ["10"; "2"; "1"] /\
    StronglySorted (key_le Sample.int) ks /\
    (forall all_questions',
       add_tier Sample.int "EASY" Sample.shuffled_tier [] = Ok all_questions' ->
       exists added,
         all_questions' = ([] ++ added)%list /\
         Forall2 (built_from Sample.shuffled_tier) ks added /\
         map question_number added = seq (0 + 1) (List.length added) /\
         Forall (fun q => difficulty q = "EASY") added) /\
    (Forall has_fields
            [Sample.entry "tenth" "a" "EASY"; Sample.entry "second" "b" "EASY";
             Sample.entry "first" "c" "EASY"] ->
     exists all_questions',
       add_tier Sample.int "EASY" Sample.shuffled_tier [] = Ok all_questions').
Proof.
  split.
  - repeat constructor; discriminate.
  - apply (add_tier_numeric_order Sample.int "EASY"
             [("10", Sample.entry "tenth" "a" "EASY");
              ("2", Sample.entry "second" "b" "EASY");
              ("1", Sample.entry "first" "c" "EASY")] []).
    repeat constructor; discriminate.
Qed.

(** A service that is down: [None] is returned after one call. *)
Lemma service_down_returns_none :
  Sample.down_service [] Sample.easy_call
  = Raise (OtherError "ServiceUnavailable") /\
  generate_questions_by_difficulty Sample.down_service Sample.good_loads
                                   "Oceans" 5 "EASY" []
  = (Ok JNull, [Sample.easy_call]).
Proof.
  split; [reflexivity |].
  apply (service_error_returns_none Sample.down_service Sample.good_loads
           "Oceans" 5 "EASY" [] (OtherError "ServiceUnavailable")).
  - reflexivity.
  - discriminate.
Qed.

(** C8: a generation call that raises [JSONDecodeError] is not turned into
    [None]: [generate_questions_by_difficulty] raises [UnboundLocalError]
    after its single call, and [generate_quiz] lets it through. *)
Theorem undecodable_service_escapes :
  Sample.undecodable_service [] Sample.easy_call = Raise JSONDecodeError /\
  generate_questions_by_difficulty Sample.undecodable_service
                                   Sample.good_loads "Oceans" 5 "EASY" []
  = (Raise UnboundLocalError, [Sample.easy_call]) /\
  generate_quiz Sample.undecodable_service Sample.good_loads Sample.int
                "Oceans" []
  = (Raise UnboundLocalError, [Sample.easy_call]).
Proof. repeat split; vm_compute; reflexivity. Qed.

(** Nine answers for ten held questions: the failure names both counts and
    the session keeps its quiz. *)
Lemma nine_answers_rejected :
  api_submit_game Sample.db Sample.db_up Sample.db_run
                  (Sample.submit Sample.nine_answers) (Sample.playing, [])
  = (Ok (Failure "Expected 10 answers but received 9", 400),
     (Sample.playing, [])).
Proof. vm_compute. reflexivity. Qed.

(** A submit without a stored quiz. *)
Lemma no_quiz_rejected :
  api_submit_game Sample.db Sample.db_up Sample.db_run
                  (Sample.submit Sample.ten_labels) (Sample.logged_in None, [])
  = (Ok (Failure "No active quiz found", 400), (Sample.logged_in None, [])).
Proof. vm_compute. reflexivity. Qed.

(** C5 on the session that holds ten questions. *)
Lemma submit_preconditions_witness :
  is_logged_in Sample.playing = true /\
  (held_questions Sample.playing = [] ->
   api_submit_game Sample.db Sample.db_up Sample.db_run
                   (Sample.submit Sample.nine_answers) (Sample.playing, [])
   = (Ok (Failure "No active quiz found", 400), (Sample.playing, [])))
  /\
  (forall n,
     held_questions Sample.playing <> [] ->
     Py.len (submitted_answers
               [("answers", JArr (map JStr Sample.nine_answers))]) = Ok n ->
     n <> List.length (held_questions Sample.playing) ->
     api_submit_game Sample.db Sample.db_up Sample.db_run
                     (Sample.submit Sample.nine_answers) (Sample.playing, [])
     = (Ok (Failure ("Expected "
                     ++ PyStr.of_nat (List.length (held_questions Sample.playing))
                     ++ " answers but received " ++ PyStr.of_nat n), 400),
        (Sample.playing, [])))
  /\
  (forall b code st,
     api_submit_game Sample.db Sample.db_up Sample.db_run
                     (Sample.submit Sample.nine_answers) (Sample.playing, [])
     = (Ok (b, code), st) ->
     (forall m, b <> Failure m) ->
     held_questions Sample.playing <> [] /\
     Py.len (submitted_answers
               [("answers", JArr (map JStr Sample.nine_answers))])
     = Ok (List.length (held_questions Sample.playing))).
Proof.
  split; [reflexivity |].
  apply (submit_preconditions Sample.db Sample.db_up Sample.db_run
           [("answers", JArr (map JStr Sample.nine_answers))]
           Sample.playing []).
  reflexivity.
Defined.

(** Ten answers in capitals against the same labels in small letters:
    score 10, WON. *)
Lemma capitals_all_right :
  exists rows,
    api_submit_game Sample.db Sample.db_up Sample.db_run
                    (Sample.submit Sample.ten_capitals) (Sample.playing, [])
    = (Ok (Scored 10 10 "WON" (JStr "Oceans") rows true, 200),
       (clear_quiz Sample.playing,
        [InsertGameHistory (Some 1%Z) (JStr "Oceans") 10 "WON";
         UpdateGamesPlayed (Some 1%Z); UpdateGamesWon (Some 1%Z); Commit])).
Proof. eexists. vm_compute. reflexivity. Qed.

(** Six right answers lose. *)
Lemma six_right_loses :
  exists rows st,
    api_submit_game Sample.db Sample.db_up Sample.db_run
                    (Sample.submit Sample.six_right) (Sample.playing, [])
    = (Ok (Scored 6 10 "LOST" (JStr "Oceans") rows true, 200), st).
Proof. eexists. eexists. vm_compute. reflexivity. Qed.

(** C6 on seven right answers, some in capitals: score 7, WON. *)
Lemma seven_right_wins_witness :
  is_logged_in Sample.playing = true /\
  current_questions Sample.playing = Some (Sample.held_quiz Sample.ten_labels) /\
  Sample.held_quiz Sample.ten_labels <> [] /\
  Py.lookup "answers" [("answers", JArr (map JStr Sample.seven_right))]
  = Some (JArr (map JStr Sample.seven_right)) /\
  map correct (Sample.held_quiz Sample.ten_labels)
  = map JStr Sample.ten_labels /\
  List.length Sample.seven_right
  = List.length (Sample.held_quiz Sample.ten_labels) /\
  count_matches Sample.seven_right Sample.ten_labels = 7 /\
  ((exists result topic detailed_results saved st,
       api_submit_game Sample.db Sample.db_up Sample.db_run
                       (Sample.submit Sample.seven_right) (Sample.playing, [])
       = (Ok (Scored (count_matches Sample.seven_right Sample.ten_labels) 10
                     result topic detailed_results saved, 200), st) /\
       (result = "WON" \/ result = "LOST") /\
       (result = "WON"
        <-> 7 <= count_matches Sample.seven_right Sample.ten_labels)) /\
   matches "A" "a" = true /\
   outcome 6 = "LOST" /\ outcome 7 = "WON").
Proof.
  split; [reflexivity |]. split; [reflexivity |].
  split; [discriminate |]. split; [reflexivity |].
  split; [reflexivity |]. split; [reflexivity |]. split; [reflexivity |].
  apply (score_counts_matches Sample.db Sample.db_up Sample.db_run
           Sample.playing []
           [("answers", JArr (map JStr Sample.seven_right))]
           Sample.seven_right Sample.ten_labels
           (Sample.held_quiz Sample.ten_labels)).
  - reflexivity.
  - reflexivity.
  - discriminate.
  - reflexivity.
  - reflexivity.
  - reflexivity.
Defined.

(** C9 on a scored submit followed by a second one, and on a rejected one. *)
Lemma submit_twice_witness :
  (exists rows,
      fst (api_submit_game Sample.db Sample.db_up Sample.db_run
                           (Sample.submit Sample.ten_capitals)
                           (Sample.playing, []))
      = Ok (Scored 10 10 "WON" (JStr "Oceans") rows true, 200)) /\
  api_submit_game Sample.db Sample.db_up Sample.db_run
    (Sample.submit Sample.ten_capitals)
    (snd (api_submit_game Sample.db Sample.db_up Sample.db_run
                          (Sample.submit Sample.ten_capitals)
                          (Sample.playing, [])))
  = (Ok (Failure "No active quiz found", 400),
     snd (api_submit_game Sample.db Sample.db_up Sample.db_run
                          (Sample.submit Sample.ten_capitals)
                          (Sample.playing, []))) /\
  snd (api_submit_game Sample.db Sample.db_up Sample.db_run
                       (Sample.submit Sample.nine_answers)
                       (Sample.playing, []))
  = (Sample.playing, []).
Proof.
  destruct (submit_session_atomic Sample.db Sample.db_up Sample.db_run
              (Sample.submit Sample.ten_capitals) Sample.playing [])
    as [_ [_ Hscored]].
  destruct (submit_session_atomic Sample.db Sample.db_up Sample.db_run
              (Sample.submit Sample.nine_answers) Sample.playing [])
    as [Hfailed _].
  split; [eexists; vm_compute; reflexivity |]. split.
  - eapply Hscored. vm_compute. reflexivity.
  - eapply Hfailed. vm_compute. reflexivity.
Defined.

(** Three held questions, two right answers, a database that cannot be
    reached: the result is returned with [saved] false and [total] 10, and
    the quiz is gone from the session. *)
Lemma unsaved_result_returned :
  exists rows,
    api_submit_game Sample.db Sample.db_down Sample.db_run
                    (Sample.submit ["A"; "b"; "x"]) (Sample.short_quiz, [])
    = (Ok (Scored 2 10 "LOST" (JStr "Oceans") rows false, 200),
       (clear_quiz Sample.short_quiz, [])).
Proof. eexists. vm_compute. reflexivity. Qed.


(** ** More about [create_game_history] *)

(** X20: with a connection, [create_game_history] sends INSERT, UPDATE of
    games_played, UPDATE of games_won when the result is WON and only then,
    and COMMIT, in this order; it stops at the first statement the server
    refuses and reports success exactly when all were executed; without a
    connection it sends nothing. *)
Theorem history_statements {D : Type} (connect : D -> bool)
    (execute : D -> statement -> bool * D)
    (uid : option Z) (topic : json) (score : nat) (result0 : string)
    (db : D) (sent0 : list statement) :
  create_game_history (D * list statement) (observed_connect connect)
                      (observed_execute execute) uid topic score result0
                      (db, sent0)
  = if connect db
    then match run_script execute db
                 (history_script uid topic score result0) with
         | (ok, db', sent) =>
             ({| Saved.success := ok;
                 Saved.message := if ok then "Game history saved successfully"
                                  else "Failed to save game history" |},
              (db', (sent0 ++ sent)%list))
         end
    else ({| Saved.success := false;
             Saved.message := "Database connection failed" |}, (db, sent0)).
Proof.
  unfold create_game_history, observed_connect, observed_execute,
    history_script.
  cbn [fst snd]. destruct (connect db); cbn [negb]; [| reflexivity].
  cbn [app run_script].
  destruct (execute db (InsertGameHistory uid topic score result0))
    as [[|] db1]; [| reflexivity].
  cbn [fst snd].
  destruct (execute db1 (UpdateGamesPlayed uid)) as [[|] db2];
    [| now rewrite <- app_assoc].
  cbn [fst snd].
  destruct (String.eqb result0 "WON"); cbn [app run_script].
  - destruct (execute db2 (UpdateGamesWon uid)) as [[|] db3];
      [| now rewrite <- !app_assoc].
    cbn [fst snd].
    destruct (execute db3 Commit) as [[|] db4]; now rewrite <- !app_assoc.
  - cbn [fst snd].
    destruct (execute db2 Commit) as [[|] db4]; now rewrite <- !app_assoc.
Qed.

(** ** The further statements on sample runs *)

(** X1 on a response with blanks around it. *)
Lemma clean_plain_text_witness :
  PyStr.contains "`" Sample.padded_text = false /\
  clean_json_response Sample.padded_text = PyStr.strip Sample.padded_text.
Proof.
  split; [reflexivity |].
  apply (clean_plain_text Sample.padded_text). reflexivity.
Defined.

(** X2 on a payload between newlines. *)
Lemma clean_fenced_block_witness :
  PyStr.contains "`" Sample.fenced_payload = false /\
  clean_json_response ("```json" ++ Sample.fenced_payload ++ "```")
  = PyStr.strip Sample.fenced_payload /\
  (String.prefix "json" Sample.fenced_payload = false ->
   clean_json_response ("```" ++ Sample.fenced_payload ++ "```")
   = PyStr.strip Sample.fenced_payload).
Proof.
  split; [reflexivity |].
  apply (clean_fenced_block Sample.fenced_payload). reflexivity.
Defined.

(** The payload of the sample comes out as the JSON text alone. *)
Lemma fenced_sample_cleaned :
  clean_json_response (Sample.fenced (Sample.dumps Sample.bare_tier))
  = Sample.dumps Sample.bare_tier.
Proof. vm_compute. reflexivity. Qed.

(** X5 on the run in which the medium call fails: two calls. *)
Lemma generate_quiz_calls_witness :
  generate_quiz Sample.medium_down_service Sample.medium_down_loads Sample.int
                " Oceans " []
  = (Ok {| success := false;
           message := "Failed to generate medium questions. Please try again.";
           questions := []; topic := None |},
     [Sample.easy_call; Sample.medium_call]) /\
  exists made rest,
    [Sample.easy_call; Sample.medium_call] = ([] ++ made)%list /\
    tier_calls (PyStr.strip " Oceans ") = (made ++ rest)%list /\
    (made = [] <-> PyStr.strip " Oceans " = EmptyString) /\
    (PyStr.strip " Oceans " = EmptyString ->
     Ok {| success := false;
           message := "Failed to generate medium questions. Please try again.";
           questions := []; topic := None |}
     = Ok {| success := false;
             message := "Please provide a topic for the quiz";
             questions := []; topic := None |}).
Proof.
  assert (H : forall P Q : Prop, P -> (P -> Q) -> P /\ Q) by tauto.
  apply H.
  - vm_compute. reflexivity.
  - apply (generate_quiz_calls Sample.medium_down_service
             Sample.medium_down_loads Sample.int " Oceans " []).
Defined.

Lemma sample_entries_well_formed (n : nat) (label : string) :
  n <= 5 -> well_formed_tier Sample.int (JObj (Sample.entries n label)).
Proof.
  intros Hn. exists (Sample.entries n label). split; [reflexivity |].
  do 6 (destruct n as [| n]; [split; cbn; repeat constructor;
         try discriminate; do 3 eexists; repeat split; reflexivity |]).
  lia.
Qed.

(** The run on the service whose easy answer has the keys ["10"], ["2"],
    ["1"], ["7"] and ["3"]: the easy questions come out in the order 1, 2,
    3, 7, 10 of their keys and take the numbers 1 to 5. *)
Lemma shuffled_quiz_in_numeric_order :
  exists r,
    generate_quiz Sample.shuffled_service Sample.shuffled_loads Sample.int
                  "Oceans" []
    = (Ok r, [Sample.easy_call; Sample.medium_call; Sample.hard_call]) /\
    success r = true /\
    map question (firstn 5 (questions r))
    = [JStr "first"; JStr "second"; JStr "third"; JStr "seventh";
       JStr "tenth"] /\
    map question_number (questions r) = [1; 2; 3; 4; 5; 6; 7; 8; 9; 10].
Proof.
  eexists. split; [vm_compute; reflexivity |]. repeat split.
Qed.

(** C7 on that run. *)
Lemma tiers_in_numeric_order_witness :
  PyStr.strip "Oceans" <> EmptyString /\
  returned Sample.shuffled_service Sample.shuffled_loads []
           {| call_topic := PyStr.strip "Oceans"; call_number := 5;
              call_difficulty := "EASY" |}
           (JObj Sample.shuffled_easy) /\
  returned Sample.shuffled_service Sample.shuffled_loads
           ([] ++ [ {| call_topic := PyStr.strip "Oceans"; call_number := 5;
                       call_difficulty := "EASY" |} ])
           {| call_topic := PyStr.strip "Oceans"; call_number := 3;
              call_difficulty := "MEDIUM" |}
           (JObj (Sample.entries 3 "MEDIUM")) /\
  returned Sample.shuffled_service Sample.shuffled_loads
           ([] ++ [ {| call_topic := PyStr.strip "Oceans"; call_number := 5;
                       call_difficulty := "EASY" |};
                    {| call_topic := PyStr.strip "Oceans"; call_number := 3;
                       call_difficulty := "MEDIUM" |} ])
           {| call_topic := PyStr.strip "Oceans"; call_number := 2;
              call_difficulty := "HARD" |}
           (JObj (Sample.entries 2 "HARD")) /\
  well_formed_tier Sample.int (JObj Sample.shuffled_easy) /\
  well_formed_tier Sample.int (JObj (Sample.entries 3 "MEDIUM")) /\
  well_formed_tier Sample.int (JObj (Sample.entries 2 "HARD")) /\
  List.length Sample.shuffled_easy
  + List.length (Sample.entries 3 "MEDIUM")
  + List.length (Sample.entries 2 "HARD") = 10 /\
  exists ks1 ks2 ks3 a1 a2 a3,
    (Permutation ks1 (map fst Sample.shuffled_easy) /\
     StronglySorted (key_le Sample.int) ks1 /\
     Forall2 (built_from (JObj Sample.shuffled_easy)) ks1 a1) /\
    (Permutation ks2 (map fst (Sample.entries 3 "MEDIUM")) /\
     StronglySorted (key_le Sample.int) ks2 /\
     Forall2 (built_from (JObj (Sample.entries 3 "MEDIUM"))) ks2 a2) /\
    (Permutation ks3 (map fst (Sample.entries 2 "HARD")) /\
     StronglySorted (key_le Sample.int) ks3 /\
     Forall2 (built_from (JObj (Sample.entries 2 "HARD"))) ks3 a3) /\
    map question_number (a1 ++ a2 ++ a3)%list = seq 1 10 /\
    generate_quiz Sample.shuffled_service Sample.shuffled_loads Sample.int
                  "Oceans" []
    = (Ok {| success := true; message := "Quiz generated successfully";
             questions := (a1 ++ a2 ++ a3)%list;
             topic := Some (PyStr.strip "Oceans") |},
       ([] ++ tier_calls (PyStr.strip "Oceans"))%list).
Proof.
  assert (H : forall P1 P2 P3 P4 P5 P6 P7 P8 Q : Prop,
             P1 -> P2 -> P3 -> P4 -> P5 -> P6 -> P7 -> P8 ->
             (P1 -> P2 -> P3 -> P4 -> P5 -> P6 -> P7 -> P8 -> Q) ->
             P1 /\ P2 /\ P3 /\ P4 /\ P5 /\ P6 /\ P7 /\ P8 /\ Q) by tauto.
  apply H.
  - intros E. vm_compute in E. discriminate E.
  - vm_compute. reflexivity.
  - vm_compute. reflexivity.
  - vm_compute. reflexivity.
  - exists Sample.shuffled_easy. split; [reflexivity |].
    split; cbn; repeat constructor; try discriminate;
      do 3 eexists; repeat split; reflexivity.
  - apply sample_entries_well_formed. lia.
  - apply sample_entries_well_formed. lia.
  - reflexivity.
  - apply (tiers_appended_in_numeric_order Sample.shuffled_service
             Sample.shuffled_loads Sample.int "Oceans" []).
Defined.

(** X6 on the service that answers with 5, 3 and 3 entries. *)
Lemma count_mismatch_witness :
  PyStr.strip "Oceans" <> EmptyString /\
  returned Sample.eleven_service Sample.eleven_loads []
           {| call_topic := PyStr.strip "Oceans"; call_number := 5;
              call_difficulty := "EASY" |}
           (JObj (Sample.entries 5 "EASY")) /\
  returned Sample.eleven_service Sample.eleven_loads
           ([] ++ [ {| call_topic := PyStr.strip "Oceans"; call_number := 5;
                       call_difficulty := "EASY" |} ])
           {| call_topic := PyStr.strip "Oceans"; call_number := 3;
              call_difficulty := "MEDIUM" |}
           (JObj (Sample.entries 3 "MEDIUM")) /\
  returned Sample.eleven_service Sample.eleven_loads
           ([] ++ [ {| call_topic := PyStr.strip "Oceans"; call_number := 5;
                       call_difficulty := "EASY" |};
                    {| call_topic := PyStr.strip "Oceans"; call_number := 3;
                       call_difficulty := "MEDIUM" |} ])
           {| call_topic := PyStr.strip "Oceans"; call_number := 2;
              call_difficulty := "HARD" |}
           (JObj (Sample.entries 3 "HARD")) /\
  well_formed_tier Sample.int (JObj (Sample.entries 5 "EASY")) /\
  well_formed_tier Sample.int (JObj (Sample.entries 3 "MEDIUM")) /\
  well_formed_tier Sample.int (JObj (Sample.entries 3 "HARD")) /\
  List.length (Sample.entries 5 "EASY")
  + List.length (Sample.entries 3 "MEDIUM")
  + List.length (Sample.entries 3 "HARD") <> 10 /\
  generate_quiz Sample.eleven_service Sample.eleven_loads Sample.int
                "Oceans" []
  = (Ok {| success := false;
           message := "Expected 10 questions but got "
                      ++ PyStr.of_nat
                           (List.length (Sample.entries 5 "EASY")
                            + List.length (Sample.entries 3 "MEDIUM")
                            + List.length (Sample.entries 3 "HARD"))
                      ++ ". Please try again.";
           questions := []; topic := None |},
     ([] ++ tier_calls (PyStr.strip "Oceans"))%list).
Proof.
  assert (H : forall P1 P2 P3 P4 P5 P6 P7 P8 Q : Prop,
             P1 -> P2 -> P3 -> P4 -> P5 -> P6 -> P7 -> P8 ->
             (P1 -> P2 -> P3 -> P4 -> P5 -> P6 -> P7 -> P8 -> Q) ->
             P1 /\ P2 /\ P3 /\ P4 /\ P5 /\ P6 /\ P7 /\ P8 /\ Q) by tauto.
  apply H.
  - intros E. vm_compute in E. discriminate E.
  - vm_compute. reflexivity.
  - vm_compute. reflexivity.
  - vm_compute. reflexivity.
  - apply sample_entries_well_formed. lia.
  - apply sample_entries_well_formed. lia.
  - apply sample_entries_well_formed. lia.
  - vm_compute. discriminate.
  - apply (count_mismatch_reported Sample.eleven_service Sample.eleven_loads
             Sample.int "Oceans" []).
Defined.

(** Every answer of the service that answers as asked is well formed. *)
Lemma good_service_well_formed (before : list call) (c : call) (v : json) :
  returned Sample.good_service Sample.good_loads before c v ->
  v = JNull \/ well_formed_tier Sample.int v.
Proof.
  unfold returned, generate_questions_by_difficulty, Sample.good_service,
    Sample.answering, Sample.service.
  cbn [call_difficulty call_topic call_number].
  assert (E : Sample.good_loads
                (clean_json_response
                   (Sample.fenced (Sample.dumps (Sample.tier 5 "EASY"))))
              = Ok (JObj (Sample.entries 5 "EASY")))
    by (vm_compute; reflexivity).
  assert (M : Sample.good_loads
                (clean_json_response (Sample.dumps (Sample.tier 3 "MEDIUM")))
              = Ok (JObj (Sample.entries 3 "MEDIUM")))
    by (vm_compute; reflexivity).
  assert (R : Sample.good_loads
                (clean_json_response (Sample.dumps (Sample.tier 2 "HARD")))
              = Ok (JObj (Sample.entries 2 "HARD")))
    by (vm_compute; reflexivity).
  destruct (String.eqb (call_difficulty c) "EASY");
    [rewrite E | destruct (String.eqb (call_difficulty c) "MEDIUM");
                 [rewrite M | rewrite R]];
    intros H; injection H as <-; right;
    apply sample_entries_well_formed; lia.
Qed.

(** X7 on the service that answers as asked. *)
Lemma never_raise_witness :
  (forall before c, Sample.good_service before c <> Raise JSONDecodeError) /\
  (forall before c v,
     returned Sample.good_service Sample.good_loads before c v ->
     v = JNull \/ well_formed_tier Sample.int v) /\
  forall topic log,
  exists r log',
    generate_quiz Sample.good_service Sample.good_loads Sample.int topic log
    = (Ok r, log').
Proof.
  assert (Hdec : forall before c,
             Sample.good_service before c <> Raise JSONDecodeError).
  { intros before c. unfold Sample.good_service, Sample.answering,
      Sample.service.
    destruct (String.eqb (call_difficulty c) "EASY"); [discriminate |].
    destruct (String.eqb (call_difficulty c) "MEDIUM"); discriminate. }
  split; [exact Hdec |]. split; [exact good_service_well_formed |].
  apply (well_formed_answers_never_raise Sample.good_service Sample.good_loads
           Sample.int).
  - exact Hdec.
  - exact good_service_well_formed.
Defined.

(** X8 on the run of the service that answers as asked. *)
Lemma success_contents_witness :
  exists r log',
    generate_quiz Sample.good_service Sample.good_loads Sample.int
                  " Oceans " []
    = (Ok r, log') /\
    success r = true /\
    List.length (questions r) = 10 /\
    map question_number (questions r) = seq 1 10 /\
    (exists a b c,
        a + b + c = 10 /\
        map difficulty (questions r)
        = (repeat "EASY" a ++ repeat "MEDIUM" b ++ repeat "HARD" c)%list) /\
    topic r = Some (PyStr.strip " Oceans ") /\
    message r = "Quiz generated successfully" /\
    log' = ([] ++ tier_calls (PyStr.strip " Oceans "))%list.
Proof.
  eexists. eexists.
  assert (H : forall P Q R : Prop, P -> Q -> (P -> Q -> R) -> P /\ Q /\ R)
    by tauto.
  apply H.
  - vm_compute. reflexivity.
  - reflexivity.
  - apply (success_contents Sample.good_service Sample.good_loads Sample.int
             " Oceans " []).
Defined.

(** An easy answer with a word as key raises ValueError. *)
Lemma worded_key_raises :
  generate_quiz Sample.worded_service Sample.worded_loads Sample.int
                "Oceans" []
  = (Raise ValueError, [Sample.easy_call]).
Proof. vm_compute. reflexivity. Qed.

(** X9 on an easy answer that is a JSON array. *)
Lemma malformed_answer_witness :
  PyStr.strip "Oceans" <> EmptyString /\
  returned Sample.array_service Sample.array_loads []
           {| call_topic := PyStr.strip "Oceans"; call_number := 5;
              call_difficulty := "EASY" |} (JArr [JStr "Q1"]) /\
  (JArr [JStr "Q1"] <> JNull -> (forall kvs, JArr [JStr "Q1"] <> JObj kvs) ->
   generate_quiz Sample.array_service Sample.array_loads Sample.int
                 "Oceans" []
   = (Raise AttributeError,
      ([] ++ [ {| call_topic := PyStr.strip "Oceans"; call_number := 5;
                  call_difficulty := "EASY" |} ])%list)) /\
  (forall kvs,
     JArr [JStr "Q1"] = JObj kvs ->
     Exists (fun k => Sample.int k = None) (map fst kvs) ->
     generate_quiz Sample.array_service Sample.array_loads Sample.int
                   "Oceans" []
     = (Raise ValueError,
        ([] ++ [ {| call_topic := PyStr.strip "Oceans"; call_number := 5;
                    call_difficulty := "EASY" |} ])%list)).
Proof.
  assert (H : forall P Q R : Prop, P -> Q -> (P -> Q -> R) -> P /\ Q /\ R)
    by tauto.
  apply H.
  - intros E. vm_compute in E. discriminate E.
  - vm_compute. reflexivity.
  - apply (malformed_answer_raises Sample.array_service Sample.array_loads
             Sample.int "Oceans" [] (JArr [JStr "Q1"])).
Defined.

(** X10 on the service that answers with a sentence. *)
Lemma decode_error_witness :
  Sample.chatty_service [] Sample.easy_call
  = Ok "Sorry, I cannot help with that." /\
  Sample.good_loads (clean_json_response "Sorry, I cannot help with that.")
  = Raise JSONDecodeError /\
  generate_questions_by_difficulty Sample.chatty_service Sample.good_loads
                                   "Oceans" 5 "EASY" []
  = (Ok JNull, [Sample.easy_call]).
Proof.
  assert (H : forall P Q R : Prop, P -> Q -> (P -> Q -> R) -> P /\ Q /\ R)
    by tauto.
  apply H.
  - reflexivity.
  - vm_compute. reflexivity.
  - apply (decode_error_returns_none Sample.chatty_service Sample.good_loads
             "Oceans" 5 "EASY" []).
Defined.

(** An anonymous request is refused and nothing is asked of the service. *)
Lemma anonymous_generate_refused :
  api_generate_game Sample.good_service Sample.good_loads Sample.int
                    (Sample.ask "Oceans") (Sample.anonymous, [])
  = (Ok (Refused "Not logged in", 401), (Sample.anonymous, [])).
Proof. vm_compute. reflexivity. Qed.

(** X11 on a request with a blank topic. *)
Lemma generate_refusals_witness :
  is_logged_in Sample.idle = true /\
  Py.lookup "topic" [("topic", JStr "   ")] = Some (JStr "   ") /\
  PyStr.strip "   " = EmptyString /\
  api_generate_game Sample.good_service Sample.good_loads Sample.int
                    (Sample.ask "   ") (Sample.idle, [])
  = (Ok (Refused "Topic is required", 400), (Sample.idle, [])).
Proof.
  split; [reflexivity |]. split; [reflexivity |]. split; [reflexivity |].
  destruct (generate_refusals Sample.good_service Sample.good_loads Sample.int
              (Sample.ask "   ") Sample.idle []) as [_ [_ [_ H]]].
  apply (H [("topic", JStr "   ")] "   "); reflexivity.
Defined.


(** X13 on a generate that fails while a quiz is held: the quiz stays. *)
Lemma generate_failure_witness :
  api_generate_game Sample.medium_down_service Sample.medium_down_loads
                    Sample.int (Sample.ask "Oceans") (Sample.playing, [])
  = (Ok (Generated
           (failed "Failed to generate medium questions. Please try again."),
         500),
     (Sample.playing, [Sample.easy_call; Sample.medium_call])) /\
  (forall b,
     Ok (Generated
           (failed "Failed to generate medium questions. Please try again."),
         500)
     <> Ok (b, 200)) /\
  Sample.playing = Sample.playing.
Proof.
  assert (H : forall P Q R : Prop, P -> Q -> (P -> Q -> R) -> P /\ Q /\ R)
    by tauto.
  apply H.
  - vm_compute. reflexivity.
  - intros b E. discriminate E.
  - apply (generate_failure_keeps_session Sample.medium_down_service
             Sample.medium_down_loads Sample.int (Sample.ask "Oceans")
             Sample.playing Sample.playing []
             [Sample.easy_call; Sample.medium_call]).
Defined.

(** X14 on a request whose topic is the number 5. *)
Lemma generate_bad_request_witness :
  is_logged_in Sample.idle = true /\
  api_generate_game Sample.good_service Sample.good_loads Sample.int
                    (JObj [("topic", JNum 5)]) (Sample.idle, [])
  = (Raise AttributeError, (Sample.idle, [])).
Proof.
  split; [reflexivity |].
  destruct (generate_bad_request_raises Sample.good_service Sample.good_loads
              Sample.int (JObj [("topic", JNum 5)]) Sample.idle []
              eq_refl) as [_ H].
  apply (H [("topic", JNum 5)] (JNum 5)); try reflexivity.
  intros t E. discriminate E.
Defined.

(** X15 on the submit with seven right answers. *)
Lemma scored_result_witness :
  exists topic0 rows st,
    api_submit_game Sample.db Sample.db_up Sample.db_run
                    (Sample.submit Sample.seven_right) (Sample.playing, [])
    = (Ok (Scored 7 10 "WON" topic0 rows true, 200), st) /\
    List.length rows = List.length (held_questions Sample.playing) /\
    7 = correct_rows rows /\
    7 <= List.length (held_questions Sample.playing) /\
    10 = 10 /\ 200 = 200 /\ "WON" = outcome 7.
Proof.
  do 3 eexists.
  assert (H : forall P Q : Prop, P -> (P -> Q) -> P /\ Q) by tauto.
  apply H.
  - vm_compute. reflexivity.
  - apply (scored_result_consistent Sample.db Sample.db_up Sample.db_run
             (Sample.submit Sample.seven_right) Sample.playing []).
Defined.

(** X16 on the submit with seven right answers. *)
Lemma scored_rows_witness :
  is_logged_in Sample.playing = true /\
  current_questions Sample.playing = Some (Sample.held_quiz Sample.ten_labels) /\
  Sample.held_quiz Sample.ten_labels <> [] /\
  Py.lookup "answers" [("answers", JArr (map JStr Sample.seven_right))]
  = Some (JArr (map JStr Sample.seven_right)) /\
  map correct (Sample.held_quiz Sample.ten_labels)
  = map JStr Sample.ten_labels /\
  List.length Sample.seven_right
  = List.length (Sample.held_quiz Sample.ten_labels) /\
  exists score result0 topic0 rows saved st,
    api_submit_game Sample.db Sample.db_up Sample.db_run
                    (Sample.submit Sample.seven_right) (Sample.playing, [])
    = (Ok (Scored score 10 result0 topic0 rows saved, 200), st) /\
    map Detail.question_number rows
    = seq 1 (List.length (Sample.held_quiz Sample.ten_labels)) /\
    map Detail.user_answer rows = map PyStr.lower Sample.seven_right /\
    map Detail.correct_answer rows = map PyStr.lower Sample.ten_labels /\
    map Detail.is_correct rows
    = map (fun p => matches (fst p) (snd p))
          (combine Sample.seven_right Sample.ten_labels) /\
    map Detail.question rows
    = map question (Sample.held_quiz Sample.ten_labels) /\
    map Detail.difficulty rows
    = map difficulty (Sample.held_quiz Sample.ten_labels).
Proof.
  split; [reflexivity |]. split; [reflexivity |].
  split; [discriminate |]. split; [reflexivity |].
  split; [reflexivity |]. split; [reflexivity |].
  apply (scored_rows Sample.db Sample.db_up Sample.db_run Sample.playing
           [("answers", JArr (map JStr Sample.seven_right))]
           Sample.seven_right Sample.ten_labels
           (Sample.held_quiz Sample.ten_labels) []);
    try reflexivity.
  discriminate.
Defined.

(** A submit that names another topic than the one of the quiz: that topic
    is returned and sent to the database. *)
Lemma other_topic_recorded :
  exists rows,
    api_submit_game Sample.db Sample.db_up Sample.db_run
      (JObj [("answers", JArr (map JStr ["a"; "b"; "c"]));
             ("topic", JStr "Deserts")])
      (Sample.short_quiz, [])
    = (Ok (Scored 3 10 "LOST" (JStr "Deserts") rows true, 200),
       (clear_quiz Sample.short_quiz,
        [InsertGameHistory (Some 1%Z) (JStr "Deserts") 3 "LOST";
         UpdateGamesPlayed (Some 1%Z); Commit])).
Proof. eexists. vm_compute. reflexivity. Qed.

(** X17 on a submit without a topic. *)
Lemma submit_records_topic_witness :
  is_logged_in Sample.short_quiz = true /\
  current_questions Sample.short_quiz
  = Some (Sample.held_quiz ["a"; "b"; "c"]) /\
  Sample.held_quiz ["a"; "b"; "c"] <> [] /\
  Py.lookup "answers" [("answers", JArr (map JStr ["A"; "b"; "x"]))]
  = Some (JArr (map JStr ["A"; "b"; "x"])) /\
  map correct (Sample.held_quiz ["a"; "b"; "c"]) = map JStr ["a"; "b"; "c"] /\
  List.length ["A"; "b"; "x"] = List.length (Sample.held_quiz ["a"; "b"; "c"]) /\
  recorded_topic [("answers", JArr (map JStr ["A"; "b"; "x"]))]
                 Sample.short_quiz
  = JStr "Oceans" /\
  exists score result0 rows,
    api_submit_game Sample.db Sample.db_up Sample.db_run
                    (Sample.submit ["A"; "b"; "x"]) (Sample.short_quiz, [])
    = (Ok (Scored score 10 result0
                  (recorded_topic
                     [("answers", JArr (map JStr ["A"; "b"; "x"]))]
                     Sample.short_quiz)
                  rows
                  (Saved.success
                     (fst (create_game_history Sample.db Sample.db_up
                             Sample.db_run (user_id Sample.short_quiz)
                             (recorded_topic
                                [("answers", JArr (map JStr ["A"; "b"; "x"]))]
                                Sample.short_quiz)
                             score result0 []))),
           200),
       ({| user_id := user_id Sample.short_quiz; current_topic := None;
           current_questions := None |},
        snd (create_game_history Sample.db Sample.db_up Sample.db_run
               (user_id Sample.short_quiz)
               (recorded_topic
                  [("answers", JArr (map JStr ["A"; "b"; "x"]))]
                  Sample.short_quiz)
               score result0 []))) /\
    (forall v,
       Py.lookup "topic" [("answers", JArr (map JStr ["A"; "b"; "x"]))]
       = Some v ->
       Py.truthy v = true ->
       recorded_topic [("answers", JArr (map JStr ["A"; "b"; "x"]))]
                      Sample.short_quiz = v) /\
    (Py.lookup "topic" [("answers", JArr (map JStr ["A"; "b"; "x"]))] = None ->
     forall t,
       current_topic Sample.short_quiz = Some t ->
       recorded_topic [("answers", JArr (map JStr ["A"; "b"; "x"]))]
                      Sample.short_quiz = JStr t) /\
    (Py.lookup "topic" [("answers", JArr (map JStr ["A"; "b"; "x"]))] = None ->
     current_topic Sample.short_quiz = None ->
     recorded_topic [("answers", JArr (map JStr ["A"; "b"; "x"]))]
                    Sample.short_quiz = JStr "Unknown Topic").
Proof.
  split; [reflexivity |]. split; [reflexivity |].
  split; [discriminate |]. split; [reflexivity |].
  split; [reflexivity |]. split; [reflexivity |]. split; [reflexivity |].
  apply (submit_records_topic Sample.db Sample.db_up Sample.db_run
           Sample.short_quiz
           [("answers", JArr (map JStr ["A"; "b"; "x"]))]
           ["A"; "b"; "x"] ["a"; "b"; "c"]
           (Sample.held_quiz ["a"; "b"; "c"]) []);
    try reflexivity.
  discriminate.
Defined.

(** X18 on answers of which the second is a number. *)
Lemma submit_bad_request_witness :
  is_logged_in Sample.short_quiz = true /\
  Exists (fun a => forall t, a <> JStr t) Sample.mixed_answers /\
  api_submit_game Sample.db Sample.db_up Sample.db_run
                  (JObj [("answers", JArr Sample.mixed_answers)])
                  (Sample.short_quiz, [])
  = (Raise AttributeError, (Sample.short_quiz, [])).
Proof.
  assert (Hex : Exists (fun a => forall t, a <> JStr t) Sample.mixed_answers).
  { apply Exists_cons_tl, Exists_cons_hd. intros t E. discriminate E. }
  split; [reflexivity |]. split; [exact Hex |].
  destruct (submit_bad_request_raises Sample.db Sample.db_up Sample.db_run
              (JObj [("answers", JArr Sample.mixed_answers)])
              Sample.short_quiz [] eq_refl) as [_ H].
  apply (H [("answers", JArr Sample.mixed_answers)] Sample.mixed_answers
           ["a"; "b"; "c"] (Sample.held_quiz ["a"; "b"; "c"]));
    try reflexivity; [discriminate | exact Hex].
Defined.

(** X19 on a generate followed by a submit of nine answers. *)
Lemma generate_then_submit_witness :
  exists r s' log',
    api_generate_game Sample.good_service Sample.good_loads Sample.int
                      (Sample.ask "Oceans") (Sample.idle, [])
    = (Ok (Generated r, 200), (s', log')) /\
    api_submit_game Sample.db Sample.db_up Sample.db_run
                    (Sample.submit Sample.nine_answers) (s', [])
    = (Ok (Failure ("Expected 10 answers but received " ++ PyStr.of_nat 9),
           400), (s', [])) /\
    exists topic0 rows saved db',
      api_submit_game Sample.db Sample.db_up Sample.db_run
        (Sample.submit ["a"; "a"; "a"; "a"; "a"; "a"; "a"; "a"; "a"; "a"])
        (s', [])
      = (Ok (Scored 10 10 "WON" topic0 rows saved, 200),
         ({| user_id := user_id Sample.idle; current_topic := None;
             current_questions := None |}, db')).
Proof.
  do 3 eexists.
  assert (H : forall P Q R : Prop, P -> (P -> Q /\ R) -> P /\ Q /\ R) by tauto.
  apply H.
  - vm_compute. reflexivity.
  - intros Hgen.
    destruct (generate_then_submit Sample.good_service Sample.good_loads
                Sample.int Sample.db Sample.db_up Sample.db_run
                _ _ _ _ _ _ [] Hgen) as [Hcount Hown].
    split.
    + apply (Hcount [("answers", JArr (map JStr Sample.nine_answers))] 9);
        [reflexivity | discriminate].
    + apply (Hown
               [("answers",
                 JArr (map JStr ["a"; "a"; "a"; "a"; "a"; "a"; "a"; "a"; "a";
                                 "a"]))]
               ["a"; "a"; "a"; "a"; "a"; "a"; "a"; "a"; "a"; "a"]);
        reflexivity.
Defined.

(** The statements of a won game arrive in order; a server that refuses
    every UPDATE stops the saving after the second statement. *)
Lemma refused_update_stops_saving :
  create_game_history (Sample.db * list statement)
    (observed_connect Sample.db_up) (observed_execute Sample.db_no_update)
    (Some 1%Z) (JStr "Oceans") 7 "WON" ([], [])
  = ({| Saved.success := false;
        Saved.message := "Failed to save game history" |},
     ([InsertGameHistory (Some 1%Z) (JStr "Oceans") 7 "WON"],
      [InsertGameHistory (Some 1%Z) (JStr "Oceans") 7 "WON";
       UpdateGamesPlayed (Some 1%Z)])).
Proof. vm_compute. reflexivity. Qed.

(** *** Accounts *)

(** X21 on a signup with padded credentials: the account is created with
    the stripped strings. *)
Lemma signup_created_witness :
  api_signup Sample.db Sample.db_up Sample.users_fetch Sample.users_write
             (Sample.credentials "  grace " " hopper") []
  = (Ok ({| Saved.success := true;
            Saved.message := "Account created successfully" |}, 201), []) /\
  exists kvs u p,
    Sample.credentials "  grace " " hopper" = JObj kvs /\
    Py.lookup "username" kvs = Some (JStr u) /\
    Py.lookup "password" kvs = Some (JStr p) /\
    3 <= String.length (PyStr.strip u) /\
    4 <= String.length (PyStr.strip p) /\
    create_user Sample.db Sample.db_up Sample.users_fetch Sample.users_write
                (PyStr.strip u) (PyStr.strip p) []
    = ({| Saved.success := true;
          Saved.message := "Account created successfully" |}, []) /\
    Saved.success {| Saved.success := true;
                     Saved.message := "Account created successfully" |}
    = true.
Proof.
  assert (H : forall P Q : Prop, P -> (P -> Q) -> P /\ Q) by tauto.
  apply H.
  - vm_compute. reflexivity.
  - apply (signup_created_valid Sample.db Sample.db_up Sample.users_fetch
             Sample.users_write).
Defined.

(** X22 on a signup for a name that is taken: 400, and no success. *)
Lemma signup_status_witness :
  api_signup Sample.db Sample.db_up Sample.users_fetch Sample.users_write
             (Sample.credentials "ada" "byron") []
  = (Ok (refuse "Username already exists", 400), []) /\
  ((400 = 201 /\ Saved.success (refuse "Username already exists") = true) \/
   (400 = 400 /\ Saved.success (refuse "Username already exists") = false)).
Proof.
  assert (H : forall P Q : Prop, P -> (P -> Q) -> P /\ Q) by tauto.
  apply H.
  - vm_compute. reflexivity.
  - apply (signup_status Sample.db Sample.db_up Sample.users_fetch
             Sample.users_write).
Defined.

(** X23 on a username of two characters between blanks. *)
Lemma signup_short_witness :
  Py.lookup "username" [("username", JStr " al "); ("password", JStr "gebra")]
  = Some (JStr " al ") /\
  Py.lookup "password" [("username", JStr " al "); ("password", JStr "gebra")]
  = Some (JStr "gebra") /\
  (String.length (PyStr.strip " al ") < 3 \/
   String.length (PyStr.strip "gebra") < 4) /\
  exists message,
    In message ["Username is required"; "Password is required";
                "Username must be at least 3 characters";
                "Password must be at least 4 characters"] /\
    api_signup Sample.db Sample.db_up Sample.users_fetch Sample.users_write
               (Sample.credentials " al " "gebra") ([] : Sample.db)
    = (Ok ({| Saved.success := false; Saved.message := message |}, 400),
       []).
Proof.
  assert (H : forall P Q R S : Prop,
             P -> Q -> R -> (P -> Q -> R -> S) -> P /\ Q /\ R /\ S) by tauto.
  apply H.
  - reflexivity.
  - reflexivity.
  - left. vm_compute. lia.
  - apply (signup_short_refused Sample.db Sample.db_up Sample.users_fetch
             Sample.users_write
             [("username", JStr " al "); ("password", JStr "gebra")]
             " al " "gebra" []).
Defined.

(** A username of two characters: the message of the length check. *)
Lemma short_username_message :
  api_signup Sample.db Sample.db_up Sample.users_fetch Sample.users_write
             (Sample.credentials " al " "gebra") []
  = (Ok (refuse "Username must be at least 3 characters", 400), []).
Proof. vm_compute. reflexivity. Qed.

(** A password of blanks only: it is required, whatever its length. *)
Lemma blank_password_message :
  api_signup Sample.db Sample.db_up Sample.users_fetch Sample.users_write
             (Sample.credentials "grace" "      ") []
  = (Ok (refuse "Password is required", 400), []).
Proof. vm_compute. reflexivity. Qed.

(** X24 on a new name, on a server that executes every statement. *)
Lemma create_user_witness :
  create_user Sample.db Sample.db_up Sample.users_fetch Sample.users_write
              "grace" "hopper" []
  = ({| Saved.success := true;
        Saved.message := "Account created successfully" |}, []) /\
  (Saved.success {| Saved.success := true;
                    Saved.message := "Account created successfully" |} = true
   <->
   Sample.db_up [] = true /\
   exists db1 db2,
     Sample.users_fetch [] (UserByName "grace") = (NoRow, db1) /\
     Sample.users_write db1 (InsertUser "grace" "hopper") = (true, db2) /\
     Sample.users_write db2 CommitUser = (true, [])).
Proof.
  assert (H : forall P Q : Prop, P -> (P -> Q) -> P /\ Q) by tauto.
  apply H.
  - vm_compute. reflexivity.
  - apply (create_user_success Sample.db Sample.db_up Sample.users_fetch
             Sample.users_write).
Defined.

(** A server that refuses the INSERT: the account is not reported created. *)
Lemma refused_insert_fails :
  create_user Sample.db Sample.db_up Sample.users_fetch Sample.users_no_insert
              "grace" "hopper" []
  = (refuse "Failed to create account", []).
Proof. vm_compute. reflexivity. Qed.

(** X25 on the login of [ada] by a visitor who held a quiz without being
    logged in as her. *)
Lemma login_sets_session_witness :
  api_login Sample.db Sample.db_up Sample.users_fetch
            (Sample.credentials " ada" "lace ")
            ({| username := None; state := Sample.short_quiz |}, [])
  = (Ok (Plain true "Login successful", 200),
     ({| username := Some "ada"; state := Sample.short_quiz |}, [])) /\
  exists kvs u p id,
    Sample.credentials " ada" "lace " = JObj kvs /\
    Py.lookup "username" kvs = Some (JStr u) /\
    Py.lookup "password" kvs = Some (JStr p) /\
    Sample.db_up [] = true /\
    Sample.users_fetch [] (UserByLogin (PyStr.strip u) (PyStr.strip p))
      = (Row id, []) /\
    user_id Sample.short_quiz = Some id /\
    Some "ada" = Some (PyStr.strip u) /\
    current_topic Sample.short_quiz = current_topic Sample.short_quiz /\
    current_questions Sample.short_quiz
      = current_questions Sample.short_quiz /\
    is_logged_in Sample.short_quiz = true.
Proof.
  assert (H : forall P Q : Prop, P -> (P -> Q) -> P /\ Q) by tauto.
  apply H.
  - vm_compute. reflexivity.
  - apply (login_sets_session Sample.db Sample.db_up Sample.users_fetch
             (Sample.credentials " ada" "lace ")
             {| username := None; state := Sample.short_quiz |}
             {| username := Some "ada"; state := Sample.short_quiz |}).
Defined.

(** X26 on a wrong password: 401 with the dict of [verify_user_login], and
    the session of the stranger is kept. *)
Lemma login_failure_witness :
  api_login Sample.db Sample.db_up Sample.users_fetch
            (Sample.credentials "ada" "byron") (Sample.stranger, [])
  = (Ok (Verdict {| Login.success := false;
                    Login.message := "Invalid username or password";
                    Login.user_id := None |}, 401),
     (Sample.stranger, [])) /\
  (forall body,
     Ok (Verdict {| Login.success := false;
                    Login.message := "Invalid username or password";
                    Login.user_id := None |}, 401)
     <> Ok (body, 200)) /\
  Sample.stranger = Sample.stranger.
Proof.
  assert (H : forall P Q R : Prop, P -> Q -> (P -> Q -> R) -> P /\ Q /\ R)
    by tauto.
  apply H.
  - vm_compute. reflexivity.
  - intros b E. discriminate E.
  - apply (login_failure_keeps_session Sample.db Sample.db_up Sample.users_fetch
             (Sample.credentials "ada" "byron") Sample.stranger
             Sample.stranger [] []).
Defined.

(** A username that is a number: [strip] raises, and the session is kept. *)
Lemma login_number_raises :
  api_login Sample.db Sample.db_up Sample.users_fetch
            (JObj [("username", JNum 7); ("password", JStr "lace")])
            (Sample.stranger, ([] : Sample.db))
  = (Raise AttributeError, (Sample.stranger, [])).
Proof. vm_compute. reflexivity. Qed.
